(** * Geometric SE(3) controller of the mmuav multirotor: a shallow embedding

    The development follows [mmuav_control/src/UavGeometryControl.cpp].
    The controller is written once, over an abstract type of scalars that
    offers the operations the C++ code applies to [double].  Two instances
    are given:

    - [Scalar_R], the real numbers of the Standard Library: the idealised
      arithmetic in which the control law is designed, used for the
      algebraic properties (centre of mass, inertia, rotor allocation);
    - [Scalar_float], IEEE 754 binary64 ([PrimFloat]): the arithmetic of a
      C++ [double], used where the property is about NaN and infinities.

    Properties of the control flow (fatal errors, early returns, the gain
    callback) do not depend on the arithmetic and are proved for every
    instance. *)

From Stdlib Require Import ZArith List String Bool.
From Stdlib Require Import Reals Lra.
From Stdlib Require Import Floats.
Import ListNotations.

Set Implicit Arguments.

(** ** Scalars: what the code asks of [double] *)

Declare Scope scalar_scope.
Delimit Scope scalar_scope with S.

Class Scalar (T : Type) : Type := {
  of_Z : Z -> T;               (* integer literals and int -> double *)
  add  : T -> T -> T;
  sub  : T -> T -> T;
  mul  : T -> T -> T;
  div  : T -> T -> T;
  opp  : T -> T;
  sqrt : T -> T;               (* std::sqrt *)
  abs  : T -> T;               (* std::abs  *)
  ltb  : T -> T -> bool;       (* operator<  *)
  leb  : T -> T -> bool;       (* operator<= *)
  eqb  : T -> T -> bool        (* operator== *)
}.

Infix "+" := add : scalar_scope.
Infix "-" := sub : scalar_scope.
Infix "*" := mul : scalar_scope.
Infix "/" := div : scalar_scope.
Notation "- x" := (opp x) : scalar_scope.
Infix "<?" := ltb : scalar_scope.
Infix "<=?" := leb : scalar_scope.
Infix "=?" := eqb : scalar_scope.
Notation "x >? y" := (ltb y x) (only parsing) : scalar_scope.
Notation "x >=? y" := (leb y x) (only parsing) : scalar_scope.
Notation "x !=? y" := (negb (eqb x y)) (at level 70) : scalar_scope.

(** Boolean comparisons on the reals, from the decision procedures. *)
Definition Rltb (x y : R) : bool := if Rlt_dec x y then true else false.
Definition Rleb (x y : R) : bool := if Rle_dec x y then true else false.
Definition Reqb (x y : R) : bool := if Req_dec_T x y then true else false.

#[global] Instance Scalar_R : Scalar R := {|
  of_Z := IZR;
  add := Rplus; sub := Rminus; mul := Rmult; div := Rdiv; opp := Ropp;
  sqrt := R_sqrt.sqrt; abs := Rabs;
  ltb := Rltb; leb := Rleb; eqb := Reqb
|}.

(** Integers to binary64.  The literals of the source are small, so the
    conversion through [Uint63] is exact. *)
Definition float_of_Z (z : Z) : float :=
  match z with
  | Z0 => PrimFloat.zero
  | Zpos _ => PrimFloat.of_uint63 (Uint63.of_Z z)
  | Zneg p => PrimFloat.opp (PrimFloat.of_uint63 (Uint63.of_Z (Zpos p)))
  end.

#[global] Instance Scalar_float : Scalar float := {|
  of_Z := float_of_Z;
  add := PrimFloat.add; sub := PrimFloat.sub; mul := PrimFloat.mul;
  div := PrimFloat.div; opp := PrimFloat.opp;
  sqrt := PrimFloat.sqrt; abs := PrimFloat.abs;
  ltb := PrimFloat.ltb; leb := PrimFloat.leb; eqb := PrimFloat.eqb
|}.

(** ** Fixed-size Eigen vectors and matrices *)

Record Vector3 (T : Type) : Type := mkV3 { vx : T; vy : T; vz : T }.

(** [mIJ] is the entry [M(I, J)]. *)
Record Matrix3 (T : Type) : Type := mkM3 {
  m00 : T; m01 : T; m02 : T;
  m10 : T; m11 : T; m12 : T;
  m20 : T; m21 : T; m22 : T
}.

Record Vector4 (T : Type) : Type := mkV4 { w0 : T; w1 : T; w2 : T; w3 : T }.

(** A 4x4 matrix, by rows. *)
Record Matrix4 (T : Type) : Type := mkM4 {
  row0 : Vector4 T; row1 : Vector4 T; row2 : Vector4 T; row3 : Vector4 T
}.

Section LinearAlgebra.
Context {T : Type} `{Scalar T}.
Local Open Scope scalar_scope.

Definition zero : T := of_Z 0.
Definition one : T := of_Z 1.

(** *** 3-vectors *)
Definition vzero : Vector3 T := mkV3 zero zero zero.
Definition vmap (f : T -> T) (a : Vector3 T) : Vector3 T :=
  mkV3 (f (vx a)) (f (vy a)) (f (vz a)).
Definition vzip (f : T -> T -> T) (a b : Vector3 T) : Vector3 T :=
  mkV3 (f (vx a) (vx b)) (f (vy a) (vy b)) (f (vz a) (vz b)).
Definition vadd := vzip add.
Definition vsub := vzip sub.
Definition vneg := vmap opp.
Definition vscale (k : T) := vmap (mul k).        (* k * v *)
Definition vdiv (a : Vector3 T) (k : T) := vmap (fun x => x / k) a.
Definition dot (a b : Vector3 T) : T :=
  vx a * vx b + vy a * vy b + vz a * vz b.
Definition cross (a b : Vector3 T) : Vector3 T :=
  mkV3 (vy a * vz b - vz a * vy b)
       (vz a * vx b - vx a * vz b)
       (vx a * vy b - vy a * vx b).
Definition norm (a : Vector3 T) : T := sqrt (dot a a).

(** *** 3x3 matrices *)
Definition mrow0 (M : Matrix3 T) := mkV3 (m00 M) (m01 M) (m02 M).
Definition mrow1 (M : Matrix3 T) := mkV3 (m10 M) (m11 M) (m12 M).
Definition mrow2 (M : Matrix3 T) := mkV3 (m20 M) (m21 M) (m22 M).
Definition mcol0 (M : Matrix3 T) := mkV3 (m00 M) (m10 M) (m20 M).
Definition mcol1 (M : Matrix3 T) := mkV3 (m01 M) (m11 M) (m21 M).
Definition mcol2 (M : Matrix3 T) := mkV3 (m02 M) (m12 M) (m22 M).

Definition of_rows (a b c : Vector3 T) : Matrix3 T :=
  mkM3 (vx a) (vy a) (vz a) (vx b) (vy b) (vz b) (vx c) (vy c) (vz c).
(** [M << a, b, c] with three column vectors. *)
Definition of_cols (a b c : Vector3 T) : Matrix3 T :=
  mkM3 (vx a) (vx b) (vx c) (vy a) (vy b) (vy c) (vz a) (vz b) (vz c).

Definition mmap (f : T -> T) (M : Matrix3 T) : Matrix3 T :=
  of_rows (vmap f (mrow0 M)) (vmap f (mrow1 M)) (vmap f (mrow2 M)).
Definition mzip (f : T -> T -> T) (A B : Matrix3 T) : Matrix3 T :=
  of_rows (vzip f (mrow0 A) (mrow0 B)) (vzip f (mrow1 A) (mrow1 B))
          (vzip f (mrow2 A) (mrow2 B)).
Definition mzero : Matrix3 T := of_rows vzero vzero vzero.
Definition madd := mzip add.
Definition msub := mzip sub.
Definition mneg := mmap opp.
Definition mscale (k : T) := mmap (mul k).
Definition mdivs (M : Matrix3 T) (k : T) := mmap (fun x => x / k) M.
Definition adjoint (M : Matrix3 T) : Matrix3 T :=
  of_rows (mcol0 M) (mcol1 M) (mcol2 M).
Definition mulv (M : Matrix3 T) (v : Vector3 T) : Vector3 T :=
  mkV3 (dot (mrow0 M) v) (dot (mrow1 M) v) (dot (mrow2 M) v).
Definition mmul (A B : Matrix3 T) : Matrix3 T :=
  of_cols (mulv A (mcol0 B)) (mulv A (mcol1 B)) (mulv A (mcol2 B)).
Definition trace (M : Matrix3 T) : T := m00 M + m11 M + m22 M.
Definition diag3 (a b c : T) : Matrix3 T :=
  mkM3 a zero zero zero b zero zero zero c.

Definition set_m00 (x : T) (M : Matrix3 T) :=
  mkM3 x (m01 M) (m02 M) (m10 M) (m11 M) (m12 M) (m20 M) (m21 M) (m22 M).
Definition set_m11 (x : T) (M : Matrix3 T) :=
  mkM3 (m00 M) (m01 M) (m02 M) (m10 M) x (m12 M) (m20 M) (m21 M) (m22 M).
Definition set_m22 (x : T) (M : Matrix3 T) :=
  mkM3 (m00 M) (m01 M) (m02 M) (m10 M) (m11 M) (m12 M) (m20 M) (m21 M) x.

(** *** 4-vectors and 4x4 matrices *)
Definition dot4 (a b : Vector4 T) : T :=
  w0 a * w0 b + w1 a * w1 b + w2 a * w2 b + w3 a * w3 b.
Definition map4 (f : T -> T) (a : Vector4 T) : Vector4 T :=
  mkV4 (f (w0 a)) (f (w1 a)) (f (w2 a)) (f (w3 a)).
Definition col (p : Vector4 T -> T) (M : Matrix4 T) : Vector4 T :=
  mkV4 (p (row0 M)) (p (row1 M)) (p (row2 M)) (p (row3 M)).
Definition mulv4 (M : Matrix4 T) (v : Vector4 T) : Vector4 T :=
  mkV4 (dot4 (row0 M) v) (dot4 (row1 M) v) (dot4 (row2 M) v)
       (dot4 (row3 M) v).
Definition mmul4 (A B : Matrix4 T) : Matrix4 T :=
  let r (a : Vector4 T) :=
    mkV4 (dot4 a (col (@w0 T) B)) (dot4 a (col (@w1 T) B))
         (dot4 a (col (@w2 T) B)) (dot4 a (col (@w3 T) B)) in
  mkM4 (r (row0 A)) (r (row1 A)) (r (row2 A)) (r (row3 A)).
End LinearAlgebra.

(** ** The controller object

    [GeomCtlStatus] is the telemetry message [mmuav_msgs::GeomCtlStatus];
    arrays of three and four doubles are vectors. *)

Record GeomCtlStatus (T : Type) : Type := mkStatus {
  msg_stamp : T;
  msg_force : T;
  msg_roll_mv : T;
  msg_roll_sp : T;
  msg_pitch_mv : T;
  msg_pitch_sp : T;
  msg_yaw_mv : T;
  msg_yaw_sp : T;
  msg_att_err : T;
  msg_pos_err : T;
  msg_moments : Vector3 T;
  msg_x_mv : T;
  msg_y_mv : T;
  msg_z_mv : T;
  msg_x_sp : T;
  msg_y_sp : T;
  msg_z_sp : T;
  msg_a_d : Vector3 T;
  msg_v_d : Vector3 T;
  msg_b1_mv : Vector3 T;
  msg_omega_d : Vector3 T;
  msg_alpha_d : Vector3 T;
  msg_omega_mv : Vector3 T;
  msg_mass_offset : Vector4 T;
  msg_r_cm : Vector3 T;
  msg_e_x : Vector3 T;
  msg_e_v : Vector3 T;
  msg_b1_d : Vector3 T;
  msg_e_R : Vector3 T;
  msg_e_omega : Vector3 T;
  msg_rotor_velocities : Vector4 T
}.

Section StatusSetters.
Context {T : Type}.

Definition set_msg_e_x (x : Vector3 T) (m : GeomCtlStatus T) : GeomCtlStatus T :=
  mkStatus (msg_stamp m) (msg_force m) (msg_roll_mv m) (msg_roll_sp m)
  (msg_pitch_mv m) (msg_pitch_sp m) (msg_yaw_mv m) (msg_yaw_sp m)
  (msg_att_err m) (msg_pos_err m) (msg_moments m) (msg_x_mv m) (msg_y_mv m)
  (msg_z_mv m) (msg_x_sp m) (msg_y_sp m) (msg_z_sp m) (msg_a_d m)
  (msg_v_d m) (msg_b1_mv m) (msg_omega_d m) (msg_alpha_d m)
  (msg_omega_mv m) (msg_mass_offset m) (msg_r_cm m) x (msg_e_v m)
  (msg_b1_d m) (msg_e_R m) (msg_e_omega m) (msg_rotor_velocities m).
Definition set_msg_e_v (x : Vector3 T) (m : GeomCtlStatus T) : GeomCtlStatus T :=
  mkStatus (msg_stamp m) (msg_force m) (msg_roll_mv m) (msg_roll_sp m)
  (msg_pitch_mv m) (msg_pitch_sp m) (msg_yaw_mv m) (msg_yaw_sp m)
  (msg_att_err m) (msg_pos_err m) (msg_moments m) (msg_x_mv m) (msg_y_mv m)
  (msg_z_mv m) (msg_x_sp m) (msg_y_sp m) (msg_z_sp m) (msg_a_d m)
  (msg_v_d m) (msg_b1_mv m) (msg_omega_d m) (msg_alpha_d m)
  (msg_omega_mv m) (msg_mass_offset m) (msg_r_cm m) (msg_e_x m) x
  (msg_b1_d m) (msg_e_R m) (msg_e_omega m) (msg_rotor_velocities m).
Definition set_msg_b1_d (x : Vector3 T) (m : GeomCtlStatus T) : GeomCtlStatus T :=
  mkStatus (msg_stamp m) (msg_force m) (msg_roll_mv m) (msg_roll_sp m)
  (msg_pitch_mv m) (msg_pitch_sp m) (msg_yaw_mv m) (msg_yaw_sp m)
  (msg_att_err m) (msg_pos_err m) (msg_moments m) (msg_x_mv m) (msg_y_mv m)
  (msg_z_mv m) (msg_x_sp m) (msg_y_sp m) (msg_z_sp m) (msg_a_d m)
  (msg_v_d m) (msg_b1_mv m) (msg_omega_d m) (msg_alpha_d m)
  (msg_omega_mv m) (msg_mass_offset m) (msg_r_cm m) (msg_e_x m) (msg_e_v m)
  x (msg_e_R m) (msg_e_omega m) (msg_rotor_velocities m).
Definition set_msg_e_R (x : Vector3 T) (m : GeomCtlStatus T) : GeomCtlStatus T :=
  mkStatus (msg_stamp m) (msg_force m) (msg_roll_mv m) (msg_roll_sp m)
  (msg_pitch_mv m) (msg_pitch_sp m) (msg_yaw_mv m) (msg_yaw_sp m)
  (msg_att_err m) (msg_pos_err m) (msg_moments m) (msg_x_mv m) (msg_y_mv m)
  (msg_z_mv m) (msg_x_sp m) (msg_y_sp m) (msg_z_sp m) (msg_a_d m)
  (msg_v_d m) (msg_b1_mv m) (msg_omega_d m) (msg_alpha_d m)
  (msg_omega_mv m) (msg_mass_offset m) (msg_r_cm m) (msg_e_x m) (msg_e_v m)
  (msg_b1_d m) x (msg_e_omega m) (msg_rotor_velocities m).
Definition set_msg_e_omega (x : Vector3 T) (m : GeomCtlStatus T) : GeomCtlStatus T :=
  mkStatus (msg_stamp m) (msg_force m) (msg_roll_mv m) (msg_roll_sp m)
  (msg_pitch_mv m) (msg_pitch_sp m) (msg_yaw_mv m) (msg_yaw_sp m)
  (msg_att_err m) (msg_pos_err m) (msg_moments m) (msg_x_mv m) (msg_y_mv m)
  (msg_z_mv m) (msg_x_sp m) (msg_y_sp m) (msg_z_sp m) (msg_a_d m)
  (msg_v_d m) (msg_b1_mv m) (msg_omega_d m) (msg_alpha_d m)
  (msg_omega_mv m) (msg_mass_offset m) (msg_r_cm m) (msg_e_x m) (msg_e_v m)
  (msg_b1_d m) (msg_e_R m) x (msg_rotor_velocities m).
Definition set_msg_rotor_velocities (x : Vector4 T) (m : GeomCtlStatus T) : GeomCtlStatus T :=
  mkStatus (msg_stamp m) (msg_force m) (msg_roll_mv m) (msg_roll_sp m)
  (msg_pitch_mv m) (msg_pitch_sp m) (msg_yaw_mv m) (msg_yaw_sp m)
  (msg_att_err m) (msg_pos_err m) (msg_moments m) (msg_x_mv m) (msg_y_mv m)
  (msg_z_mv m) (msg_x_sp m) (msg_y_sp m) (msg_z_sp m) (msg_a_d m)
  (msg_v_d m) (msg_b1_mv m) (msg_omega_d m) (msg_alpha_d m)
  (msg_omega_mv m) (msg_mass_offset m) (msg_r_cm m) (msg_e_x m) (msg_e_v m)
  (msg_b1_d m) (msg_e_R m) (msg_e_omega m) x.

End StatusSetters.

(** The data members of [UavGeometryControl] that the control law reads or
    writes.  The ROS handles (node handle, subscribers, publishers, the
    reconfigure server) and the members that only the start-up checks use
    are left out; what the publishers send is recorded as [Event]s below. *)

Record State (T : Type) : Type := mkState {
  controller_rate_ : Z;
  param_start_flag_ : bool;
  enable_mass_control_ : bool;
  enable_manipulator_control_ : bool;
  calc_desired_flag_ : bool;
  current_control_mode_ : Z;
  x_d_ : Vector3 T;
  v_d_ : Vector3 T;
  a_d_ : Vector3 T;
  x_mv_ : Vector3 T;
  v_mv_ : Vector3 T;
  omega_d_ : Vector3 T;
  alpha_d_ : Vector3 T;
  b1_d_ : Vector3 T;
  R_d_ : Matrix3 T;
  euler_d_ : Vector3 T;
  omega_mv_ : Vector3 T;
  R_mv_ : Matrix3 T;
  euler_mv_ : Vector3 T;
  R_c_old_ : Matrix3 T;
  R_c_dot_old_ : Matrix3 T;
  inertia_ : Matrix3 T;
  mass_inertia_ : Matrix3 T;
  payload_inertia_ : Matrix3 T;
  uav_mass_ : T;
  k_x_ : Matrix3 T;
  k_v_ : Matrix3 T;
  k_R_ : Matrix3 T;
  k_omega_ : Matrix3 T;
  mass0_mv_ : T;
  mass1_mv_ : T;
  mass2_mv_ : T;
  mass3_mv_ : T;
  gripperLeft_mv_ : Vector3 T;
  gripperRight_mv_ : Vector3 T;
  ro_cm_ : Vector3 T;
  status_msg_ : GeomCtlStatus T
}.

Section StateSetters.
Context {T : Type}.

Definition set_current_control_mode_ (x : Z) (s : State T) : State T :=
  mkState (controller_rate_ s) (param_start_flag_ s)
  (enable_mass_control_ s) (enable_manipulator_control_ s)
  (calc_desired_flag_ s) x (x_d_ s) (v_d_ s) (a_d_ s) (x_mv_ s) (v_mv_ s)
  (omega_d_ s) (alpha_d_ s) (b1_d_ s) (R_d_ s) (euler_d_ s) (omega_mv_ s)
  (R_mv_ s) (euler_mv_ s) (R_c_old_ s) (R_c_dot_old_ s) (inertia_ s)
  (mass_inertia_ s) (payload_inertia_ s) (uav_mass_ s) (k_x_ s) (k_v_ s)
  (k_R_ s) (k_omega_ s) (mass0_mv_ s) (mass1_mv_ s) (mass2_mv_ s)
  (mass3_mv_ s) (gripperLeft_mv_ s) (gripperRight_mv_ s) (ro_cm_ s)
  (status_msg_ s).
Definition set_x_d_ (x : Vector3 T) (s : State T) : State T :=
  mkState (controller_rate_ s) (param_start_flag_ s)
  (enable_mass_control_ s) (enable_manipulator_control_ s)
  (calc_desired_flag_ s) (current_control_mode_ s) x (v_d_ s) (a_d_ s)
  (x_mv_ s) (v_mv_ s) (omega_d_ s) (alpha_d_ s) (b1_d_ s) (R_d_ s)
  (euler_d_ s) (omega_mv_ s) (R_mv_ s) (euler_mv_ s) (R_c_old_ s)
  (R_c_dot_old_ s) (inertia_ s) (mass_inertia_ s) (payload_inertia_ s)
  (uav_mass_ s) (k_x_ s) (k_v_ s) (k_R_ s) (k_omega_ s) (mass0_mv_ s)
  (mass1_mv_ s) (mass2_mv_ s) (mass3_mv_ s) (gripperLeft_mv_ s)
  (gripperRight_mv_ s) (ro_cm_ s) (status_msg_ s).
Definition set_v_d_ (x : Vector3 T) (s : State T) : State T :=
  mkState (controller_rate_ s) (param_start_flag_ s)
  (enable_mass_control_ s) (enable_manipulator_control_ s)
  (calc_desired_flag_ s) (current_control_mode_ s) (x_d_ s) x (a_d_ s)
  (x_mv_ s) (v_mv_ s) (omega_d_ s) (alpha_d_ s) (b1_d_ s) (R_d_ s)
  (euler_d_ s) (omega_mv_ s) (R_mv_ s) (euler_mv_ s) (R_c_old_ s)
  (R_c_dot_old_ s) (inertia_ s) (mass_inertia_ s) (payload_inertia_ s)
  (uav_mass_ s) (k_x_ s) (k_v_ s) (k_R_ s) (k_omega_ s) (mass0_mv_ s)
  (mass1_mv_ s) (mass2_mv_ s) (mass3_mv_ s) (gripperLeft_mv_ s)
  (gripperRight_mv_ s) (ro_cm_ s) (status_msg_ s).
Definition set_a_d_ (x : Vector3 T) (s : State T) : State T :=
  mkState (controller_rate_ s) (param_start_flag_ s)
  (enable_mass_control_ s) (enable_manipulator_control_ s)
  (calc_desired_flag_ s) (current_control_mode_ s) (x_d_ s) (v_d_ s) x
  (x_mv_ s) (v_mv_ s) (omega_d_ s) (alpha_d_ s) (b1_d_ s) (R_d_ s)
  (euler_d_ s) (omega_mv_ s) (R_mv_ s) (euler_mv_ s) (R_c_old_ s)
  (R_c_dot_old_ s) (inertia_ s) (mass_inertia_ s) (payload_inertia_ s)
  (uav_mass_ s) (k_x_ s) (k_v_ s) (k_R_ s) (k_omega_ s) (mass0_mv_ s)
  (mass1_mv_ s) (mass2_mv_ s) (mass3_mv_ s) (gripperLeft_mv_ s)
  (gripperRight_mv_ s) (ro_cm_ s) (status_msg_ s).
Definition set_x_mv_ (x : Vector3 T) (s : State T) : State T :=
  mkState (controller_rate_ s) (param_start_flag_ s)
  (enable_mass_control_ s) (enable_manipulator_control_ s)
  (calc_desired_flag_ s) (current_control_mode_ s) (x_d_ s) (v_d_ s)
  (a_d_ s) x (v_mv_ s) (omega_d_ s) (alpha_d_ s) (b1_d_ s) (R_d_ s)
  (euler_d_ s) (omega_mv_ s) (R_mv_ s) (euler_mv_ s) (R_c_old_ s)
  (R_c_dot_old_ s) (inertia_ s) (mass_inertia_ s) (payload_inertia_ s)
  (uav_mass_ s) (k_x_ s) (k_v_ s) (k_R_ s) (k_omega_ s) (mass0_mv_ s)
  (mass1_mv_ s) (mass2_mv_ s) (mass3_mv_ s) (gripperLeft_mv_ s)
  (gripperRight_mv_ s) (ro_cm_ s) (status_msg_ s).
Definition set_b1_d_ (x : Vector3 T) (s : State T) : State T :=
  mkState (controller_rate_ s) (param_start_flag_ s)
  (enable_mass_control_ s) (enable_manipulator_control_ s)
  (calc_desired_flag_ s) (current_control_mode_ s) (x_d_ s) (v_d_ s)
  (a_d_ s) (x_mv_ s) (v_mv_ s) (omega_d_ s) (alpha_d_ s) x (R_d_ s)
  (euler_d_ s) (omega_mv_ s) (R_mv_ s) (euler_mv_ s) (R_c_old_ s)
  (R_c_dot_old_ s) (inertia_ s) (mass_inertia_ s) (payload_inertia_ s)
  (uav_mass_ s) (k_x_ s) (k_v_ s) (k_R_ s) (k_omega_ s) (mass0_mv_ s)
  (mass1_mv_ s) (mass2_mv_ s) (mass3_mv_ s) (gripperLeft_mv_ s)
  (gripperRight_mv_ s) (ro_cm_ s) (status_msg_ s).
Definition set_euler_d_ (x : Vector3 T) (s : State T) : State T :=
  mkState (controller_rate_ s) (param_start_flag_ s)
  (enable_mass_control_ s) (enable_manipulator_control_ s)
  (calc_desired_flag_ s) (current_control_mode_ s) (x_d_ s) (v_d_ s)
  (a_d_ s) (x_mv_ s) (v_mv_ s) (omega_d_ s) (alpha_d_ s) (b1_d_ s) (R_d_ s)
  x (omega_mv_ s) (R_mv_ s) (euler_mv_ s) (R_c_old_ s) (R_c_dot_old_ s)
  (inertia_ s) (mass_inertia_ s) (payload_inertia_ s) (uav_mass_ s)
  (k_x_ s) (k_v_ s) (k_R_ s) (k_omega_ s) (mass0_mv_ s) (mass1_mv_ s)
  (mass2_mv_ s) (mass3_mv_ s) (gripperLeft_mv_ s) (gripperRight_mv_ s)
  (ro_cm_ s) (status_msg_ s).
Definition set_omega_mv_ (x : Vector3 T) (s : State T) : State T :=
  mkState (controller_rate_ s) (param_start_flag_ s)
  (enable_mass_control_ s) (enable_manipulator_control_ s)
  (calc_desired_flag_ s) (current_control_mode_ s) (x_d_ s) (v_d_ s)
  (a_d_ s) (x_mv_ s) (v_mv_ s) (omega_d_ s) (alpha_d_ s) (b1_d_ s) (R_d_ s)
  (euler_d_ s) x (R_mv_ s) (euler_mv_ s) (R_c_old_ s) (R_c_dot_old_ s)
  (inertia_ s) (mass_inertia_ s) (payload_inertia_ s) (uav_mass_ s)
  (k_x_ s) (k_v_ s) (k_R_ s) (k_omega_ s) (mass0_mv_ s) (mass1_mv_ s)
  (mass2_mv_ s) (mass3_mv_ s) (gripperLeft_mv_ s) (gripperRight_mv_ s)
  (ro_cm_ s) (status_msg_ s).
Definition set_R_mv_ (x : Matrix3 T) (s : State T) : State T :=
  mkState (controller_rate_ s) (param_start_flag_ s)
  (enable_mass_control_ s) (enable_manipulator_control_ s)
  (calc_desired_flag_ s) (current_control_mode_ s) (x_d_ s) (v_d_ s)
  (a_d_ s) (x_mv_ s) (v_mv_ s) (omega_d_ s) (alpha_d_ s) (b1_d_ s) (R_d_ s)
  (euler_d_ s) (omega_mv_ s) x (euler_mv_ s) (R_c_old_ s) (R_c_dot_old_ s)
  (inertia_ s) (mass_inertia_ s) (payload_inertia_ s) (uav_mass_ s)
  (k_x_ s) (k_v_ s) (k_R_ s) (k_omega_ s) (mass0_mv_ s) (mass1_mv_ s)
  (mass2_mv_ s) (mass3_mv_ s) (gripperLeft_mv_ s) (gripperRight_mv_ s)
  (ro_cm_ s) (status_msg_ s).
Definition set_mass0_mv_ (x : T) (s : State T) : State T :=
  mkState (controller_rate_ s) (param_start_flag_ s)
  (enable_mass_control_ s) (enable_manipulator_control_ s)
  (calc_desired_flag_ s) (current_control_mode_ s) (x_d_ s) (v_d_ s)
  (a_d_ s) (x_mv_ s) (v_mv_ s) (omega_d_ s) (alpha_d_ s) (b1_d_ s) (R_d_ s)
  (euler_d_ s) (omega_mv_ s) (R_mv_ s) (euler_mv_ s) (R_c_old_ s)
  (R_c_dot_old_ s) (inertia_ s) (mass_inertia_ s) (payload_inertia_ s)
  (uav_mass_ s) (k_x_ s) (k_v_ s) (k_R_ s) (k_omega_ s) x (mass1_mv_ s)
  (mass2_mv_ s) (mass3_mv_ s) (gripperLeft_mv_ s) (gripperRight_mv_ s)
  (ro_cm_ s) (status_msg_ s).
Definition set_mass1_mv_ (x : T) (s : State T) : State T :=
  mkState (controller_rate_ s) (param_start_flag_ s)
  (enable_mass_control_ s) (enable_manipulator_control_ s)
  (calc_desired_flag_ s) (current_control_mode_ s) (x_d_ s) (v_d_ s)
  (a_d_ s) (x_mv_ s) (v_mv_ s) (omega_d_ s) (alpha_d_ s) (b1_d_ s) (R_d_ s)
  (euler_d_ s) (omega_mv_ s) (R_mv_ s) (euler_mv_ s) (R_c_old_ s)
  (R_c_dot_old_ s) (inertia_ s) (mass_inertia_ s) (payload_inertia_ s)
  (uav_mass_ s) (k_x_ s) (k_v_ s) (k_R_ s) (k_omega_ s) (mass0_mv_ s) x
  (mass2_mv_ s) (mass3_mv_ s) (gripperLeft_mv_ s) (gripperRight_mv_ s)
  (ro_cm_ s) (status_msg_ s).
Definition set_mass2_mv_ (x : T) (s : State T) : State T :=
  mkState (controller_rate_ s) (param_start_flag_ s)
  (enable_mass_control_ s) (enable_manipulator_control_ s)
  (calc_desired_flag_ s) (current_control_mode_ s) (x_d_ s) (v_d_ s)
  (a_d_ s) (x_mv_ s) (v_mv_ s) (omega_d_ s) (alpha_d_ s) (b1_d_ s) (R_d_ s)
  (euler_d_ s) (omega_mv_ s) (R_mv_ s) (euler_mv_ s) (R_c_old_ s)
  (R_c_dot_old_ s) (inertia_ s) (mass_inertia_ s) (payload_inertia_ s)
  (uav_mass_ s) (k_x_ s) (k_v_ s) (k_R_ s) (k_omega_ s) (mass0_mv_ s)
  (mass1_mv_ s) x (mass3_mv_ s) (gripperLeft_mv_ s) (gripperRight_mv_ s)
  (ro_cm_ s) (status_msg_ s).
Definition set_mass3_mv_ (x : T) (s : State T) : State T :=
  mkState (controller_rate_ s) (param_start_flag_ s)
  (enable_mass_control_ s) (enable_manipulator_control_ s)
  (calc_desired_flag_ s) (current_control_mode_ s) (x_d_ s) (v_d_ s)
  (a_d_ s) (x_mv_ s) (v_mv_ s) (omega_d_ s) (alpha_d_ s) (b1_d_ s) (R_d_ s)
  (euler_d_ s) (omega_mv_ s) (R_mv_ s) (euler_mv_ s) (R_c_old_ s)
  (R_c_dot_old_ s) (inertia_ s) (mass_inertia_ s) (payload_inertia_ s)
  (uav_mass_ s) (k_x_ s) (k_v_ s) (k_R_ s) (k_omega_ s) (mass0_mv_ s)
  (mass1_mv_ s) (mass2_mv_ s) x (gripperLeft_mv_ s) (gripperRight_mv_ s)
  (ro_cm_ s) (status_msg_ s).
Definition set_param_start_flag_ (x : bool) (s : State T) : State T :=
  mkState (controller_rate_ s) x (enable_mass_control_ s)
  (enable_manipulator_control_ s) (calc_desired_flag_ s)
  (current_control_mode_ s) (x_d_ s) (v_d_ s) (a_d_ s) (x_mv_ s) (v_mv_ s)
  (omega_d_ s) (alpha_d_ s) (b1_d_ s) (R_d_ s) (euler_d_ s) (omega_mv_ s)
  (R_mv_ s) (euler_mv_ s) (R_c_old_ s) (R_c_dot_old_ s) (inertia_ s)
  (mass_inertia_ s) (payload_inertia_ s) (uav_mass_ s) (k_x_ s) (k_v_ s)
  (k_R_ s) (k_omega_ s) (mass0_mv_ s) (mass1_mv_ s) (mass2_mv_ s)
  (mass3_mv_ s) (gripperLeft_mv_ s) (gripperRight_mv_ s) (ro_cm_ s)
  (status_msg_ s).
Definition set_enable_mass_control_ (x : bool) (s : State T) : State T :=
  mkState (controller_rate_ s) (param_start_flag_ s) x
  (enable_manipulator_control_ s) (calc_desired_flag_ s)
  (current_control_mode_ s) (x_d_ s) (v_d_ s) (a_d_ s) (x_mv_ s) (v_mv_ s)
  (omega_d_ s) (alpha_d_ s) (b1_d_ s) (R_d_ s) (euler_d_ s) (omega_mv_ s)
  (R_mv_ s) (euler_mv_ s) (R_c_old_ s) (R_c_dot_old_ s) (inertia_ s)
  (mass_inertia_ s) (payload_inertia_ s) (uav_mass_ s) (k_x_ s) (k_v_ s)
  (k_R_ s) (k_omega_ s) (mass0_mv_ s) (mass1_mv_ s) (mass2_mv_ s)
  (mass3_mv_ s) (gripperLeft_mv_ s) (gripperRight_mv_ s) (ro_cm_ s)
  (status_msg_ s).
Definition set_enable_manipulator_control_ (x : bool) (s : State T) : State T :=
  mkState (controller_rate_ s) (param_start_flag_ s)
  (enable_mass_control_ s) x (calc_desired_flag_ s)
  (current_control_mode_ s) (x_d_ s) (v_d_ s) (a_d_ s) (x_mv_ s) (v_mv_ s)
  (omega_d_ s) (alpha_d_ s) (b1_d_ s) (R_d_ s) (euler_d_ s) (omega_mv_ s)
  (R_mv_ s) (euler_mv_ s) (R_c_old_ s) (R_c_dot_old_ s) (inertia_ s)
  (mass_inertia_ s) (payload_inertia_ s) (uav_mass_ s) (k_x_ s) (k_v_ s)
  (k_R_ s) (k_omega_ s) (mass0_mv_ s) (mass1_mv_ s) (mass2_mv_ s)
  (mass3_mv_ s) (gripperLeft_mv_ s) (gripperRight_mv_ s) (ro_cm_ s)
  (status_msg_ s).
Definition set_calc_desired_flag_ (x : bool) (s : State T) : State T :=
  mkState (controller_rate_ s) (param_start_flag_ s)
  (enable_mass_control_ s) (enable_manipulator_control_ s) x
  (current_control_mode_ s) (x_d_ s) (v_d_ s) (a_d_ s) (x_mv_ s) (v_mv_ s)
  (omega_d_ s) (alpha_d_ s) (b1_d_ s) (R_d_ s) (euler_d_ s) (omega_mv_ s)
  (R_mv_ s) (euler_mv_ s) (R_c_old_ s) (R_c_dot_old_ s) (inertia_ s)
  (mass_inertia_ s) (payload_inertia_ s) (uav_mass_ s) (k_x_ s) (k_v_ s)
  (k_R_ s) (k_omega_ s) (mass0_mv_ s) (mass1_mv_ s) (mass2_mv_ s)
  (mass3_mv_ s) (gripperLeft_mv_ s) (gripperRight_mv_ s) (ro_cm_ s)
  (status_msg_ s).
Definition set_omega_d_ (x : Vector3 T) (s : State T) : State T :=
  mkState (controller_rate_ s) (param_start_flag_ s)
  (enable_mass_control_ s) (enable_manipulator_control_ s)
  (calc_desired_flag_ s) (current_control_mode_ s) (x_d_ s) (v_d_ s)
  (a_d_ s) (x_mv_ s) (v_mv_ s) x (alpha_d_ s) (b1_d_ s) (R_d_ s)
  (euler_d_ s) (omega_mv_ s) (R_mv_ s) (euler_mv_ s) (R_c_old_ s)
  (R_c_dot_old_ s) (inertia_ s) (mass_inertia_ s) (payload_inertia_ s)
  (uav_mass_ s) (k_x_ s) (k_v_ s) (k_R_ s) (k_omega_ s) (mass0_mv_ s)
  (mass1_mv_ s) (mass2_mv_ s) (mass3_mv_ s) (gripperLeft_mv_ s)
  (gripperRight_mv_ s) (ro_cm_ s) (status_msg_ s).
Definition set_alpha_d_ (x : Vector3 T) (s : State T) : State T :=
  mkState (controller_rate_ s) (param_start_flag_ s)
  (enable_mass_control_ s) (enable_manipulator_control_ s)
  (calc_desired_flag_ s) (current_control_mode_ s) (x_d_ s) (v_d_ s)
  (a_d_ s) (x_mv_ s) (v_mv_ s) (omega_d_ s) x (b1_d_ s) (R_d_ s)
  (euler_d_ s) (omega_mv_ s) (R_mv_ s) (euler_mv_ s) (R_c_old_ s)
  (R_c_dot_old_ s) (inertia_ s) (mass_inertia_ s) (payload_inertia_ s)
  (uav_mass_ s) (k_x_ s) (k_v_ s) (k_R_ s) (k_omega_ s) (mass0_mv_ s)
  (mass1_mv_ s) (mass2_mv_ s) (mass3_mv_ s) (gripperLeft_mv_ s)
  (gripperRight_mv_ s) (ro_cm_ s) (status_msg_ s).
Definition set_R_d_ (x : Matrix3 T) (s : State T) : State T :=
  mkState (controller_rate_ s) (param_start_flag_ s)
  (enable_mass_control_ s) (enable_manipulator_control_ s)
  (calc_desired_flag_ s) (current_control_mode_ s) (x_d_ s) (v_d_ s)
  (a_d_ s) (x_mv_ s) (v_mv_ s) (omega_d_ s) (alpha_d_ s) (b1_d_ s) x
  (euler_d_ s) (omega_mv_ s) (R_mv_ s) (euler_mv_ s) (R_c_old_ s)
  (R_c_dot_old_ s) (inertia_ s) (mass_inertia_ s) (payload_inertia_ s)
  (uav_mass_ s) (k_x_ s) (k_v_ s) (k_R_ s) (k_omega_ s) (mass0_mv_ s)
  (mass1_mv_ s) (mass2_mv_ s) (mass3_mv_ s) (gripperLeft_mv_ s)
  (gripperRight_mv_ s) (ro_cm_ s) (status_msg_ s).
Definition set_R_c_old_ (x : Matrix3 T) (s : State T) : State T :=
  mkState (controller_rate_ s) (param_start_flag_ s)
  (enable_mass_control_ s) (enable_manipulator_control_ s)
  (calc_desired_flag_ s) (current_control_mode_ s) (x_d_ s) (v_d_ s)
  (a_d_ s) (x_mv_ s) (v_mv_ s) (omega_d_ s) (alpha_d_ s) (b1_d_ s) (R_d_ s)
  (euler_d_ s) (omega_mv_ s) (R_mv_ s) (euler_mv_ s) x (R_c_dot_old_ s)
  (inertia_ s) (mass_inertia_ s) (payload_inertia_ s) (uav_mass_ s)
  (k_x_ s) (k_v_ s) (k_R_ s) (k_omega_ s) (mass0_mv_ s) (mass1_mv_ s)
  (mass2_mv_ s) (mass3_mv_ s) (gripperLeft_mv_ s) (gripperRight_mv_ s)
  (ro_cm_ s) (status_msg_ s).
Definition set_R_c_dot_old_ (x : Matrix3 T) (s : State T) : State T :=
  mkState (controller_rate_ s) (param_start_flag_ s)
  (enable_mass_control_ s) (enable_manipulator_control_ s)
  (calc_desired_flag_ s) (current_control_mode_ s) (x_d_ s) (v_d_ s)
  (a_d_ s) (x_mv_ s) (v_mv_ s) (omega_d_ s) (alpha_d_ s) (b1_d_ s) (R_d_ s)
  (euler_d_ s) (omega_mv_ s) (R_mv_ s) (euler_mv_ s) (R_c_old_ s) x
  (inertia_ s) (mass_inertia_ s) (payload_inertia_ s) (uav_mass_ s)
  (k_x_ s) (k_v_ s) (k_R_ s) (k_omega_ s) (mass0_mv_ s) (mass1_mv_ s)
  (mass2_mv_ s) (mass3_mv_ s) (gripperLeft_mv_ s) (gripperRight_mv_ s)
  (ro_cm_ s) (status_msg_ s).
Definition set_uav_mass_ (x : T) (s : State T) : State T :=
  mkState (controller_rate_ s) (param_start_flag_ s)
  (enable_mass_control_ s) (enable_manipulator_control_ s)
  (calc_desired_flag_ s) (current_control_mode_ s) (x_d_ s) (v_d_ s)
  (a_d_ s) (x_mv_ s) (v_mv_ s) (omega_d_ s) (alpha_d_ s) (b1_d_ s) (R_d_ s)
  (euler_d_ s) (omega_mv_ s) (R_mv_ s) (euler_mv_ s) (R_c_old_ s)
  (R_c_dot_old_ s) (inertia_ s) (mass_inertia_ s) (payload_inertia_ s) x
  (k_x_ s) (k_v_ s) (k_R_ s) (k_omega_ s) (mass0_mv_ s) (mass1_mv_ s)
  (mass2_mv_ s) (mass3_mv_ s) (gripperLeft_mv_ s) (gripperRight_mv_ s)
  (ro_cm_ s) (status_msg_ s).
Definition set_k_x_ (x : Matrix3 T) (s : State T) : State T :=
  mkState (controller_rate_ s) (param_start_flag_ s)
  (enable_mass_control_ s) (enable_manipulator_control_ s)
  (calc_desired_flag_ s) (current_control_mode_ s) (x_d_ s) (v_d_ s)
  (a_d_ s) (x_mv_ s) (v_mv_ s) (omega_d_ s) (alpha_d_ s) (b1_d_ s) (R_d_ s)
  (euler_d_ s) (omega_mv_ s) (R_mv_ s) (euler_mv_ s) (R_c_old_ s)
  (R_c_dot_old_ s) (inertia_ s) (mass_inertia_ s) (payload_inertia_ s)
  (uav_mass_ s) x (k_v_ s) (k_R_ s) (k_omega_ s) (mass0_mv_ s)
  (mass1_mv_ s) (mass2_mv_ s) (mass3_mv_ s) (gripperLeft_mv_ s)
  (gripperRight_mv_ s) (ro_cm_ s) (status_msg_ s).
Definition set_k_v_ (x : Matrix3 T) (s : State T) : State T :=
  mkState (controller_rate_ s) (param_start_flag_ s)
  (enable_mass_control_ s) (enable_manipulator_control_ s)
  (calc_desired_flag_ s) (current_control_mode_ s) (x_d_ s) (v_d_ s)
  (a_d_ s) (x_mv_ s) (v_mv_ s) (omega_d_ s) (alpha_d_ s) (b1_d_ s) (R_d_ s)
  (euler_d_ s) (omega_mv_ s) (R_mv_ s) (euler_mv_ s) (R_c_old_ s)
  (R_c_dot_old_ s) (inertia_ s) (mass_inertia_ s) (payload_inertia_ s)
  (uav_mass_ s) (k_x_ s) x (k_R_ s) (k_omega_ s) (mass0_mv_ s)
  (mass1_mv_ s) (mass2_mv_ s) (mass3_mv_ s) (gripperLeft_mv_ s)
  (gripperRight_mv_ s) (ro_cm_ s) (status_msg_ s).
Definition set_k_R_ (x : Matrix3 T) (s : State T) : State T :=
  mkState (controller_rate_ s) (param_start_flag_ s)
  (enable_mass_control_ s) (enable_manipulator_control_ s)
  (calc_desired_flag_ s) (current_control_mode_ s) (x_d_ s) (v_d_ s)
  (a_d_ s) (x_mv_ s) (v_mv_ s) (omega_d_ s) (alpha_d_ s) (b1_d_ s) (R_d_ s)
  (euler_d_ s) (omega_mv_ s) (R_mv_ s) (euler_mv_ s) (R_c_old_ s)
  (R_c_dot_old_ s) (inertia_ s) (mass_inertia_ s) (payload_inertia_ s)
  (uav_mass_ s) (k_x_ s) (k_v_ s) x (k_omega_ s) (mass0_mv_ s)
  (mass1_mv_ s) (mass2_mv_ s) (mass3_mv_ s) (gripperLeft_mv_ s)
  (gripperRight_mv_ s) (ro_cm_ s) (status_msg_ s).
Definition set_k_omega_ (x : Matrix3 T) (s : State T) : State T :=
  mkState (controller_rate_ s) (param_start_flag_ s)
  (enable_mass_control_ s) (enable_manipulator_control_ s)
  (calc_desired_flag_ s) (current_control_mode_ s) (x_d_ s) (v_d_ s)
  (a_d_ s) (x_mv_ s) (v_mv_ s) (omega_d_ s) (alpha_d_ s) (b1_d_ s) (R_d_ s)
  (euler_d_ s) (omega_mv_ s) (R_mv_ s) (euler_mv_ s) (R_c_old_ s)
  (R_c_dot_old_ s) (inertia_ s) (mass_inertia_ s) (payload_inertia_ s)
  (uav_mass_ s) (k_x_ s) (k_v_ s) (k_R_ s) x (mass0_mv_ s) (mass1_mv_ s)
  (mass2_mv_ s) (mass3_mv_ s) (gripperLeft_mv_ s) (gripperRight_mv_ s)
  (ro_cm_ s) (status_msg_ s).
Definition set_ro_cm_ (x : Vector3 T) (s : State T) : State T :=
  mkState (controller_rate_ s) (param_start_flag_ s)
  (enable_mass_control_ s) (enable_manipulator_control_ s)
  (calc_desired_flag_ s) (current_control_mode_ s) (x_d_ s) (v_d_ s)
  (a_d_ s) (x_mv_ s) (v_mv_ s) (omega_d_ s) (alpha_d_ s) (b1_d_ s) (R_d_ s)
  (euler_d_ s) (omega_mv_ s) (R_mv_ s) (euler_mv_ s) (R_c_old_ s)
  (R_c_dot_old_ s) (inertia_ s) (mass_inertia_ s) (payload_inertia_ s)
  (uav_mass_ s) (k_x_ s) (k_v_ s) (k_R_ s) (k_omega_ s) (mass0_mv_ s)
  (mass1_mv_ s) (mass2_mv_ s) (mass3_mv_ s) (gripperLeft_mv_ s)
  (gripperRight_mv_ s) x (status_msg_ s).
Definition set_status_msg_ (x : GeomCtlStatus T) (s : State T) : State T :=
  mkState (controller_rate_ s) (param_start_flag_ s)
  (enable_mass_control_ s) (enable_manipulator_control_ s)
  (calc_desired_flag_ s) (current_control_mode_ s) (x_d_ s) (v_d_ s)
  (a_d_ s) (x_mv_ s) (v_mv_ s) (omega_d_ s) (alpha_d_ s) (b1_d_ s) (R_d_ s)
  (euler_d_ s) (omega_mv_ s) (R_mv_ s) (euler_mv_ s) (R_c_old_ s)
  (R_c_dot_old_ s) (inertia_ s) (mass_inertia_ s) (payload_inertia_ s)
  (uav_mass_ s) (k_x_ s) (k_v_ s) (k_R_ s) (k_omega_ s) (mass0_mv_ s)
  (mass1_mv_ s) (mass2_mv_ s) (mass3_mv_ s) (gripperLeft_mv_ s)
  (gripperRight_mv_ s) (ro_cm_ s) x.

End StateSetters.

(** The values of [mmuav_control::UavGeometryControlParamsConfig]. *)
Record UavGeometryControlParamsConfig (T : Type) : Type := mkConfig {
  kx_xy : T; kx_z : T; kv_xy : T; kv_z : T;
  kR_xy : T; kR_z : T; kOm_xy : T; kOm_z : T
}.

(** The constants and initialisers of [MmuavParameters.hpp].  The header is
    not part of the sources at hand, so they are parameters of the model. *)
Record MmuavParameters (T : Type) : Type := mkParams {
  UAV_MASS : T;
  MM_MASS : T;
  PAYLOAD_MASS : T;
  TOTAL_LINK_MASS : T;
  MM_FORCE : T;
  PAYLOAD_FORCE : T;
  ARM_LENGTH : T;
  MOTOR_CONSTANT : T;
  MAX_ROTOR_VELOCITY : T;
  G : T;
  initializeThrustTransform : Matrix4 T;
  initializeBodyInertia : Matrix3 T;
  initializeMovableMassInertia : Matrix3 T;
  initializePayloadInertia : Matrix3 T
}.

(** ** Exceptions, published messages and the control monad *)

Inductive exn : Type := runtime_error (what : string).

Inductive Event (T : Type) : Type :=
| ROS_ERROR (text : string)
| rotor_ros_pub (angular_velocities : Vector4 T)
| mass_cmd_pub (i : nat) (data : T)
| payload_pos_pub (x y z : T)
| status_ros_pub (msg : GeomCtlStatus T).
Arguments ROS_ERROR {T} text.

(** A member function runs on the object, appends to the log of what was
    sent, and either throws or returns a value and the updated object. *)
Definition Ctl (T A : Type) : Type :=
  State T -> list (Event T) * (exn + A * State T).

Section Monad.
Context {T : Type}.

Definition ret {A} (a : A) : Ctl T A := fun s => ([], inr (a, s)).
Definition bind {A B} (m : Ctl T A) (k : A -> Ctl T B) : Ctl T B :=
  fun s =>
    match m s with
    | (l, inl e) => (l, inl e)
    | (l, inr (a, s')) => let (l', r) := k a s' in (l ++ l', r)
    end.
Definition get : Ctl T (State T) := fun s => ([], inr (s, s)).
Definition modify (f : State T -> State T) : Ctl T unit :=
  fun s => ([], inr (tt, f s)).
Definition emit (e : Event T) : Ctl T unit := fun s => ([e], inr (tt, s)).
Definition throw {A} (e : exn) : Ctl T A := fun _ => ([], inl e).

End Monad.

Notation "x <- m ;; k" := (bind m (fun x => k))
  (at level 61, m at next level, right associativity).
Notation "' p <- m ;; k" := (bind m (fun x => match x with p => k end))
  (at level 61, p pattern, m at next level, right associativity).
Notation "m ;; k" := (bind m (fun _ => k))
  (at level 61, right associativity).

(** ** The control law *)

(** Control modes. *)
Definition POSITION_CONTROL : Z := 1.
Definition ATTITUDE_CONTROL : Z := 2.
Definition VELOCITY_CONTROL : Z := 3.

(** Controller rate. *)
Definition CONTROLLER_RATE : Z := 100.
Definition DISCRETIZATION_RATE : Z := 10.

Section Controller.
Context {T : Type} `{Scalar T}.
Variable P : MmuavParameters T.
(** [geom_helper::euler2RotationMatrix], of [GeometricHelper.hpp], which is
    not part of the sources at hand. *)
Variable euler2RotationMatrix : T -> T -> T -> Matrix3 T.
Local Open Scope scalar_scope.

(** A decimal literal [n / d] of the source, correctly rounded. *)
Definition lit (n d : Z) : T := of_Z n / of_Z d.

Definition E3 : Vector3 T := mkV3 zero zero one.
Definition EYE3 : Matrix3 T := diag3 one one one.
(** [EYE4] is zero but for the entries (0,0) and (3,3): it keeps the thrust
    and yaw columns of a transform and clears the roll and pitch ones. *)
Definition EYE4 : Matrix4 T :=
  mkM4 (mkV4 one zero zero zero) (mkV4 zero zero zero zero)
       (mkV4 zero zero zero zero) (mkV4 zero zero zero one).

Definition THRUST_TRANSFORM_FULL : Matrix4 T := initializeThrustTransform P.
Definition THRUST_TRANSFORM_YAW : Matrix4 T :=
  mmul4 THRUST_TRANSFORM_FULL EYE4.

(** [hatOperator], as in the earlier revision of the controller
    (src/unnamed/part_001). *)
Definition hatOperator (x y z : T) : Matrix3 T :=
  mkM3 zero (- z) y
       z zero (- x)
       (- y) x zero.

(** Modelled from the spec: [geom_helper::veeOperator] of the absent
    [GeometricHelper.hpp]; the left inverse of hat, reading the entries
    that hat writes with a positive sign. *)
Definition veeOperator (S : Matrix3 T) : Vector3 T :=
  mkV3 (m21 S) (m02 S) (m10 S).

(** Modelled from the spec: [nonlinear_filters::saturation] of the absent
    [NonlinearFilters.hpp]; clamps [value] to [lowLimit, highLimit]. *)
Definition saturation (value lowLimit highLimit : T) : T :=
  if value >? highLimit then highLimit
  else if value <? lowLimit then lowLimit
  else value.

(** Eigen's [array().sign()]: [(a > 0) - (a < 0)]. *)
Definition sign (a : T) : T :=
  of_Z (Z.b2z (a >? zero) - Z.b2z (a <? zero)).

Definition calculateCenterOfMass (s : State T) : State T :=
  if enable_mass_control_ s then
    set_ro_cm_
      (mkV3 ((MM_MASS P * mass0_mv_ s + MM_MASS P * (- mass2_mv_ s))
               / uav_mass_ s)
            ((MM_MASS P * mass1_mv_ s + MM_MASS P * (- mass3_mv_ s))
               / uav_mass_ s)
            zero) s
  else if enable_manipulator_control_ s then
    set_ro_cm_
      (vdiv (vadd (vscale (PAYLOAD_MASS P) (gripperLeft_mv_ s))
                  (vscale (PAYLOAD_MASS P) (gripperRight_mv_ s)))
            (uav_mass_ s)) s
  else
    set_ro_cm_ (mkV3 zero zero zero) s.

Definition calculateRotorVelocities
    (thrust_moment_vec : Vector4 T) (transform_matrix : Matrix4 T)
  : Vector4 T :=
  let rotor_velocities := mulv4 transform_matrix thrust_moment_vec in
  let rotor_signs := map4 sign rotor_velocities in
  let rotor_velocities := map4 abs rotor_velocities in
  let rotor_velocities :=
    map4 (fun x => x / MOTOR_CONSTANT P) rotor_velocities in
  let rotor_velocities := map4 sqrt rotor_velocities in
  let sat i := saturation i (- MAX_ROTOR_VELOCITY P) (MAX_ROTOR_VELOCITY P) in
  mkV4 (w0 rotor_signs * sat (w0 rotor_velocities))
       (w1 rotor_signs * sat (w1 rotor_velocities))
       (w2 rotor_signs * sat (w2 rotor_velocities))
       (w3 rotor_signs * sat (w3 rotor_velocities)).

(** Returns the outputs [(b3_d, f_u)]. *)
Definition trajectoryTracking (pos_desired : Vector3 T)
  : Ctl T (Vector3 T * T) :=
  s <- get ;;
  ' (e_x, e_v) <-
    (if (current_control_mode_ s =? POSITION_CONTROL)%Z then
       ret (vsub (x_mv_ s) pos_desired, vsub (v_mv_ s) (v_d_ s))
     else if (current_control_mode_ s =? ATTITUDE_CONTROL)%Z then
       (* only the z component of position and linear velocity *)
       ret (vscale (vz (x_mv_ s) - vz pos_desired) E3,
            vscale (vz (v_mv_ s) - vz (v_d_ s)) E3)
     else
       emit (ROS_ERROR "Invalid control mode given.") ;;
       throw (runtime_error "Invalid control mode given.")) ;;
  let A :=
    vadd (vadd (vsub (mulv (mneg (k_x_ s)) e_x) (mulv (k_v_ s) e_v))
               (vscale (uav_mass_ s * G P) E3))
         (vscale (uav_mass_ s) (a_d_ s)) in
  let A :=
    if enable_mass_control_ s || enable_manipulator_control_ s then
      let skew_omega :=
        hatOperator (vx (omega_mv_ s)) (vy (omega_mv_ s)) (vz (omega_mv_ s)) in
      let skew_ro :=
        hatOperator (vx (ro_cm_ s)) (vy (ro_cm_ s)) (vz (ro_cm_ s)) in
      let additionalDynamics :=
        vsub (vscale (- uav_mass_ s)
                     (cross (mulv (R_mv_ s) (ro_cm_ s)) (alpha_d_ s)))
             (mulv (mmul (mmul (mscale (uav_mass_ s) (R_mv_ s)) skew_omega)
                         skew_ro)
                   (omega_mv_ s)) in
      vadd A additionalDynamics
    else A in
  let f_u := dot A (mulv (R_mv_ s) E3) in
  let b3_d := vdiv A (norm A) in
  modify (fun s =>
    set_status_msg_ (set_msg_e_v e_v (set_msg_e_x e_x (status_msg_ s))) s) ;;
  ret (b3_d, f_u).

Definition calculateAdjustedInertia (s : State T) : Matrix3 T :=
  let adjustedInertia := inertia_ s in
  if enable_mass_control_ s then
    let adjustedInertia :=
      set_m00 (m00 adjustedInertia
               + mass1_mv_ s * mass1_mv_ s * MM_MASS P
               + mass3_mv_ s * mass3_mv_ s * MM_MASS P
               + m00 (mass_inertia_ s)) adjustedInertia in
    let adjustedInertia :=
      set_m11 (m11 adjustedInertia
               + mass0_mv_ s * mass0_mv_ s * MM_MASS P
               + mass2_mv_ s * mass2_mv_ s * MM_MASS P
               + m11 (mass_inertia_ s)) adjustedInertia in
    set_m22 (m22 adjustedInertia
             + mass1_mv_ s * mass1_mv_ s * MM_MASS P
             + mass3_mv_ s * mass3_mv_ s * MM_MASS P
             + mass0_mv_ s * mass0_mv_ s * MM_MASS P
             + mass2_mv_ s * mass2_mv_ s * MM_MASS P
             + of_Z 4 * m22 (mass_inertia_ s)) adjustedInertia
  else if enable_manipulator_control_ s then
    let gl := gripperLeft_mv_ s in
    let gr := gripperRight_mv_ s in
    let adjustedInertia :=
      set_m00 (m00 adjustedInertia
               + (vy gl * vy gl + vz gl * vz gl) * PAYLOAD_MASS P
               + (vy gr * vy gr + vz gl * vz gr) * PAYLOAD_MASS P
               + of_Z 2 * m00 (payload_inertia_ s)) adjustedInertia in
    let adjustedInertia :=
      set_m11 (m11 adjustedInertia
               + (vx gl * vx gl + vz gl * vz gl) * PAYLOAD_MASS P * of_Z 2
               + (vx gr * vx gr + vz gl * vz gr) * PAYLOAD_MASS P
               + of_Z 2 * m11 (payload_inertia_ s)) adjustedInertia in
    set_m22 (m22 adjustedInertia
             + (vx gl * vx gl + vx gl * vx gl) * PAYLOAD_MASS P * of_Z 2
             + (vz gr * vz gr + vz gl * vz gr) * PAYLOAD_MASS P
             + of_Z 2 * m22 (payload_inertia_ s)) adjustedInertia
  else adjustedInertia.

(** Returns the output [M_u]. *)
Definition attitudeTracking (b1_desired b3_desired : Vector3 T)
  : Ctl T (Vector3 T) :=
  s <- get ;;
  (if (current_control_mode_ s =? POSITION_CONTROL)%Z then
     let b13_normal := cross b3_desired b1_desired in
     let b1_c :=
       vdiv (vneg (cross b3_desired b13_normal)) (norm b13_normal) in
     let b2_c := cross b3_desired b1_c in
     let b2_c := vdiv b2_c (norm b2_c) in
     let R_c := of_cols b1_c b2_c b3_desired in
     modify (fun s =>
       set_R_d_ R_c
         (set_status_msg_ (set_msg_b1_d b1_c (status_msg_ s)) s))
   else if (current_control_mode_ s =? ATTITUDE_CONTROL)%Z then
     modify (set_R_d_
       (euler2RotationMatrix
          (vx (euler_d_ s)) (vy (euler_d_ s)) (vz (euler_d_ s))))
   else
     emit (ROS_ERROR "Invalid control mode given.") ;;
     throw (runtime_error "Invalid control mode given.")) ;;
  s <- get ;;
  let e_R_skew :=
    mdivs (msub (mmul (adjoint (R_d_ s)) (R_mv_ s))
                (mmul (adjoint (R_mv_ s)) (R_d_ s)))
          (of_Z 2) in
  let e_R := veeOperator e_R_skew in
  let e_omega :=
    vsub (omega_mv_ s)
         (mulv (mmul (adjoint (R_mv_ s)) (R_d_ s)) (omega_d_ s)) in
  (if vx e_omega !=? vx e_omega then
     (* Something went wrong... *)
     throw (runtime_error "Angular velocity error is NAN")
   else ret tt) ;;
  let omega_mv_skew :=
    hatOperator (vx (omega_mv_ s)) (vy (omega_mv_ s)) (vz (omega_mv_ s)) in
  let adjustedInertia := calculateAdjustedInertia s in
  let additionalDynamics :=
    if enable_manipulator_control_ s || enable_mass_control_ s then
      vscale (uav_mass_ s)
             (cross (ro_cm_ s) (mulv (adjoint (R_mv_ s)) (a_d_ s)))
    else vzero in
  let M_u :=
    vadd
      (vsub
         (vadd (vsub (mulv (mneg (k_R_ s)) e_R) (mulv (k_omega_ s) e_omega))
               (cross (omega_mv_ s) (mulv adjustedInertia (omega_mv_ s))))
         (mulv adjustedInertia
            (vsub (mulv (mmul (mmul omega_mv_skew (adjoint (R_mv_ s)))
                              (R_d_ s))
                        (omega_d_ s))
                  (mulv (mmul (adjoint (R_mv_ s)) (R_d_ s)) (alpha_d_ s)))))
      additionalDynamics in
  let M_u :=
    mkV3 (saturation (vx M_u) (of_Z (-5)) (of_Z 5))
         (saturation (vy M_u) (of_Z (-5)) (of_Z 5))
         (saturation (vz M_u) (- lit 25 10) (lit 25 10)) in
  modify (fun s =>
    set_status_msg_
      (set_msg_e_omega e_omega (set_msg_e_R e_R (status_msg_ s))) s) ;;
  ret M_u.

Definition calculateDesiredAngularVelAndAcc (t_d : T) (s : State T)
  : State T :=
  (* Do nothing if not in position control mode or
     calc desired flag is not up. *)
  if negb (calc_desired_flag_ s)
     || negb (current_control_mode_ s =? POSITION_CONTROL)%Z
  then s
  else
    let R_c_dot := mdivs (msub (R_d_ s) (R_c_old_ s)) t_d in
    let omega_c_skew := mmul (adjoint (R_d_ s)) R_c_dot in
    let R_c_ddot := mdivs (msub R_c_dot (R_c_dot_old_ s)) t_d in
    let alpha_c_skew :=
      madd (mmul (mneg omega_c_skew) omega_c_skew)
           (mmul (adjoint (R_d_ s)) R_c_ddot) in
    let omega_d := veeOperator omega_c_skew in
    let alpha_d := veeOperator alpha_c_skew in
    let alpha_d :=
      mkV3 (saturation (vx alpha_d) (- lit 5 10) (lit 5 10))
           (saturation (vy alpha_d) (- lit 5 10) (lit 5 10))
           (saturation (vz alpha_d) (- lit 5 10) (lit 5 10)) in
    set_calc_desired_flag_ false
      (set_R_c_dot_old_ R_c_dot
         (set_R_c_old_ (R_d_ s)
            (set_alpha_d_ alpha_d (set_omega_d_ omega_d s)))).

(** The dynamic-reconfigure callback.  [config] is passed by reference; the
    function returns it as the callback leaves it.  On the first call the
    returned value is also what [server_.updateConfig] is given. *)
Definition param_cb (config : UavGeometryControlParamsConfig T)
    (s : State T) : UavGeometryControlParamsConfig T * State T :=
  if negb (param_start_flag_ s) then
    (* Set parameters for the first time *)
    (mkConfig (m00 (k_x_ s)) (m22 (k_x_ s))
              (m00 (k_v_ s)) (m22 (k_v_ s))
              (m00 (k_R_ s)) (m22 (k_R_ s))
              (m00 (k_omega_ s)) (m22 (k_omega_ s)),
     set_param_start_flag_ true s)
  else
    (* Update parameters *)
    let upd xy z M := set_m22 z (set_m11 xy (set_m00 xy M)) in
    (config,
     set_k_omega_ (upd (kOm_xy config) (kOm_z config) (k_omega_ s))
       (set_k_R_ (upd (kR_xy config) (kR_z config) (k_R_ s))
          (set_k_v_ (upd (kv_xy config) (kv_z config) (k_v_ s))
             (set_k_x_ (upd (kx_xy config) (kx_z config) (k_x_ s)) s)))).

Definition publishControlInputs (f_u : T) (M_u : Vector3 T) : Ctl T unit :=
  let thrust_moment_vec := mkV4 f_u (vx M_u) (vy M_u) (vz M_u) in
  s <- get ;;
  rotor_velocities <-
    (if enable_mass_control_ s then
       (* height and yaw control *)
       let rotor_velocities :=
         calculateRotorVelocities thrust_moment_vec THRUST_TRANSFORM_YAW in
       (* roll and pitch control with masses *)
       let dx :=
         vy M_u / (of_Z 2 * MM_FORCE P * dot E3 (mulv (R_mv_ s) E3)) in
       let dy :=
         vx M_u / (of_Z 2 * MM_FORCE P * dot E3 (mulv (R_mv_ s) E3)) in
       let dx :=
         saturation dx (- ARM_LENGTH P / of_Z 2) (ARM_LENGTH P / of_Z 2) in
       let dy :=
         saturation dy (- ARM_LENGTH P / of_Z 2) (ARM_LENGTH P / of_Z 2) in
       emit (mass_cmd_pub 0 dx) ;;
       emit (mass_cmd_pub 1 (- dy)) ;;
       emit (mass_cmd_pub 2 (- dx)) ;;
       emit (mass_cmd_pub 3 dy) ;;
       ret rotor_velocities
     else if enable_manipulator_control_ s then
       let rotor_velocities :=
         calculateRotorVelocities thrust_moment_vec THRUST_TRANSFORM_YAW in
       let dx :=
         vy M_u / (of_Z 2 * PAYLOAD_FORCE P * dot E3 (mulv (R_mv_ s) E3)) in
       let dy :=
         vx M_u / (of_Z 2 * PAYLOAD_FORCE P * dot E3 (mulv (R_mv_ s) E3)) in
       let dx := saturation dx (- lit 15 100) (lit 15 100) in
       let dy := saturation dy (- lit 15 100) (lit 15 100) in
       emit (payload_pos_pub dx (- dy) zero) ;;
       ret rotor_velocities
     else
       (* full rotor control *)
       ret (calculateRotorVelocities thrust_moment_vec
              THRUST_TRANSFORM_FULL)) ;;
  emit (rotor_ros_pub rotor_velocities) ;;
  modify (fun s =>
    set_status_msg_
      (set_msg_rotor_velocities rotor_velocities (status_msg_ s)) s).

(** [now] is the value [ros::Time::now()] returns for the header. *)
Definition publishStatusMessage (now : T) (f_u : T) (M_u : Vector3 T)
  : Ctl T unit :=
  s <- get ;;
  let att_err := msub EYE3 (mmul (adjoint (R_d_ s)) (R_mv_ s)) in
  let old := status_msg_ s in
  let msg :=
    mkStatus now f_u
      (vx (euler_mv_ s)) (vx (euler_d_ s))
      (vy (euler_mv_ s)) (vy (euler_d_ s))
      (vz (euler_mv_ s)) (vz (euler_d_ s))
      (trace att_err / of_Z 2)
      (sqrt (dot (vsub (x_d_ s) (x_mv_ s)) (vsub (x_d_ s) (x_mv_ s))))
      M_u
      (vx (x_mv_ s)) (vy (x_mv_ s)) (vz (x_mv_ s))
      (vx (x_d_ s)) (vy (x_d_ s)) (vz (x_d_ s))
      (a_d_ s) (v_d_ s) (mcol0 (R_mv_ s))
      (omega_d_ s) (alpha_d_ s) (omega_mv_ s)
      (if enable_mass_control_ s
       then mkV4 (mass0_mv_ s) (mass1_mv_ s) (mass2_mv_ s) (mass3_mv_ s)
       else msg_mass_offset old)
      (ro_cm_ s)
      (msg_e_x old) (msg_e_v old) (msg_b1_d old)
      (msg_e_R old) (msg_e_omega old) (msg_rotor_velocities old) in
  modify (set_status_msg_ msg) ;;
  emit (status_ros_pub msg).

(** *** The control loop *)

(** The local variables of [runControllerLoop] that live across
    iterations. *)
Record LoopVars : Type := mkLoop {
  t_old : T;
  b1_old : Vector3 T;
  desiredCounter : T
}.

(** What one iteration takes from its environment: the callbacks that
    [ros::spinOnce] runs, and the three readings of [ros::Time::now()]
    (for [dt], for [t_old], and for the header of the status message). *)
Record Tick : Type := mkTick {
  spinOnce : State T -> State T;
  current_time : T;
  time_updated : T;
  time_stamp : T
}.

(** The body of the [while (ros::ok())] loop, after [ros::spinOnce()]. *)
Definition controlCycle (tk : Tick) (lv : LoopVars) : Ctl T LoopVars :=
  s <- get ;;
  let desiredTimeInterval := one / of_Z DISCRETIZATION_RATE in
  let dt := current_time tk - t_old lv in
  (* Check if time is right *)
  if dt <? one / of_Z (controller_rate_ s) then ret lv  (* continue *)
  else
    let desiredCounter := desiredCounter lv + dt in
    desiredCounter <-
      (if desiredCounter >=? desiredTimeInterval then
         modify (set_calc_desired_flag_ true) ;;
         modify (calculateDesiredAngularVelAndAcc desiredTimeInterval) ;;
         ret zero
       else ret desiredCounter) ;;
    let t_old := time_updated tk in
    modify calculateCenterOfMass ;;
    s <- get ;;
    (* Position and heading prefilter *)
    let b1_des :=
      vadd (b1_old lv) (vscale (lit 5 100) (vsub (b1_d_ s) (b1_old lv))) in
    ' (b3_d, f_u) <- trajectoryTracking (x_d_ s) ;;
    let b1_old := b1_des in
    M_u <- attitudeTracking b1_des b3_d ;;
    publishControlInputs f_u M_u ;;
    publishStatusMessage (time_stamp tk) f_u M_u ;;
    ret (mkLoop t_old b1_old desiredCounter).

(** The [while] loop, run for as long as the list of ticks lasts
    ([ros::ok()] is false afterwards).  An exception ends it. *)
Fixpoint controlLoop (ticks : list Tick) (lv : LoopVars) : Ctl T LoopVars :=
  match ticks with
  | [] => ret lv
  | tk :: ticks' =>
      modify (spinOnce tk) ;;
      lv' <- controlCycle tk lv ;;
      controlLoop ticks' lv'
  end.

(** [runControllerLoop]: the locals are initialised ([t_start] is the
    clock then), [blockingSensorChecks] spins the callbacks until the
    first samples are in ([startup]), and the loop runs. *)
Definition runControllerLoop (t_start : T) (startup : State T -> State T)
    (ticks : list Tick) : Ctl T LoopVars :=
  s <- get ;;
  let lv := mkLoop t_start (b1_d_ s) zero in
  modify startup ;;
  controlLoop ticks lv.

(** *** Construction and selection of the actuation variant *)

(** The constructor, on the storage [mem] of the object: the members that
    neither [setInitialValues] nor the constructor body assigns keep what
    [mem] holds.  [EYE3] is a global that is still zero-initialised when
    [setInitialValues] copies it into [R_mv_] and [R_c_old_]. *)
Definition UavGeometryControl (rate : Z) (mem : State T) : State T :=
  mkState
    rate
    false false (enable_manipulator_control_ mem) (calc_desired_flag_ mem)
    POSITION_CONTROL
    vzero vzero vzero
    vzero vzero
    vzero vzero (mkV3 one zero zero)
    mzero vzero
    vzero mzero (euler_mv_ mem)
    mzero mzero
    (initializeBodyInertia P) (initializeMovableMassInertia P)
    (initializePayloadInertia P)
    (UAV_MASS P)
    (diag3 (lit 72 10) (lit 72 10) (of_Z 50))
    (diag3 (lit 26 10) (lit 26 10) (of_Z 20))
    (diag3 (lit 152 100) (lit 152 100) (of_Z 12))
    (diag3 (lit 65 100) (lit 65 100) (lit 154 100))
    (mass0_mv_ mem) (mass1_mv_ mem) (mass2_mv_ mem) (mass3_mv_ mem)
    (gripperLeft_mv_ mem) (gripperRight_mv_ mem)
    (ro_cm_ mem)
    (status_msg_ mem).

Definition enableMassControl (s : State T) : State T :=
  set_uav_mass_ (uav_mass_ s + of_Z 4 * MM_MASS P)
    (set_enable_manipulator_control_ false
       (set_enable_mass_control_ true s)).

Definition disableMassControl (s : State T) : State T :=
  set_enable_mass_control_ false s.

Definition enableManipulatorControl (s : State T) : State T :=
  set_uav_mass_
    (uav_mass_ s + (of_Z 2 * PAYLOAD_MASS P + TOTAL_LINK_MASS P))
    (set_enable_mass_control_ false
       (set_enable_manipulator_control_ true s)).

Definition disableManipulatorControl (s : State T) : State T :=
  set_enable_manipulator_control_ false s.

(** *** Subscriber callbacks

    Run by [ros::spinOnce] between iterations.  [imu_cb] and [vel_cb]
    (trigonometry on the Euler angles) are not needed below. *)

Definition ctl_mode_cb (data : Z) (s : State T) : State T :=
  set_current_control_mode_ data s.
Definition xd_cb (msg : Vector3 T) (s : State T) : State T := set_x_d_ msg s.
Definition vd_cb (msg : Vector3 T) (s : State T) : State T := set_v_d_ msg s.
Definition ad_cb (msg : Vector3 T) (s : State T) : State T := set_a_d_ msg s.
Definition b1d_cb (msg : Vector3 T) (s : State T) : State T :=
  set_b1_d_ (vdiv msg (norm msg)) s.
Definition omegad_cb (msg : Vector3 T) (s : State T) : State T :=
  set_omega_d_ msg s.
Definition alphad_cb (msg : Vector3 T) (s : State T) : State T :=
  set_alpha_d_ msg s.
Definition euler_cb (msg : Vector3 T) (s : State T) : State T :=
  set_euler_d_ msg s.
Definition pose_cb (position : Vector3 T) (s : State T) : State T :=
  set_x_mv_ position s.
Definition mass0_cb (process_value : T) (s : State T) : State T :=
  set_mass0_mv_ (ARM_LENGTH P / of_Z 2 + process_value) s.
Definition mass1_cb (process_value : T) (s : State T) : State T :=
  set_mass1_mv_ (ARM_LENGTH P / of_Z 2 + process_value) s.
Definition mass2_cb (process_value : T) (s : State T) : State T :=
  set_mass2_mv_ (ARM_LENGTH P / of_Z 2 + process_value) s.
Definition mass3_cb (process_value : T) (s : State T) : State T :=
  set_mass3_mv_ (ARM_LENGTH P / of_Z 2 + process_value) s.

(** The object as [main] hands it to [runControllerLoop]. *)
Definition main_setup (rate : Z) (mass_ctl manipulator_ctl : bool)
    (mem : State T) : State T :=
  let geometric_control := UavGeometryControl rate mem in
  let geometric_control :=
    if mass_ctl then enableMassControl geometric_control
    else geometric_control in
  if manipulator_ctl then enableManipulatorControl geometric_control
  else geometric_control.

End Controller.

Arguments LoopVars T : clear implicits.
Arguments Tick T : clear implicits.

(** ** Notions used to state the properties *)

Section Observations.
Context {T : Type} `{Scalar T}.
Variable P : MmuavParameters T.
Variable euler2RotationMatrix : T -> T -> T -> Matrix3 T.
Local Open Scope scalar_scope.

(** The rotor commands among the published messages. *)
Definition is_rotor_command (e : Event T) : bool :=
  match e with rotor_ros_pub _ => true | _ => false end.
Definition rotor_commands (log : list (Event T)) : list (Event T) :=
  filter is_rotor_command log.

(** The iteration does its work: a controller period has elapsed. *)
Definition cycle_due (tk : Tick T) (lv : LoopVars T) (s : State T) : bool :=
  negb (current_time tk - t_old lv <? one / of_Z (controller_rate_ s)).

(** The sub-rate timer of the iteration has reached its interval. *)
Definition subrate_due (tk : Tick T) (lv : LoopVars T) : bool :=
  desiredCounter lv + (current_time tk - t_old lv)
    >=? one / of_Z DISCRETIZATION_RATE.

(** The rotation [R_d] that attitude tracking tracks: built from the thrust
    direction and the heading in Position mode, from the desired Euler
    angles otherwise. *)
Definition desiredRotation (b1_desired b3_desired : Vector3 T) (s : State T)
  : Matrix3 T :=
  if (current_control_mode_ s =? POSITION_CONTROL)%Z then
    let n := cross b3_desired b1_desired in
    let b1_c := vdiv (vneg (cross b3_desired n)) (norm n) in
    let b2_c := cross b3_desired b1_c in
    of_cols b1_c (vdiv b2_c (norm b2_c)) b3_desired
  else
    euler2RotationMatrix (vx (euler_d_ s)) (vy (euler_d_ s)) (vz (euler_d_ s)).

(** The angular-velocity error [e_omega = omega - R^T R_d omega_d]. *)
Definition angularVelocityError (b1_desired b3_desired : Vector3 T)
    (s : State T) : Vector3 T :=
  vsub (omega_mv_ s)
       (mulv (mmul (adjoint (R_mv_ s))
                   (desiredRotation b1_desired b3_desired s))
             (omega_d_ s)).

(** All entries off the diagonal are zero. *)
Definition is_diagonal (M : Matrix3 T) : Prop :=
  m01 M = zero /\ m02 M = zero /\ m10 M = zero /\
  m12 M = zero /\ m20 M = zero /\ m21 M = zero.

(** The gain matrix a reconfigure request asks for. *)
Definition retuned (xy z : T) (M : Matrix3 T) : Matrix3 T :=
  mkM3 xy (m01 M) (m02 M) (m10 M) xy (m12 M) (m20 M) (m21 M) z.

(** An object with every number zero, before construction. *)
Definition blank_status : GeomCtlStatus T :=
  let v := vzero in
  let q := mkV4 zero zero zero zero in
  mkStatus zero zero zero zero zero zero zero zero zero zero v
    zero zero zero zero zero zero v v v v v v q v v v v v v q.
Definition blank : State T :=
  mkState 0 false false false false 0 vzero vzero vzero vzero vzero
    vzero vzero vzero mzero vzero vzero mzero vzero mzero mzero
    mzero mzero mzero zero mzero mzero mzero mzero
    zero zero zero zero vzero vzero vzero blank_status.

End Observations.

(** Every component of a 4-vector satisfies [Q]. *)
Definition Forall4 {T} (Q : T -> Prop) (v : Vector4 T) : Prop :=
  Q (w0 v) /\ Q (w1 v) /\ Q (w2 v) /\ Q (w3 v).

(** No component is NaN or infinite. *)
Definition finite3 (v : Vector3 float) : bool :=
  PrimFloat.is_finite (vx v) && PrimFloat.is_finite (vy v)
  && PrimFloat.is_finite (vz v).

(** *** Sample configurations *)

(** A small vehicle with round numbers: 2 kg, thrust split evenly over four
    rotors, motor constant 1/4, rotor speed limit 10. *)
Definition sample_transform {T} `{Scalar T} : Matrix4 T :=
  let q := lit 1 4 in
  let h := lit 1 2 in
  mkM4 (mkV4 q zero h q) (mkV4 q h zero (opp q))
       (mkV4 q zero (opp h) q) (mkV4 q (opp h) zero (opp q)).

Definition sample_params {T} `{Scalar T} : MmuavParameters T :=
  mkParams (of_Z 2) (lit 1 4) (lit 1 2) (lit 1 4)
           (of_Z 2) (of_Z 4) (lit 1 2) (lit 1 4) (of_Z 10) (lit 98 10)
           sample_transform
           (diag3 one one (of_Z 2))
           (diag3 (lit 1 64) (lit 1 64) (lit 1 64))
           (diag3 (lit 1 32) (lit 1 32) (lit 1 32)).

(** Stands for the absent [euler2RotationMatrix] where a closed example
    needs a function; Position mode never calls it. *)
Definition sample_euler2RotationMatrix {T} `{Scalar T}
  : T -> T -> T -> Matrix3 T := fun _ _ _ => EYE3.

(** The object after [main]'s set-up, hovering reference one metre up. *)
Definition sample_state {T} `{Scalar T} (mass_ctl manipulator_ctl : bool)
  : State T :=
  set_R_mv_ EYE3
    (xd_cb (mkV3 zero zero one)
       (main_setup sample_params 100 mass_ctl manipulator_ctl blank)).

Definition sample_tick {T} `{Scalar T} : Tick T :=
  mkTick (fun s => s) one one one.
Definition sample_loop {T} `{Scalar T} : LoopVars T :=
  mkLoop zero (mkV3 one zero zero) zero.

(** *** The gains and their reconfiguration *)

Section Gains.
Context {T : Type} `{Scalar T}.

Definition gains (s : State T) : Matrix3 T * Matrix3 T * Matrix3 T * Matrix3 T :=
  (k_x_ s, k_v_ s, k_R_ s, k_omega_ s).

(** The configuration that reports the gains of [s]. *)
Definition seeded_config (s : State T) : UavGeometryControlParamsConfig T :=
  mkConfig (m00 (k_x_ s)) (m22 (k_x_ s)) (m00 (k_v_ s)) (m22 (k_v_ s))
           (m00 (k_R_ s)) (m22 (k_R_ s))
           (m00 (k_omega_ s)) (m22 (k_omega_ s)).

(** The gains of [s] with the diagonals [config] asks for. *)
Definition requested_gains (config : UavGeometryControlParamsConfig T)
    (s : State T) :=
  (retuned (kx_xy config) (kx_z config) (k_x_ s),
   retuned (kv_xy config) (kv_z config) (k_v_ s),
   retuned (kR_xy config) (kR_z config) (k_R_ s),
   retuned (kOm_xy config) (kOm_z config) (k_omega_ s)).

(** The four diagonal matrices [config] describes. *)
Definition config_gains (config : UavGeometryControlParamsConfig T) :=
  (diag3 (kx_xy config) (kx_xy config) (kx_z config),
   diag3 (kv_xy config) (kv_xy config) (kv_z config),
   diag3 (kR_xy config) (kR_xy config) (kR_z config),
   diag3 (kOm_xy config) (kOm_xy config) (kOm_z config)).

Definition gains_diagonal (s : State T) : Prop :=
  is_diagonal (k_x_ s) /\ is_diagonal (k_v_ s) /\
  is_diagonal (k_R_ s) /\ is_diagonal (k_omega_ s).

(** A run of reconfigure requests, each handled by [param_cb]. *)
Fixpoint reconfigure (configs : list (UavGeometryControlParamsConfig T))
    (s : State T) : State T :=
  match configs with
  | [] => s
  | config :: configs' => reconfigure configs' (snd (param_cb config s))
  end.

End Gains.

(** *** Frames, the rotor law, and the states of the examples *)

(** A computation leaves the observation [f] of the object as it was,
    whenever it returns. *)
Definition preserves {T A X : Type} (f : State T -> X) (m : Ctl T A) : Prop :=
  forall s log a s', m s = (log, inr (a, s')) -> f s' = f s.

(** What the desired-rate estimator keeps from one tick to the next. *)
Definition stored {T} (s : State T) : Matrix3 T * Matrix3 T :=
  (R_c_old_ s, R_c_dot_old_ s).

(** What [calculateRotorVelocities] does to one component of
    [transform_matrix * thrust_moment_vec]. *)
Definition rotor_law {T} `{Scalar T} (P : MmuavParameters T) (x : T) : T :=
  mul (sign x)
      (saturation (sqrt (div (abs x) (MOTOR_CONSTANT P)))
                  (opp (MAX_ROTOR_VELOCITY P)) (MAX_ROTOR_VELOCITY P)).

(** The transform gives every rotor a quarter of the thrust. *)
Definition even_thrust_column (M : Matrix4 R) : Prop :=
  Forall4 (fun r => w0 r = (1 / 4)%R)
          (mkV4 (row0 M) (row1 M) (row2 M) (row3 M)).

Definition invalid_mode : string := "Invalid control mode given.".
Definition nan_error : string := "Angular velocity error is NAN".

(** The sample vehicle with the gyro reporting an infinite roll rate, and
    with the gyro reporting NaN on the pitch axis only. *)
Definition infinite_rate_state : State float :=
  set_omega_mv_ (mkV3 PrimFloat.infinity PrimFloat.zero PrimFloat.zero)
                (sample_state false false).
Definition nan_pitch_rate_state : State float :=
  set_omega_mv_ (mkV3 PrimFloat.zero PrimFloat.nan PrimFloat.zero)
                (sample_state false false).
Definition nan_roll_rate_state : State float :=
  set_omega_mv_ (mkV3 PrimFloat.nan PrimFloat.zero PrimFloat.zero)
                (sample_state false false).
Definition heading_x : Vector3 float :=
  mkV3 PrimFloat.one PrimFloat.zero PrimFloat.zero.
Definition thrust_up : Vector3 float :=
  mkV3 PrimFloat.zero PrimFloat.zero PrimFloat.one.

(** ** Further members, and notions for their properties *)

Section MoreMembers.
Context {T : Type} `{Scalar T}.
Variable P : MmuavParameters T.
(** [std::cos] and [std::sin]. *)
Variable cos : T -> T.
Variable sin : T -> T.
Local Open Scope scalar_scope.

Definition set_v_mv_ (x : Vector3 T) (s : State T) : State T :=
  mkState (controller_rate_ s) (param_start_flag_ s)
  (enable_mass_control_ s) (enable_manipulator_control_ s)
  (calc_desired_flag_ s) (current_control_mode_ s) (x_d_ s) (v_d_ s)
  (a_d_ s) (x_mv_ s) x (omega_d_ s) (alpha_d_ s) (b1_d_ s) (R_d_ s)
  (euler_d_ s) (omega_mv_ s) (R_mv_ s) (euler_mv_ s) (R_c_old_ s)
  (R_c_dot_old_ s) (inertia_ s) (mass_inertia_ s) (payload_inertia_ s)
  (uav_mass_ s) (k_x_ s) (k_v_ s) (k_R_ s) (k_omega_ s) (mass0_mv_ s)
  (mass1_mv_ s) (mass2_mv_ s) (mass3_mv_ s) (gripperLeft_mv_ s)
  (gripperRight_mv_ s) (ro_cm_ s) (status_msg_ s).

(** [vel_cb], on the linear part of the twist: the horizontal velocity is
    turned by the measured yaw.  The start flag that it raises is read by
    [blockingSensorChecks] only. *)
Definition vel_cb (linear : Vector3 T) (s : State T) : State T :=
  set_v_mv_
    (mkV3 (cos (vz (euler_mv_ s)) * vx linear
           - sin (vz (euler_mv_ s)) * vy linear)
          (sin (vz (euler_mv_ s)) * vx linear
           + cos (vz (euler_mv_ s)) * vy linear)
          (vz linear)) s.

(** [rd_cb]: the first nine numbers of the message, by rows.  [None] is
    the read past the end of a shorter array, which C++ leaves
    undefined. *)
Definition rd_cb (data : list T) (s : State T) : option (State T) :=
  match data with
  | d0 :: d1 :: d2 :: d3 :: d4 :: d5 :: d6 :: d7 :: d8 :: _ =>
      Some (set_R_d_ (mkM3 d0 d1 d2 d3 d4 d5 d6 d7 d8) s)
  | _ => None
  end.

(** A rotation matrix as the nine numbers of an [R_desired] message. *)
Definition row_major (M : Matrix3 T) : list T :=
  [m00 M; m01 M; m02 M; m10 M; m11 M; m12 M; m20 M; m21 M; m22 M].

(** The calls that select or drop an actuation variant. *)
Inductive VariantCall : Type :=
| EnableMass | DisableMass | EnableManipulator | DisableManipulator.

Definition variant_call (c : VariantCall) (s : State T) : State T :=
  match c with
  | EnableMass => enableMassControl P s
  | DisableMass => disableMassControl s
  | EnableManipulator => enableManipulatorControl P s
  | DisableManipulator => disableManipulatorControl s
  end.

Fixpoint variant_calls (cs : list VariantCall) (s : State T) : State T :=
  match cs with
  | [] => s
  | c :: cs' => variant_calls cs' (variant_call c s)
  end.

(** The control force [A] that trajectory tracking computes in a valid
    mode, before it is divided by its norm: from the full errors in
    Position mode, from their z components otherwise. *)
Definition commandedForce (pos_desired : Vector3 T) (s : State T)
  : Vector3 T :=
  let e_x :=
    if (current_control_mode_ s =? POSITION_CONTROL)%Z
    then vsub (x_mv_ s) pos_desired
    else vscale (vz (x_mv_ s) - vz pos_desired) E3 in
  let e_v :=
    if (current_control_mode_ s =? POSITION_CONTROL)%Z
    then vsub (v_mv_ s) (v_d_ s)
    else vscale (vz (v_mv_ s) - vz (v_d_ s)) E3 in
  let A :=
    vadd (vadd (vsub (mulv (mneg (k_x_ s)) e_x) (mulv (k_v_ s) e_v))
               (vscale (uav_mass_ s * G P) E3))
         (vscale (uav_mass_ s) (a_d_ s)) in
  if enable_mass_control_ s || enable_manipulator_control_ s then
    vadd A
      (vsub (vscale (- uav_mass_ s)
                    (cross (mulv (R_mv_ s) (ro_cm_ s)) (alpha_d_ s)))
            (mulv (mmul (mmul (mscale (uav_mass_ s) (R_mv_ s))
                              (hatOperator (vx (omega_mv_ s))
                                 (vy (omega_mv_ s)) (vz (omega_mv_ s))))
                        (hatOperator (vx (ro_cm_ s)) (vy (ro_cm_ s))
                           (vz (ro_cm_ s))))
                  (omega_mv_ s)))
  else A.

End MoreMembers.

Definition is_enable_mass (c : VariantCall) : bool :=
  match c with EnableMass => true | _ => false end.
Definition is_enable_manipulator (c : VariantCall) : bool :=
  match c with EnableManipulator => true | _ => false end.

(** What a caller sees of a member function: what was sent, and the
    exception or the returned value. *)
Definition outcome {T A : Type}
    (r : list (Event T) * (exn + A * State T)) : list (Event T) * (exn + A) :=
  (fst r, match snd r with inl e => inl e | inr (a, _) => inr a end).

(** Whenever the computation returns from [s], the value and the object
    satisfy [Q]. *)
Definition post {T A : Type} (m : Ctl T A) (s : State T)
    (Q : A -> State T -> Prop) : Prop :=
  forall log a s', m s = (log, inr (a, s')) -> Q a s'.

Section LoopNotions.
Context {T : Type} `{Scalar T}.

(** The callbacks of a run of ticks, one after the other. *)
Definition spin_all (ticks : list (Tick T)) (s : State T) : State T :=
  fold_left (fun s tk => spinOnce tk s) ticks s.

(** No tick of the run finds a controller period elapsed. *)
Fixpoint all_idle (ticks : list (Tick T)) (lv : LoopVars T) (s : State T)
  : bool :=
  match ticks with
  | [] => true
  | tk :: ticks' =>
      negb (cycle_due tk lv (spinOnce tk s))
      && all_idle ticks' lv (spinOnce tk s)
  end.

(** The heading after one step of the prefilter of the loop. *)
Definition prefilter (b1_old b1_d : Vector3 T) : Vector3 T :=
  vadd b1_old (vscale (lit 5 100) (vsub b1_d b1_old)).

End LoopNotions.

Section RunNotions.
Context {T : Type} `{Scalar T}.
Variable P : MmuavParameters T.
Variable euler2RotationMatrix : T -> T -> T -> Matrix3 T.

(** The number of iterations of a run that find a controller period
    elapsed and do their work, up to the end of the run or to the
    exception that ends it. *)
Fixpoint due_count (ticks : list (Tick T)) (lv : LoopVars T) (s : State T)
  : nat :=
  match ticks with
  | [] => 0
  | tk :: ticks' =>
      let s1 := spinOnce tk s in
      (if cycle_due tk lv s1 then 1 else 0)
      + match snd (controlCycle P euler2RotationMatrix tk lv s1) with
        | inl _ => 0
        | inr (lv', s') => due_count ticks' lv' s'
        end
  end.

End RunNotions.

Definition Forall3 {T} (Q : T -> Prop) (v : Vector3 T) : Prop :=
  Q (vx v) /\ Q (vy v) /\ Q (vz v).

(** One metre up and one metre along x. *)
Definition heading_x_up : Vector3 float :=
  mkV3 PrimFloat.one PrimFloat.zero PrimFloat.one.


(** An idle tick: the clock still reads the time of [sample_loop]. *)
Definition idle_tick {T} `{Scalar T} : Tick T :=
  mkTick (fun s => s) zero zero zero.

(** * Properties *)

(** ** The control monad *)

Section MonadFacts.
Context {T : Type}.

Lemma bind_get {A} (k : State T -> Ctl T A) (s : State T) :
  bind get k s = k s s.
Proof. unfold bind, get. destruct (k s s); reflexivity. Qed.

Lemma bind_modify {A} (g : State T -> State T) (k : unit -> Ctl T A)
    (s : State T) :
  bind (modify g) k s = k tt (g s).
Proof. unfold bind, modify. destruct (k tt (g s)); reflexivity. Qed.

Variable X : Type.
Variable f : State T -> X.

Lemma preserves_ret {A} (a : A) : preserves f (ret a).
Proof. intros s log b s' E; inversion E; reflexivity. Qed.

Lemma preserves_get : preserves f get.
Proof. intros s log b s' E; inversion E; reflexivity. Qed.

Lemma preserves_emit (e : Event T) : preserves f (emit e).
Proof. intros s log b s' E; inversion E; reflexivity. Qed.

Lemma preserves_throw {A} (e : exn) : preserves f (@throw T A e).
Proof. intros s log b s' E; inversion E. Qed.

Lemma preserves_modify (g : State T -> State T) :
  (forall s, f (g s) = f s) -> preserves f (modify g).
Proof. intros Hg s log b s' E; inversion E; apply Hg. Qed.

(** Sequencing, when the first computation is only known to keep [f] from
    the state at hand. *)
Lemma preserves_bind_at {A B} (m : Ctl T A) (k : A -> Ctl T B) (s : State T) :
  (forall log a s', m s = (log, inr (a, s')) -> f s' = f s) ->
  (forall a, preserves f (k a)) ->
  forall log b s'', bind m k s = (log, inr (b, s'')) -> f s'' = f s.
Proof.
  intros Hm Hk log b s''. unfold bind.
  destruct (m s) as [l1 [e|[a s1]]] eqn:E1; [discriminate|].
  destruct (k a s1) as [l2 r] eqn:E2. intros E; inversion E; subst.
  rewrite (Hk a _ _ _ _ E2). eapply Hm; reflexivity.
Qed.

Lemma preserves_bind {A B} (m : Ctl T A) (k : A -> Ctl T B) :
  preserves f m -> (forall a, preserves f (k a)) -> preserves f (bind m k).
Proof. intros Hm Hk s. apply preserves_bind_at; [apply Hm | apply Hk]. Qed.

End MonadFacts.

(** ** What the trackers and publishers leave alone

    Trajectory tracking, attitude tracking and the two publishers write
    [status_msg_] and [R_d_] only; the centre-of-mass update writes
    [ro_cm_].  Any observation blind to these three is kept. *)

Section Frames.
Context {T : Type} `{Scalar T}.
Variable P : MmuavParameters T.
Variable e2r : T -> T -> T -> Matrix3 T.
Variable X : Type.
Variable f : State T -> X.
Hypothesis f_status : forall m s, f (set_status_msg_ m s) = f s.
Hypothesis f_R_d : forall R s, f (set_R_d_ R s) = f s.
Hypothesis f_ro_cm : forall v s, f (set_ro_cm_ v s) = f s.

Ltac preserves_step :=
  first
    [ apply preserves_ret | apply preserves_get | apply preserves_emit
    | apply preserves_throw
    | apply preserves_modify; intros; cbv beta;
      repeat first [rewrite f_status | rewrite f_R_d | rewrite f_ro_cm];
      reflexivity
    | apply preserves_bind; [| intros ?]
    | match goal with
      | |- preserves _ (if ?b then _ else _) => destruct b
      | |- preserves _ (match ?x with (_, _) => _ end) => destruct x
      | |- preserves _ (let _ := _ in _) => cbv zeta
      end ].

Lemma trajectoryTracking_preserves pos_desired :
  preserves f (trajectoryTracking P pos_desired).
Proof. unfold trajectoryTracking. repeat preserves_step. Qed.

Lemma attitudeTracking_preserves b1 b3 :
  preserves f (attitudeTracking P e2r b1 b3).
Proof. unfold attitudeTracking. repeat preserves_step. Qed.

Lemma publishControlInputs_preserves f_u M_u :
  preserves f (publishControlInputs P f_u M_u).
Proof. unfold publishControlInputs. repeat preserves_step. Qed.

Lemma publishStatusMessage_preserves now f_u M_u :
  preserves f (publishStatusMessage now f_u M_u).
Proof. unfold publishStatusMessage. repeat preserves_step. Qed.

Lemma calculateCenterOfMass_preserves s :
  f (calculateCenterOfMass P s) = f s.
Proof.
  unfold calculateCenterOfMass.
  destruct (enable_mass_control_ s), (enable_manipulator_control_ s);
    apply f_ro_cm.
Qed.

(** What follows the sub-rate block in an iteration. *)
Lemma cycle_tail_preserves (tk : Tick T) (lv : LoopVars T) (t c : T) :
  preserves f
    (modify (calculateCenterOfMass P) ;;
     s <- get ;;
     ' (b3_d, f_u) <- trajectoryTracking P (x_d_ s) ;;
     M_u <- attitudeTracking P e2r
              (vadd (b1_old lv)
                    (vscale (lit 5 100) (vsub (b1_d_ s) (b1_old lv))))
              b3_d ;;
     publishControlInputs P f_u M_u ;;
     publishStatusMessage (time_stamp tk) f_u M_u ;;
     ret (mkLoop t
            (vadd (b1_old lv)
                  (vscale (lit 5 100) (vsub (b1_d_ s) (b1_old lv))))
            c)).
Proof.
  apply preserves_bind;
    [apply preserves_modify, calculateCenterOfMass_preserves | intros _].
  apply preserves_bind; [apply preserves_get | intros s].
  apply preserves_bind;
    [apply trajectoryTracking_preserves | intros [b3_d f_u]].
  apply preserves_bind; [apply attitudeTracking_preserves | intros M_u].
  apply preserves_bind; [apply publishControlInputs_preserves | intros _].
  apply preserves_bind; [apply publishStatusMessage_preserves | intros _].
  apply preserves_ret.
Qed.

End Frames.

(** ** Control flow, for every arithmetic *)

Section ControlFlow.
Context {T : Type} `{Scalar T}.
Variable P : MmuavParameters T.
Variable e2r : T -> T -> T -> Matrix3 T.

Lemma mode_tests (s : State T) :
  current_control_mode_ s <> POSITION_CONTROL ->
  current_control_mode_ s <> ATTITUDE_CONTROL ->
  (current_control_mode_ s =? POSITION_CONTROL)%Z = false /\
  (current_control_mode_ s =? ATTITUDE_CONTROL)%Z = false.
Proof. intros H1 H2; split; apply Z.eqb_neq; assumption. Qed.

Lemma trajectoryTracking_invalid_mode (pos_desired : Vector3 T) (s : State T) :
  current_control_mode_ s <> POSITION_CONTROL ->
  current_control_mode_ s <> ATTITUDE_CONTROL ->
  trajectoryTracking P pos_desired s =
    ([ROS_ERROR invalid_mode], inl (runtime_error invalid_mode)).
Proof.
  intros H1 H2. destruct (mode_tests s H1 H2) as [E1 E2].
  unfold trajectoryTracking, bind, get; cbv beta iota.
  rewrite E1, E2. reflexivity.
Qed.

Lemma calculateDesired_mode (t : T) (s : State T) :
  current_control_mode_ (calculateDesiredAngularVelAndAcc t s) =
  current_control_mode_ s.
Proof.
  unfold calculateDesiredAngularVelAndAcc. destruct (_ || _); reflexivity.
Qed.

Lemma calculateCenterOfMass_mode (s : State T) :
  current_control_mode_ (calculateCenterOfMass P s) =
  current_control_mode_ s.
Proof. apply calculateCenterOfMass_preserves. reflexivity. Qed.

Lemma controlCycle_invalid_mode (tk : Tick T) (lv : LoopVars T) (s : State T) :
  current_control_mode_ s <> POSITION_CONTROL ->
  current_control_mode_ s <> ATTITUDE_CONTROL ->
  cycle_due tk lv s = true ->
  controlCycle P e2r tk lv s =
    ([ROS_ERROR invalid_mode], inl (runtime_error invalid_mode)).
Proof.
  intros H1 H2 D. unfold cycle_due in D. apply negb_true_iff in D.
  unfold controlCycle. rewrite bind_get, D.
  match goal with |- context [leb ?a ?b] => destruct (leb a b) end;
    unfold bind, modify, ret, get; cbv beta iota;
    (rewrite trajectoryTracking_invalid_mode; [reflexivity| |]);
    rewrite calculateCenterOfMass_mode, ?calculateDesired_mode; assumption.
Qed.

(** Scenario C in the loop: the mode is invalid when the first iteration
    that is due starts; the run ends there, with nothing published. *)
Lemma runControllerLoop_invalid_mode t_start startup tk rest (s : State T) :
  let lv := mkLoop t_start (b1_d_ s) zero in
  let s1 := spinOnce tk (startup s) in
  current_control_mode_ s1 <> POSITION_CONTROL ->
  current_control_mode_ s1 <> ATTITUDE_CONTROL ->
  cycle_due tk lv s1 = true ->
  runControllerLoop P e2r t_start startup (tk :: rest) s =
    ([ROS_ERROR invalid_mode], inl (runtime_error invalid_mode)).
Proof.
  intros lv s1 H1 H2 D. unfold runControllerLoop.
  rewrite bind_get, bind_modify. cbn [controlLoop].
  rewrite bind_modify. fold s1 lv. unfold bind at 1.
  rewrite controlCycle_invalid_mode by assumption. reflexivity.
Qed.

(** C1.  With a control mode other than Position and Attitude (Velocity,
    99, ...), trajectory tracking logs and throws "Invalid control mode
    given."; an iteration of the loop publishes no rotor command, and an
    iteration that is due ends in that exception before anything is
    published. *)
Theorem invalid_mode_is_fatal (tk : Tick T) (lv : LoopVars T) (s : State T) :
  current_control_mode_ s <> POSITION_CONTROL ->
  current_control_mode_ s <> ATTITUDE_CONTROL ->
  (forall pos_desired,
     trajectoryTracking P pos_desired s =
       ([ROS_ERROR invalid_mode], inl (runtime_error invalid_mode))) /\
  rotor_commands (fst (controlCycle P e2r tk lv s)) = [] /\
  (cycle_due tk lv s = true ->
   controlCycle P e2r tk lv s =
     ([ROS_ERROR invalid_mode], inl (runtime_error invalid_mode))).
Proof.
  intros H1 H2.
  split; [intros; now apply trajectoryTracking_invalid_mode|].
  split; [|now apply controlCycle_invalid_mode].
  destruct (cycle_due tk lv s) eqn:E.
  - rewrite controlCycle_invalid_mode by assumption. reflexivity.
  - unfold cycle_due in E. apply negb_false_iff in E.
    unfold controlCycle. rewrite bind_get, E. reflexivity.
Qed.

(** *** The desired-rate estimator *)

Lemma estimator_returns_early (t_d : T) (s : State T) :
  calc_desired_flag_ s = false \/
  current_control_mode_ s <> POSITION_CONTROL ->
  calculateDesiredAngularVelAndAcc t_d s = s.
Proof.
  intros G. unfold calculateDesiredAngularVelAndAcc.
  destruct G as [G|G].
  - rewrite G. reflexivity.
  - apply Z.eqb_neq in G. rewrite G, orb_true_r. reflexivity.
Qed.

Lemma controlCycle_stored (tk : Tick T) (lv : LoopVars T) (s : State T)
    log lv' s' :
  controlCycle P e2r tk lv s = (log, inr (lv', s')) ->
  cycle_due tk lv s && subrate_due tk lv
    && (current_control_mode_ s =? POSITION_CONTROL)%Z = false ->
  stored s' = stored s.
Proof.
  unfold controlCycle, cycle_due, subrate_due. rewrite bind_get.
  destruct (ltb _ _) eqn:Edue; cbn [negb andb].
  - intros E _. inversion E. reflexivity.
  - intros E G. revert E. apply preserves_bind_at.
    + destruct (leb _ _); cbn [andb] in G.
      * intros l a s1 E. cbv [bind modify ret] in E. inversion E; subst.
        rewrite estimator_returns_early; [reflexivity|].
        right. cbn. now apply Z.eqb_neq.
      * intros l a s1 E. inversion E. reflexivity.
    + intros a. apply cycle_tail_preserves; reflexivity.
Qed.

(** C8.  Called with the flag down or in a mode other than Position, the
    desired-rate estimator returns the object unchanged (so [omega_d_],
    [alpha_d_], [R_c_old_] and [R_c_dot_old_] are as before); and across
    an iteration of the loop the stored [R_c_old_] and [R_c_dot_old_]
    stay as they were unless the iteration is due, its sub-rate timer has
    reached the interval and the mode is Position. *)
Theorem estimator_gated (t_d : T) (tk : Tick T) (lv : LoopVars T)
    (s : State T) :
  (calc_desired_flag_ s = false \/
   current_control_mode_ s <> POSITION_CONTROL ->
   calculateDesiredAngularVelAndAcc t_d s = s) /\
  (forall log lv' s',
     controlCycle P e2r tk lv s = (log, inr (lv', s')) ->
     cycle_due tk lv s && subrate_due tk lv
       && (current_control_mode_ s =? POSITION_CONTROL)%Z = false ->
     R_c_old_ s' = R_c_old_ s /\ R_c_dot_old_ s' = R_c_dot_old_ s).
Proof.
  split; [apply estimator_returns_early|].
  intros log lv' s' E G.
  apply controlCycle_stored in E; [|exact G]. unfold stored in E.
  inversion E. split; reflexivity.
Qed.

(** *** The gain callback *)

Lemma retuned_diagonal (xy z : T) (M : Matrix3 T) :
  is_diagonal M -> retuned xy z M = diag3 xy xy z.
Proof.
  intros (h01 & h02 & h10 & h12 & h20 & h21). unfold retuned, diag3.
  rewrite h01, h02, h10, h12, h20, h21. reflexivity.
Qed.

Lemma param_cb_first config (s : State T) :
  param_start_flag_ s = false ->
  param_cb config s = (seeded_config s, set_param_start_flag_ true s).
Proof. intros E. unfold param_cb. rewrite E. reflexivity. Qed.

Lemma param_cb_later config (s : State T) :
  param_start_flag_ s = true ->
  fst (param_cb config s) = config /\
  gains (snd (param_cb config s)) = requested_gains config s /\
  param_start_flag_ (snd (param_cb config s)) = true.
Proof.
  intros E. unfold param_cb. rewrite E. cbn.
  split; [reflexivity|]. split; [reflexivity|]. exact E.
Qed.

Lemma param_cb_flag config (s : State T) :
  param_start_flag_ (snd (param_cb config s)) = true.
Proof.
  destruct (param_start_flag_ s) eqn:E.
  - now apply param_cb_later.
  - rewrite param_cb_first by assumption. reflexivity.
Qed.

Lemma param_cb_diagonal config (s : State T) :
  gains_diagonal s -> gains_diagonal (snd (param_cb config s)).
Proof.
  intros D. destruct (param_start_flag_ s) eqn:E.
  - unfold param_cb. rewrite E. exact D.
  - rewrite param_cb_first by assumption. exact D.
Qed.

Lemma reconfigure_invariant configs : forall s : State T,
  param_start_flag_ s = true ->
  param_start_flag_ (reconfigure configs s) = true /\
  (gains_diagonal s -> gains_diagonal (reconfigure configs s)).
Proof.
  induction configs as [|c cs IH]; intros s E; cbn.
  - split; auto.
  - destruct (IH (snd (param_cb c s)) (param_cb_flag c s)) as [F D].
    split; [exact F|]. intros Ds. apply D, param_cb_diagonal, Ds.
Qed.

Lemma constructed_gains_diagonal rate (mem : State T) :
  param_start_flag_ (UavGeometryControl P rate mem) = false /\
  gains_diagonal (UavGeometryControl P rate mem).
Proof. split; [reflexivity|]. repeat split. Qed.

(** C9.  From an object whose [param_start_flag_] is down (as the
    constructor leaves it), the first call of [param_cb] keeps the four
    gain matrices and hands back the configuration read from them; after
    it and any further calls, a call with [config] hands [config] back
    and sets, in each gain matrix, the xx and yy entries to the xy value
    and the zz entry to the z value, leaving the other entries; so
    diagonal gain matrices become the diagonal matrices of [config]. *)
Theorem gain_reconfiguration (s : State T) first later config :
  param_start_flag_ s = false ->
  let s1 := snd (param_cb first s) in
  let s' := reconfigure later s1 in
  let s'' := snd (param_cb config s') in
  (gains s1 = gains s /\ fst (param_cb first s) = seeded_config s) /\
  (gains s'' = requested_gains config s' /\
   fst (param_cb config s') = config) /\
  (gains_diagonal s -> gains s'' = config_gains config).
Proof.
  intros E s1 s' s''.
  assert (E1 : param_start_flag_ s1 = true) by apply param_cb_flag.
  destruct (reconfigure_invariant later s1 E1) as [F D]. fold s' in F, D.
  destruct (param_cb_later config s' F) as (O & G & _). fold s'' in G.
  split; [|split].
  - unfold s1. rewrite param_cb_first by assumption. split; reflexivity.
  - split; assumption.
  - intros Ds. rewrite G.
    assert (D' : gains_diagonal s').
    { apply D. unfold s1. rewrite param_cb_first by assumption. exact Ds. }
    destruct D' as (dx & dv & dR & dO). unfold requested_gains, config_gains.
    rewrite !retuned_diagonal by assumption. reflexivity.
Qed.

End ControlFlow.

(** ** The algebra of the control law, over the reals *)

Ltac to_R :=
  cbv [of_Z add sub mul div opp sqrt abs ltb leb eqb Scalar_R zero one lit]
    in *.
Ltac eval_model_in E :=
  cbv - [Rplus Rminus Rmult Rdiv Ropp Rinv IZR R_sqrt.sqrt Rabs Rmin
         Rlt_dec Rle_dec Req_dec_T] in E.
Ltac eval_model :=
  cbv - [Rplus Rminus Rmult Rdiv Ropp Rinv IZR R_sqrt.sqrt Rabs Rmin
         Rlt_dec Rle_dec Req_dec_T].

Section Ideal.
Variable P : MmuavParameters R.
Local Open Scope R_scope.

(** *** Centre of mass *)

(** C7.  With the movable masses active,
    [r_cm = ((mu m0 - mu m2) / m, (mu m1 - mu m3) / m, 0)] for the
    movable-mass value [mu] and the vehicle mass [m]; four zero offsets
    give [r_cm = (0, 0, 0)]. *)
Theorem movable_mass_center (s : State R) :
  enable_mass_control_ s = true ->
  ro_cm_ (calculateCenterOfMass P s) =
    mkV3 ((MM_MASS P * mass0_mv_ s - MM_MASS P * mass2_mv_ s) / uav_mass_ s)
         ((MM_MASS P * mass1_mv_ s - MM_MASS P * mass3_mv_ s) / uav_mass_ s)
         0 /\
  (mass0_mv_ s = 0 -> mass1_mv_ s = 0 ->
   mass2_mv_ s = 0 -> mass3_mv_ s = 0 ->
   ro_cm_ (calculateCenterOfMass P s) = mkV3 0 0 0).
Proof.
  intros E. unfold calculateCenterOfMass. rewrite E.
  cbn [ro_cm_ set_ro_cm_]. to_R. split.
  - f_equal; unfold Rdiv; ring.
  - intros -> -> -> ->. f_equal; unfold Rdiv; ring.
Qed.


(** *** Adjusted inertia *)

(** C2, as the code has it.  With the feedback at the neutral position
    the adjusted inertia is the body inertia plus the own inertia of the
    added hardware on the diagonal (xx, yy and four times zz of
    [mass_inertia_] for the movable masses; twice [payload_inertia_] for
    the manipulator), with no term in the positions; with no variant
    active it is the body inertia. *)
Theorem adjusted_inertia_neutral (s : State R) :
  let J := inertia_ s in
  (enable_mass_control_ s = true ->
   mass0_mv_ s = 0 -> mass1_mv_ s = 0 ->
   mass2_mv_ s = 0 -> mass3_mv_ s = 0 ->
   calculateAdjustedInertia P s =
     mkM3 (m00 J + m00 (mass_inertia_ s)) (m01 J) (m02 J)
          (m10 J) (m11 J + m11 (mass_inertia_ s)) (m12 J)
          (m20 J) (m21 J) (m22 J + 4 * m22 (mass_inertia_ s))) /\
  (enable_mass_control_ s = false ->
   enable_manipulator_control_ s = true ->
   gripperLeft_mv_ s = mkV3 0 0 0 -> gripperRight_mv_ s = mkV3 0 0 0 ->
   calculateAdjustedInertia P s =
     mkM3 (m00 J + 2 * m00 (payload_inertia_ s)) (m01 J) (m02 J)
          (m10 J) (m11 J + 2 * m11 (payload_inertia_ s)) (m12 J)
          (m20 J) (m21 J) (m22 J + 2 * m22 (payload_inertia_ s))) /\
  (enable_mass_control_ s = false ->
   enable_manipulator_control_ s = false ->
   calculateAdjustedInertia P s = J).
Proof.
  intros J. unfold calculateAdjustedInertia. fold J. repeat split.
  - intros -> -> -> -> ->.
    cbv [set_m00 set_m11 set_m22 m00 m01 m02 m10 m11 m12 m20 m21 m22].
    to_R. destruct J; f_equal; ring.
  - intros -> -> -> ->.
    cbv [set_m00 set_m11 set_m22 m00 m01 m02 m10 m11 m12 m20 m21 m22
         vx vy vz].
    to_R. destruct J; f_equal; ring.
  - intros -> ->. reflexivity.
Qed.

(** *** Rotor allocation *)

Lemma sign_cases (x : R) :
  (0 < x /\ sign x = 1) \/ (x = 0 /\ sign x = 0) \/ (x < 0 /\ sign x = -1).
Proof.
  unfold sign. to_R. unfold Rltb.
  destruct (Rlt_dec 0 x), (Rlt_dec x 0);
    cbn [Z.b2z Z.sub Z.add Z.opp Z.pos_sub]; lra.
Qed.

Lemma saturation_bounds (x lo hi : R) :
  lo <= hi -> lo <= saturation x lo hi <= hi.
Proof.
  intros L. unfold saturation. to_R. unfold Rltb.
  destruct (Rlt_dec hi x); [lra|]. destruct (Rlt_dec x lo); lra.
Qed.

Lemma saturation_nonneg (x hi : R) :
  0 <= x -> 0 <= hi -> saturation x (- hi) hi = Rmin x hi.
Proof.
  intros Hx Hh. unfold saturation, Rmin. to_R. unfold Rltb.
  destruct (Rlt_dec hi x), (Rle_dec x hi); try lra.
  destruct (Rlt_dec x (- hi)); lra.
Qed.

Lemma calculateRotorVelocities_law (v : Vector4 R) (M : Matrix4 R) :
  calculateRotorVelocities P v M = map4 (rotor_law P) (mulv4 M v).
Proof. reflexivity. Qed.



Lemma rotor_law_thrust (F : R) :
  0 < F -> 0 < MOTOR_CONSTANT P -> 0 < MAX_ROTOR_VELOCITY P ->
  rotor_law P (F / 4) =
    Rmin (R_sqrt.sqrt (F / (4 * MOTOR_CONSTANT P))) (MAX_ROTOR_VELOCITY P)
  /\ 0 < rotor_law P (F / 4).
Proof.
  intros HF Hk HM. unfold rotor_law.
  destruct (sign_cases (F / 4)) as [[_ ->]|[[? _]|[? _]]]; try lra.
  to_R. rewrite Rabs_right by lra.
  replace (F / 4 / MOTOR_CONSTANT P) with (F / (4 * MOTOR_CONSTANT P))
    by (field; lra).
  assert (Hq : 0 < F / (4 * MOTOR_CONSTANT P)).
  { apply Rdiv_lt_0_compat; lra. }
  pose proof (sqrt_lt_R0 _ Hq) as Hs.
  rewrite saturation_nonneg by lra.
  split; [lra|].
  unfold Rmin. destruct (Rle_dec _ _); lra.
Qed.

Lemma even_thrust_product (F : R) (M : Matrix4 R) :
  even_thrust_column M ->
  mulv4 M (mkV4 F 0 0 0) = mkV4 (F / 4) (F / 4) (F / 4) (F / 4).
Proof.
  intros (E0 & E1 & E2 & E3). cbn [w0 w1 w2 w3] in *.
  unfold mulv4, dot4; cbn [w0 w1 w2 w3]. rewrite E0, E1, E2, E3. to_R.
  f_equal; field.
Qed.

(** C5, as the code has it.  For a thrust [F > 0] and no moment, under a
    transform that gives each rotor [F / 4], the four rotor commands are
    equal and positive, each the smaller of [sqrt (F / (4 k))] and the
    rotor speed limit; they are [sqrt (F / (4 k))] when that is within
    the limit. *)
Theorem hover_allocation (F : R) (M : Matrix4 R) :
  0 < F -> 0 < MOTOR_CONSTANT P -> 0 < MAX_ROTOR_VELOCITY P ->
  even_thrust_column M ->
  let w :=
    Rmin (R_sqrt.sqrt (F / (4 * MOTOR_CONSTANT P))) (MAX_ROTOR_VELOCITY P) in
  calculateRotorVelocities P (mkV4 F 0 0 0) M = mkV4 w w w w /\ 0 < w /\
  (R_sqrt.sqrt (F / (4 * MOTOR_CONSTANT P)) <= MAX_ROTOR_VELOCITY P ->
   w = R_sqrt.sqrt (F / (4 * MOTOR_CONSTANT P))).
Proof.
  intros HF Hk HM HE w.
  destruct (rotor_law_thrust HF Hk HM) as [L Lp]. fold w in L.
  rewrite calculateRotorVelocities_law, (even_thrust_product F HE).
  unfold map4; cbn [w0 w1 w2 w3]. rewrite L.
  split; [reflexivity|]. split; [rewrite <- L; exact Lp|].
  intros Hle. unfold w. apply Rmin_left. exact Hle.
Qed.



End Ideal.

(** ** The NaN check of attitude tracking *)

Section NanCheck.
Context {T : Type} `{Scalar T}.
Variable P : MmuavParameters T.
Variable e2r : T -> T -> T -> Matrix3 T.
Local Open Scope scalar_scope.

(** In a valid mode, attitude tracking throws exactly when the x component
    of the angular-velocity error differs from itself. *)
Lemma attitudeTracking_check (b1 b3 : Vector3 T) (s : State T) :
  current_control_mode_ s = POSITION_CONTROL \/
  current_control_mode_ s = ATTITUDE_CONTROL ->
  let e := angularVelocityError e2r b1 b3 s in
  ((vx e !=? vx e) = true ->
   attitudeTracking P e2r b1 b3 s = ([], inl (runtime_error nan_error))) /\
  ((vx e !=? vx e) = false ->
   exists M_u s', attitudeTracking P e2r b1 b3 s = ([], inr (M_u, s'))).
Proof.
  intros V e. subst e. unfold angularVelocityError, desiredRotation.
  unfold attitudeTracking. rewrite bind_get.
  assert (C : (current_control_mode_ s =? POSITION_CONTROL)%Z = true \/
              ((current_control_mode_ s =? POSITION_CONTROL)%Z = false /\
               (current_control_mode_ s =? ATTITUDE_CONTROL)%Z = true)).
  { destruct V as [V|V]; rewrite V; [left|right; split]; reflexivity. }
  destruct C as [E1|[E1 E2]]; rewrite E1, ?E2;
    rewrite bind_modify, bind_get; cbv zeta; split; intros C.
  - match goal with
    | |- context [bind (if ?c then _ else _)] =>
        replace c with true by (symmetry; exact C)
    end.
    reflexivity.
  - match goal with
    | |- context [bind (if ?c then _ else _)] =>
        replace c with false by (symmetry; exact C)
    end.
    eexists. eexists. reflexivity.
  - match goal with
    | |- context [bind (if ?c then _ else _)] =>
        replace c with true by (symmetry; exact C)
    end.
    reflexivity.
  - match goal with
    | |- context [bind (if ?c then _ else _)] =>
        replace c with false by (symmetry; exact C)
    end.
    eexists. eexists. reflexivity.
Qed.

End NanCheck.

Lemma finite_not_nan (x : float) :
  PrimFloat.is_finite x = true -> PrimFloat.is_nan x = false.
Proof.
  unfold PrimFloat.is_finite. destruct (PrimFloat.is_nan x); [|reflexivity].
  discriminate.
Qed.

(** C4, as the code has it.  In a valid mode, attitude tracking aborts
    with "Angular velocity error is NAN" when the x component of
    [e_omega] is NaN, and raises no error when no component of [e_omega]
    is NaN, in particular when [e_omega] is finite in every component. *)
Theorem nan_check_on_first_component (P : MmuavParameters float)
    (e2r : float -> float -> float -> Matrix3 float)
    (b1 b3 : Vector3 float) (s : State float) :
  current_control_mode_ s = POSITION_CONTROL \/
  current_control_mode_ s = ATTITUDE_CONTROL ->
  let e := angularVelocityError e2r b1 b3 s in
  (PrimFloat.is_nan (vx e) = true ->
   attitudeTracking P e2r b1 b3 s = ([], inl (runtime_error nan_error))) /\
  (PrimFloat.is_nan (vx e) = false -> PrimFloat.is_nan (vy e) = false ->
   PrimFloat.is_nan (vz e) = false ->
   exists M_u s', attitudeTracking P e2r b1 b3 s = ([], inr (M_u, s'))) /\
  (finite3 e = true ->
   exists M_u s', attitudeTracking P e2r b1 b3 s = ([], inr (M_u, s'))).
Proof.
  intros V e. destruct (attitudeTracking_check P e2r b1 b3 s V) as [A B].
  fold e in A, B. split; [exact A|]. split.
  - intros Nx _ _. apply B. exact Nx.
  - intros F. apply B. unfold finite3 in F.
    apply andb_true_iff in F. destruct F as [F _].
    apply andb_true_iff in F. destruct F as [F _].
    apply finite_not_nan. exact F.
Qed.

(** ** The claims that fail as stated, at concrete inputs *)

(** C2 as stated.  With the movable masses active and all four offsets
    zero, and with the manipulator active and both grippers at the
    origin, the adjusted inertia of the sample vehicle is not its body
    inertia: the own inertia of the added hardware is in it. *)
Lemma adjusted_inertia_not_base :
  let P := @sample_params R _ in
  let s := @sample_state R _ true false in
  let s' := @sample_state R _ false true in
  (enable_mass_control_ s = true /\
   mass0_mv_ s = 0%R /\ mass1_mv_ s = 0%R /\
   mass2_mv_ s = 0%R /\ mass3_mv_ s = 0%R /\
   calculateAdjustedInertia P s <> inertia_ s) /\
  (enable_mass_control_ s' = false /\
   enable_manipulator_control_ s' = true /\
   gripperLeft_mv_ s' = mkV3 0%R 0%R 0%R /\
   gripperRight_mv_ s' = mkV3 0%R 0%R 0%R /\
   calculateAdjustedInertia P s' <> inertia_ s').
Proof.
  intros P s s'. split.
  - do 5 (split; [reflexivity|]).
    intros E. apply (f_equal (@m00 R)) in E. eval_model_in E. lra.
  - do 4 (split; [reflexivity|]).
    intros E. apply (f_equal (@m00 R)) in E. eval_model_in E. lra.
Qed.


(** C4 as stated.  In binary64, with an infinite roll rate from the gyro,
    [e_omega] is not finite and attitude tracking returns without an
    error. *)
Lemma nonfinite_error_undetected :
  let e2r := @sample_euler2RotationMatrix float _ in
  current_control_mode_ infinite_rate_state = POSITION_CONTROL /\
  finite3 (angularVelocityError e2r heading_x thrust_up infinite_rate_state)
    = false /\
  exists M_u s',
    attitudeTracking sample_params e2r heading_x thrust_up
      infinite_rate_state = ([], inr (M_u, s')).
Proof.
  intros e2r. split; [reflexivity|]. split; [vm_compute; reflexivity|].
  eexists. eexists. vm_compute. reflexivity.
Qed.

(** The same with NaN on the pitch axis only: the check reads the x
    component. *)
Lemma nan_on_pitch_axis_passes :
  let e2r := @sample_euler2RotationMatrix float _ in
  PrimFloat.is_nan
    (vy (angularVelocityError e2r heading_x thrust_up nan_pitch_rate_state))
    = true /\
  exists M_u s',
    attitudeTracking sample_params e2r heading_x thrust_up
      nan_pitch_rate_state = ([], inr (M_u, s')).
Proof.
  intros e2r. split; [vm_compute; reflexivity|].
  eexists. eexists. vm_compute. reflexivity.
Qed.

Lemma sqrt_400 : R_sqrt.sqrt 400 = 20%R.
Proof.
  replace 400%R with (20 * 20)%R by lra. apply sqrt_square. lra.
Qed.

(** C5 as stated.  On the sample vehicle (motor constant 1/4, limit 10)
    a thrust of 400 gives four commands of 10, not
    [sqrt (400 / (4 * 1/4)) = 20]: the commands are saturated. *)
Lemma hover_allocation_saturates :
  let P := @sample_params R _ in
  let F := 400%R in
  (0 < F)%R /\ even_thrust_column sample_transform /\
  calculateRotorVelocities P (mkV4 F 0 0 0)%R sample_transform
    = (mkV4 10 10 10 10)%R /\
  w0 (calculateRotorVelocities P (mkV4 F 0 0 0)%R sample_transform)
    <> R_sqrt.sqrt (F / (4 * MOTOR_CONSTANT P)).
Proof.
  intros P F.
  assert (HF : (0 < F)%R) by (unfold F; lra).
  assert (HE : even_thrust_column (@sample_transform R _)).
  { repeat split. }
  assert (Hk : (0 < MOTOR_CONSTANT P)%R) by (eval_model; lra).
  assert (HM : (0 < MAX_ROTOR_VELOCITY P)%R) by (eval_model; lra).
  assert (S : R_sqrt.sqrt (F / (4 * MOTOR_CONSTANT P)) = 20%R).
  { replace (F / (4 * MOTOR_CONSTANT P))%R with 400%R.
    - apply sqrt_400.
    - unfold F. eval_model. lra. }
  assert (W : calculateRotorVelocities P (mkV4 F 0 0 0)%R sample_transform
              = (mkV4 10 10 10 10)%R).
  { rewrite calculateRotorVelocities_law, (even_thrust_product F HE).
    destruct (rotor_law_thrust P HF Hk HM) as [L _].
    unfold map4; cbn [w0 w1 w2 w3]. rewrite L, S.
    replace (MAX_ROTOR_VELOCITY P) with 10%R by reflexivity.
    unfold Rmin. destruct (Rle_dec 20 10); [lra|reflexivity]. }
  split; [exact HF|]. split; [exact HE|]. split; [exact W|].
  rewrite W, S. cbn [w0]. lra.
Qed.



(** ** The theorems at concrete inputs *)

(** Mode 99 and the declared Velocity mode, on the sample vehicle. *)
Lemma invalid_mode_is_fatal_witness :
  let e2r := @sample_euler2RotationMatrix float _ in
  let s := ctl_mode_cb 99 (sample_state false false) in
  let s' := ctl_mode_cb VELOCITY_CONTROL (sample_state false false) in
  (current_control_mode_ s <> POSITION_CONTROL /\
   current_control_mode_ s <> ATTITUDE_CONTROL /\
   controlCycle sample_params e2r sample_tick sample_loop s =
     ([ROS_ERROR invalid_mode], inl (runtime_error invalid_mode))) /\
  (current_control_mode_ s' <> POSITION_CONTROL /\
   current_control_mode_ s' <> ATTITUDE_CONTROL /\
   rotor_commands
     (fst (controlCycle sample_params e2r sample_tick sample_loop s')) = []).
Proof.
  intros e2r s s'.
  assert (H1 : current_control_mode_ s <> POSITION_CONTROL)
    by (vm_compute; discriminate).
  assert (H2 : current_control_mode_ s <> ATTITUDE_CONTROL)
    by (vm_compute; discriminate).
  assert (H1' : current_control_mode_ s' <> POSITION_CONTROL)
    by (vm_compute; discriminate).
  assert (H2' : current_control_mode_ s' <> ATTITUDE_CONTROL)
    by (vm_compute; discriminate).
  split.
  - split; [exact H1|]. split; [exact H2|].
    apply (invalid_mode_is_fatal sample_params e2r sample_tick sample_loop
             s H1 H2).
    vm_compute. reflexivity.
  - split; [exact H1'|]. split; [exact H2'|].
    apply (invalid_mode_is_fatal sample_params e2r sample_tick sample_loop
             s' H1' H2').
Defined.

(** Attitude mode: the estimator returns the object as it is, and an
    iteration keeps the stored rotation and derivative. *)
Lemma estimator_gated_witness :
  let e2r := @sample_euler2RotationMatrix float _ in
  let s := ctl_mode_cb ATTITUDE_CONTROL (sample_state false false) in
  current_control_mode_ s <> POSITION_CONTROL /\
  calculateDesiredAngularVelAndAcc (lit 1 10) s = s /\
  exists log lv' s',
    controlCycle sample_params e2r sample_tick sample_loop s
      = (log, inr (lv', s')) /\
    R_c_old_ s' = R_c_old_ s /\ R_c_dot_old_ s' = R_c_dot_old_ s.
Proof.
  intros e2r s.
  assert (H1 : current_control_mode_ s <> POSITION_CONTROL)
    by (vm_compute; discriminate).
  destruct (estimator_gated sample_params e2r (lit 1 10)
              sample_tick sample_loop s) as [A B].
  split; [exact H1|]. split; [apply A; right; exact H1|].
  eexists. eexists. eexists. split; [vm_compute; reflexivity|].
  eapply B; vm_compute; reflexivity.
Defined.

(** Three requests after the seeding call, on the constructed object. *)
Lemma gain_reconfiguration_witness :
  let s := @sample_state float _ false false in
  let first := (mkConfig 0 0 0 0 0 0 0 0)%float in
  let config := (mkConfig 8 40 3 20 2 10 1 2)%float in
  param_start_flag_ s = false /\
  gains (snd (param_cb first s)) = gains s /\
  gains (snd (param_cb config
                (reconfigure [config; first] (snd (param_cb first s)))))
    = config_gains config.
Proof.
  intros s first config.
  assert (E : param_start_flag_ s = false) by reflexivity.
  destruct (gain_reconfiguration s first [config; first] config E)
    as ((A & _) & _ & C).
  split; [exact E|]. split; [exact A|].
  apply C. apply constructed_gains_diagonal.
Defined.

(** Masses 0 and 2 moved, on the sample vehicle with movable masses. *)
Lemma movable_mass_center_witness :
  let P := @sample_params R _ in
  let s := mass2_cb P 1%R (mass0_cb P 0%R (sample_state true false)) in
  enable_mass_control_ s = true /\
  ro_cm_ (calculateCenterOfMass P s) =
    mkV3 ((MM_MASS P * mass0_mv_ s - MM_MASS P * mass2_mv_ s) / uav_mass_ s)%R
         ((MM_MASS P * mass1_mv_ s - MM_MASS P * mass3_mv_ s) / uav_mass_ s)%R
         0%R.
Proof.
  intros P s.
  assert (E : enable_mass_control_ s = true) by reflexivity.
  split; [exact E|]. apply (movable_mass_center P s E).
Defined.


(** The sample vehicle with movable masses, all offsets zero. *)
Lemma adjusted_inertia_neutral_witness :
  let P := @sample_params R _ in
  let s := @sample_state R _ true false in
  enable_mass_control_ s = true /\
  calculateAdjustedInertia P s =
    mkM3 (m00 (inertia_ s) + m00 (mass_inertia_ s))%R
         (m01 (inertia_ s)) (m02 (inertia_ s)) (m10 (inertia_ s))
         (m11 (inertia_ s) + m11 (mass_inertia_ s))%R
         (m12 (inertia_ s)) (m20 (inertia_ s)) (m21 (inertia_ s))
         (m22 (inertia_ s) + 4 * m22 (mass_inertia_ s))%R.
Proof.
  intros P s.
  assert (E : enable_mass_control_ s = true) by reflexivity.
  split; [exact E|].
  apply (adjusted_inertia_neutral P s); reflexivity.
Defined.

(** A NaN roll rate from the gyro is fatal. *)
Lemma nan_check_on_first_component_witness :
  let e2r := @sample_euler2RotationMatrix float _ in
  current_control_mode_ nan_roll_rate_state = POSITION_CONTROL /\
  attitudeTracking sample_params e2r heading_x thrust_up nan_roll_rate_state
    = ([], inl (runtime_error nan_error)).
Proof.
  intros e2r.
  assert (V : current_control_mode_ nan_roll_rate_state = POSITION_CONTROL)
    by reflexivity.
  split; [exact V|].
  apply (nan_check_on_first_component sample_params e2r heading_x thrust_up
           nan_roll_rate_state (or_introl V)).
  vm_compute. reflexivity.
Defined.

(** Thrust 4 on the sample vehicle: within the limit. *)
Lemma hover_allocation_witness :
  let P := @sample_params R _ in
  (0 < 4)%R /\ (0 < MOTOR_CONSTANT P)%R /\ (0 < MAX_ROTOR_VELOCITY P)%R /\
  even_thrust_column sample_transform /\
  (0 < Rmin (R_sqrt.sqrt (4 / (4 * MOTOR_CONSTANT P)))
            (MAX_ROTOR_VELOCITY P))%R.
Proof.
  intros P.
  assert (HF : (0 < 4)%R) by lra.
  assert (Hk : (0 < MOTOR_CONSTANT P)%R) by (eval_model; lra).
  assert (HM : (0 < MAX_ROTOR_VELOCITY P)%R) by (eval_model; lra).
  assert (HE : even_thrust_column (@sample_transform R _))
    by (repeat split).
  split; [exact HF|]. split; [exact Hk|]. split; [exact HM|].
  split; [exact HE|].
  apply (hover_allocation P HF Hk HM HE).
Defined.



(** * Further properties of the controller *)

(** ** Running and specifying computations *)

Section MoreMonadFacts.
Context {T : Type}.

Lemma bind_ret {A B} (a : A) (k : A -> Ctl T B) (s : State T) :
  bind (ret a) k s = k a s.
Proof. unfold bind, ret. destruct (k a s); reflexivity. Qed.

Lemma bind_throw {A B} (e : exn) (k : A -> Ctl T B) (s : State T) :
  bind (throw e) k s = ([], inl e).
Proof. reflexivity. Qed.

Lemma bind_emit {A} (e : Event T) (k : unit -> Ctl T A) (s : State T) :
  bind (emit e) k s = (e :: fst (k tt s), snd (k tt s)).
Proof. unfold bind, emit. destruct (k tt s); reflexivity. Qed.

Lemma bind_returns {A B} (m : Ctl T A) (k : A -> Ctl T B) (s : State T)
    l a s' :
  m s = (l, inr (a, s')) ->
  bind m k s = (l ++ fst (k a s'), snd (k a s')).
Proof. intros E. unfold bind. rewrite E. destruct (k a s'); reflexivity. Qed.

Lemma bind_throws {A B} (m : Ctl T A) (k : A -> Ctl T B) (s : State T) l e :
  m s = (l, inl e) -> bind m k s = (l, inl e).
Proof. intros E. unfold bind. rewrite E. reflexivity. Qed.

Lemma post_ret {A} (a : A) (s : State T) (Q : A -> State T -> Prop) :
  Q a s -> post (ret a) s Q.
Proof. intros q l b s' E. inversion E; subst. exact q. Qed.

Lemma post_throw {A} (e : exn) (s : State T) (Q : A -> State T -> Prop) :
  post (throw e) s Q.
Proof. intros l b s' E. inversion E. Qed.

Lemma post_modify (g : State T -> State T) (s : State T)
    (Q : unit -> State T -> Prop) :
  Q tt (g s) -> post (modify g) s Q.
Proof. intros q l b s' E. inversion E; subst. exact q. Qed.

Lemma post_bind {A B} (m : Ctl T A) (k : A -> Ctl T B) (s : State T)
    (Q1 : A -> State T -> Prop) (Q : B -> State T -> Prop) :
  post m s Q1 ->
  (forall a s1, Q1 a s1 -> post (k a) s1 Q) ->
  post (bind m k) s Q.
Proof.
  intros Hm Hk l b s''. unfold bind.
  destruct (m s) as [l1 [e|[a s1]]] eqn:E1; [discriminate|].
  destruct (k a s1) as [l2 r] eqn:E2. intros E; inversion E; subst.
  eapply Hk; [eapply Hm; exact E1 | exact E2].
Qed.

Lemma post_weaken {A} (m : Ctl T A) (s : State T)
    (Q Q' : A -> State T -> Prop) :
  post m s Q -> (forall a s', Q a s' -> Q' a s') -> post m s Q'.
Proof. intros Hm HQ l a s' E. apply HQ. eapply Hm. exact E. Qed.

Lemma post_and {A} (m : Ctl T A) (s : State T)
    (Q Q' : A -> State T -> Prop) :
  post m s Q -> post m s Q' -> post m s (fun a s' => Q a s' /\ Q' a s').
Proof. intros H1 H2 l a s' E. split; [eapply H1|eapply H2]; exact E. Qed.

Lemma preserves_post {A X} (f : State T -> X) (m : Ctl T A) (s : State T) :
  preserves f m -> post m s (fun _ s' => f s' = f s).
Proof. intros Hp l a s' E. eapply Hp. exact E. Qed.

End MoreMonadFacts.

(** ** Which inputs the trackers read *)

Section Inputs.
Context {T : Type} `{Scalar T}.
Variable P : MmuavParameters T.
Variable e2r : T -> T -> T -> Matrix3 T.

Lemma attitudeTracking_set_R_d (b1 b3 : Vector3 T) (R : Matrix3 T)
    (s : State T) :
  attitudeTracking P e2r b1 b3 (set_R_d_ R s) =
  attitudeTracking P e2r b1 b3 s.
Proof.
  unfold attitudeTracking. rewrite !bind_get.
  cbn [current_control_mode_ set_R_d_ euler_d_].
  destruct (current_control_mode_ s =? POSITION_CONTROL)%Z;
    [|destruct (current_control_mode_ s =? ATTITUDE_CONTROL)%Z];
    reflexivity.
Qed.

Lemma calculateCenterOfMass_set_R_d (R : Matrix3 T) (s : State T) :
  calculateCenterOfMass P (set_R_d_ R s) =
  set_R_d_ R (calculateCenterOfMass P s).
Proof.
  unfold calculateCenterOfMass. cbn [set_R_d_ enable_mass_control_
    enable_manipulator_control_].
  destruct (enable_mass_control_ s);
    [|destruct (enable_manipulator_control_ s)]; reflexivity.
Qed.

Lemma trajectoryTracking_set_R_d (pos_desired : Vector3 T) (R : Matrix3 T)
    (s : State T) :
  trajectoryTracking P pos_desired (set_R_d_ R s) =
  (fst (trajectoryTracking P pos_desired s),
   match snd (trajectoryTracking P pos_desired s) with
   | inl e => inl e
   | inr (r, s') => inr (r, set_R_d_ R s')
   end).
Proof.
  unfold trajectoryTracking. rewrite !bind_get.
  cbn [current_control_mode_ set_R_d_].
  destruct (current_control_mode_ s =? POSITION_CONTROL)%Z;
    [|destruct (current_control_mode_ s =? ATTITUDE_CONTROL)%Z];
    reflexivity.
Qed.

(** The rest of an iteration, from the centre of mass on, does not see a
    stored [R_d_]: attitude tracking overwrites it before it is read. *)
Lemma cycle_tail_set_R_d (tk : Tick T) (lv : LoopVars T) (c : T)
    (R : Matrix3 T) (s : State T) :
  (modify (calculateCenterOfMass P) ;;
   s <- get ;;
   let b1_des :=
     vadd (b1_old lv) (vscale (lit 5 100) (vsub (b1_d_ s) (b1_old lv))) in
   ' (b3_d, f_u) <- trajectoryTracking P (x_d_ s) ;;
   M_u <- attitudeTracking P e2r b1_des b3_d ;;
   publishControlInputs P f_u M_u ;;
   publishStatusMessage (time_stamp tk) f_u M_u ;;
   ret (mkLoop (time_updated tk) b1_des c)) (set_R_d_ R s) =
  (modify (calculateCenterOfMass P) ;;
   s <- get ;;
   let b1_des :=
     vadd (b1_old lv) (vscale (lit 5 100) (vsub (b1_d_ s) (b1_old lv))) in
   ' (b3_d, f_u) <- trajectoryTracking P (x_d_ s) ;;
   M_u <- attitudeTracking P e2r b1_des b3_d ;;
   publishControlInputs P f_u M_u ;;
   publishStatusMessage (time_stamp tk) f_u M_u ;;
   ret (mkLoop (time_updated tk) b1_des c)) s.
Proof.
  rewrite !bind_modify, calculateCenterOfMass_set_R_d, !bind_get.
  cbv zeta. cbn [b1_d_ x_d_ set_R_d_].
  set (s1 := calculateCenterOfMass P s).
  unfold bind at 1. unfold bind at 4.
  rewrite trajectoryTracking_set_R_d.
  destruct (trajectoryTracking P (x_d_ s1) s1) as [l [e|[[b3_d f_u] s2]]];
    cbn [fst snd]; [reflexivity|].
  unfold bind at 1. unfold bind at 4.
  rewrite attitudeTracking_set_R_d. reflexivity.
Qed.

Lemma bind_modify2 {A B} (f g : State T -> State T) (a : A)
    (k : A -> Ctl T B) (s : State T) :
  bind (modify f ;; modify g ;; ret a) k s = k a (g (f s)).
Proof. unfold bind, modify, ret. destruct (k a (g (f s))); reflexivity. Qed.

(** X1.  [rd_cb] stores the nine numbers of an [R_desired] message by
    rows, ignoring any further ones.  An iteration that does its work
    without running the desired-rate estimator (the mode is not Position,
    or the sub-rate timer has not reached its interval) then goes exactly
    as if the message had not come: attitude tracking overwrites [R_d_],
    or the iteration throws, before anything reads it.  The estimator,
    which runs before attitude tracking, is the one reader of a received
    rotation. *)
Theorem received_rotation_overwritten (tk : Tick T) (lv : LoopVars T)
    (R : Matrix3 T) (rest : list T) (s : State T) :
  cycle_due tk lv s = true ->
  current_control_mode_ s <> POSITION_CONTROL \/ subrate_due tk lv = false ->
  exists s1,
    rd_cb (row_major R ++ rest) s = Some s1 /\ R_d_ s1 = R /\
    controlCycle P e2r tk lv s1 = controlCycle P e2r tk lv s.
Proof.
  intros D G. exists (set_R_d_ R s).
  split; [destruct R; reflexivity|]. split; [reflexivity|].
  unfold cycle_due in D. apply negb_true_iff in D.
  unfold controlCycle. rewrite !bind_get.
  cbn [controller_rate_ set_R_d_]. rewrite D. cbv zeta.
  unfold subrate_due in G.
  destruct (desiredCounter lv + (current_time tk - t_old lv)
            >=? one / of_Z DISCRETIZATION_RATE)%S eqn:S.
  - destruct G as [G|G]; [|discriminate G].
    rewrite !bind_modify2.
    rewrite !estimator_returns_early by (right; exact G).
    apply (cycle_tail_set_R_d tk lv zero R (set_calc_desired_flag_ true s)).
  - rewrite !bind_ret. apply cycle_tail_set_R_d.
Qed.

(** X2.  In Attitude mode attitude tracking does not read the heading and
    the thrust direction it is given: the desired rotation comes from the
    desired Euler angles alone. *)
Theorem attitude_mode_ignores_heading (b1 b3 b1' b3' : Vector3 T)
    (s : State T) :
  current_control_mode_ s = ATTITUDE_CONTROL ->
  attitudeTracking P e2r b1 b3 s = attitudeTracking P e2r b1' b3' s.
Proof.
  intros E. unfold attitudeTracking. rewrite !bind_get, E. reflexivity.
Qed.

(** X3.  In Attitude mode trajectory tracking reads the z components of
    the measured position, the position reference, the measured velocity
    and the desired velocity only: two runs that differ in the horizontal
    components of any of the four send and return the same. *)
Theorem attitude_mode_ignores_horizontal
    (pd pd' p p' vm vm' v v' : Vector3 T) (s : State T) :
  current_control_mode_ s = ATTITUDE_CONTROL ->
  vz pd = vz pd' -> vz p = vz p' -> vz vm = vz vm' -> vz v = vz v' ->
  outcome (trajectoryTracking P pd
             (set_v_mv_ vm (vd_cb v (pose_cb p s)))) =
  outcome (trajectoryTracking P pd'
             (set_v_mv_ vm' (vd_cb v' (pose_cb p' s)))).
Proof.
  intros E Hd Hp Hm Hv. unfold trajectoryTracking. rewrite !bind_get.
  cbn [current_control_mode_ set_v_mv_ vd_cb pose_cb set_v_d_ set_x_mv_
       x_mv_ v_mv_ v_d_].
  rewrite E. cbn [Z.eqb Pos.eqb POSITION_CONTROL ATTITUDE_CONTROL].
  rewrite !bind_ret. rewrite Hd, Hp, Hm, Hv. reflexivity.
Qed.

End Inputs.

(** ** Geometry and allocation, over the reals *)

Section IdealGeometry.
Variable P : MmuavParameters R.
Local Open Scope R_scope.

Lemma norm_nonneg (v : Vector3 R) : 0 <= norm v.
Proof. unfold norm. to_R. apply sqrt_pos. Qed.

Lemma dot_self_pos (v : Vector3 R) : v <> mkV3 0 0 0 -> 0 < dot v v.
Proof.
  destruct v as [x y z]. intros N. unfold dot; cbn [vx vy vz]. to_R.
  destruct (Req_dec x 0) as [->|Hx]; [|nra].
  destruct (Req_dec y 0) as [->|Hy]; [|nra].
  destruct (Req_dec z 0) as [->|Hz]; [|nra].
  now contradiction N.
Qed.

Lemma norm_pos (v : Vector3 R) : v <> mkV3 0 0 0 -> 0 < norm v.
Proof.
  intros N. unfold norm. to_R. apply sqrt_lt_R0. now apply dot_self_pos.
Qed.

Lemma norm_sqr (v : Vector3 R) : norm v * norm v = dot v v.
Proof.
  unfold norm. to_R. apply sqrt_sqrt.
  destruct v as [x y z]. unfold dot; cbn [vx vy vz]. to_R. nra.
Qed.

(** Dividing a vector other than zero by its norm gives a unit vector. *)
Lemma normalized_unit (v : Vector3 R) :
  v <> mkV3 0 0 0 -> norm (vdiv v (norm v)) = 1.
Proof.
  intros N. pose proof (norm_pos N) as Hn. pose proof (norm_sqr v) as Hs.
  unfold norm at 1. to_R.
  replace (dot (vdiv v (norm v)) (vdiv v (norm v))) with 1;
    [apply sqrt_1|].
  destruct v as [x y z]. unfold dot, vdiv, vmap in *; cbn [vx vy vz] in *.
  to_R. set (n := norm _) in *.
  replace (x / n * (x / n) + y / n * (y / n) + z / n * (z / n))
    with ((x * x + y * y + z * z) / (n * n)) by (field; lra).
  rewrite <- Hs. field. nra.
Qed.

Lemma norm_scale (k : R) (v : Vector3 R) :
  0 <= k -> norm (vscale k v) = k * norm v.
Proof.
  intros Hk. unfold norm. to_R.
  replace (dot (vscale k v) (vscale k v)) with (k * k * dot v v).
  - rewrite sqrt_mult_alt by nra. rewrite sqrt_square by lra. reflexivity.
  - destruct v as [x y z]. unfold dot, vscale, vmap; cbn [vx vy vz]. to_R.
    ring.
Qed.

(** X4.  After [b1d_cb] with a vector other than zero the desired heading
    has unit length, and only the direction of the vector counts: a
    positive multiple of it gives the same heading. *)
Theorem heading_is_normalized (msg : Vector3 R) (k : R) (s : State R) :
  msg <> mkV3 0 0 0 -> 0 < k ->
  norm (b1_d_ (b1d_cb msg s)) = 1 /\
  b1d_cb (vscale k msg) s = b1d_cb msg s.
Proof.
  intros N Hk. split.
  - cbn [b1d_cb b1_d_ set_b1_d_]. now apply normalized_unit.
  - unfold b1d_cb. f_equal. rewrite norm_scale by lra.
    pose proof (norm_pos N) as Hn.
    destruct msg as [x y z]. unfold vdiv, vscale, vmap; cbn [vx vy vz].
    to_R. set (n := norm _) in *. f_equal; field; lra.
Qed.

(** X5.  [hatOperator] gives the matrix of the cross product, and that
    matrix is skew-symmetric. *)
Theorem hat_is_cross_product (x y z : R) (w : Vector3 R) :
  mulv (hatOperator x y z) w = cross (mkV3 x y z) w /\
  adjoint (hatOperator x y z) = mneg (hatOperator x y z).
Proof.
  split.
  - destruct w as [a b c].
    cbv [mulv hatOperator cross dot mrow0 mrow1 mrow2 m00 m01 m02 m10 m11
         m12 m20 m21 m22 vx vy vz].
    to_R. f_equal; ring.
  - cbv [adjoint mneg mmap of_rows vmap hatOperator mcol0 mcol1 mcol2
         mrow0 mrow1 mrow2 m00 m01 m02 m10 m11 m12 m20 m21 m22 vx vy vz].
    to_R. f_equal; ring.
Qed.

Lemma cos2_sin2 (a : R) : cos a * cos a + sin a * sin a = 1.
Proof. pose proof (sin2_cos2 a) as E. unfold Rsqr in E. lra. Qed.

(** X6.  [vel_cb] turns the horizontal velocity by the measured yaw: its
    length is that of the horizontal twist, and the vertical velocity is
    stored as it comes. *)
Theorem vel_cb_keeps_speed (linear : Vector3 R) (s : State R) :
  let v := v_mv_ (vel_cb cos sin linear s) in
  vx v * vx v + vy v * vy v = vx linear * vx linear + vy linear * vy linear
  /\ vz v = vz linear /\ norm v = norm linear.
Proof.
  intros v. subst v. cbn [vel_cb v_mv_ set_v_mv_ vx vy vz].
  pose proof (cos2_sin2 (vz (euler_mv_ s))) as E.
  set (c := cos _) in *. set (sn := sin _) in *. to_R.
  assert (Hxy : (c * vx linear - sn * vy linear) * (c * vx linear - sn * vy linear) +
     (sn * vx linear + c * vy linear) * (sn * vx linear + c * vy linear) =
     vx linear * vx linear + vy linear * vy linear) by nra.
  split; [exact Hxy|]. split; [reflexivity|].
  unfold norm, dot; cbn [vx vy vz]. to_R. f_equal. lra.
Qed.

End IdealGeometry.

(** ** The rotor law *)

Section IdealRotors.
Variable P : MmuavParameters R.
Local Open Scope R_scope.

Lemma sign_opp (x : R) : sign (- x) = - sign x.
Proof.
  destruct (sign_cases x) as [[Hx ->]|[[Hx ->]|[Hx ->]]];
  destruct (sign_cases (- x)) as [[Hy ->]|[[Hy ->]|[Hy ->]]]; lra.
Qed.

Lemma rotor_law_odd (x : R) : rotor_law P (- x) = - rotor_law P x.
Proof.
  unfold rotor_law.
  change (sign (- x) *
          saturation (R_sqrt.sqrt (Rabs (- x) / MOTOR_CONSTANT P))
            (- MAX_ROTOR_VELOCITY P) (MAX_ROTOR_VELOCITY P) =
          - (sign x *
             saturation (R_sqrt.sqrt (Rabs x / MOTOR_CONSTANT P))
               (- MAX_ROTOR_VELOCITY P) (MAX_ROTOR_VELOCITY P))).
  rewrite sign_opp, Rabs_Ropp. ring.
Qed.

Lemma mulv4_opp (M : Matrix4 R) (v : Vector4 R) :
  mulv4 M (map4 Ropp v) = map4 Ropp (mulv4 M v).
Proof.
  destruct v as [a b c d].
  cbv [mulv4 map4 dot4 w0 w1 w2 w3]. to_R. f_equal; ring.
Qed.

(** X7.  Rotor allocation is odd: the opposite thrust-moment vector gets
    the opposite rotor commands, and the zero vector gets zero
    commands, under any transform. *)
Theorem rotor_allocation_is_odd (v : Vector4 R) (M : Matrix4 R) :
  calculateRotorVelocities P (map4 Ropp v) M =
    map4 Ropp (calculateRotorVelocities P v M) /\
  calculateRotorVelocities P (mkV4 0 0 0 0) M = mkV4 0 0 0 0.
Proof.
  split.
  - rewrite !calculateRotorVelocities_law, mulv4_opp.
    unfold map4; cbn [w0 w1 w2 w3]. rewrite !rotor_law_odd. reflexivity.
  - rewrite calculateRotorVelocities_law.
    assert (Z : mulv4 M (mkV4 0 0 0 0) = mkV4 0 0 0 0).
    { cbv [mulv4 dot4 w0 w1 w2 w3]. to_R. f_equal; ring. }
    rewrite Z. unfold map4; cbn [w0 w1 w2 w3].
    assert (L : rotor_law P 0 = 0).
    { pose proof (rotor_law_odd 0) as E. rewrite Ropp_0 in E. lra. }
    rewrite L. reflexivity.
Qed.

Lemma rotor_law_force (x : R) :
  0 < MOTOR_CONSTANT P -> 0 <= MAX_ROTOR_VELOCITY P ->
  Rabs x <= MOTOR_CONSTANT P * (MAX_ROTOR_VELOCITY P * MAX_ROTOR_VELOCITY P) ->
  MOTOR_CONSTANT P * (rotor_law P x * Rabs (rotor_law P x)) = x.
Proof.
  intros Hk HM Hx. unfold rotor_law.
  set (k := MOTOR_CONSTANT P) in *. set (wm := MAX_ROTOR_VELOCITY P) in *.
  assert (Hq : 0 <= Rabs x / k).
  { apply Rmult_le_pos; [apply Rabs_pos|]. left. now apply Rinv_0_lt_compat. }
  assert (Hle : Rabs x / k <= wm * wm).
  { apply Rmult_le_reg_r with k; [lra|]. unfold Rdiv.
    rewrite Rmult_assoc, Rinv_l by lra. lra. }
  assert (Hs : R_sqrt.sqrt (Rabs x / k) <= wm).
  { rewrite <- (sqrt_square wm) by lra. now apply sqrt_le_1_alt. }
  pose proof (sqrt_pos (Rabs x / k)) as Hp.
  pose proof (sqrt_sqrt _ Hq) as Hsq.
  match goal with
  | |- context [saturation ?a ?b ?c] =>
      assert (S : saturation a b c = R_sqrt.sqrt (Rabs x / k))
  end.
  { change (saturation (R_sqrt.sqrt (Rabs x / k)) (- wm) wm
            = R_sqrt.sqrt (Rabs x / k)).
    rewrite saturation_nonneg by lra. apply Rmin_left. lra. }
  rewrite S. set (r := R_sqrt.sqrt (Rabs x / k)) in *.
  assert (Hkr : k * (r * r) = Rabs x).
  { rewrite Hsq. field. lra. }
  destruct (sign_cases x) as [[H0 ->]|[[H0 ->]|[H0 ->]]]; to_R.
  - rewrite Rmult_1_l, (Rabs_right r) by lra.
    rewrite Rabs_right in Hkr by lra. lra.
  - rewrite !Rmult_0_l, Rmult_0_r. lra.
  - replace (-1 * r) with (- r) by ring. rewrite Rabs_Ropp.
    rewrite (Rabs_right r) by lra. rewrite Rabs_left in Hkr by lra. nra.
Qed.

(** X8.  Below the speed limit the rotor commands give back the forces
    asked for, with their signs ([f_i = MOTOR_CONSTANT * w_i * |w_i|]):
    the allocation inverts the actuator law wherever no command is
    saturated. *)
Theorem rotor_commands_reproduce_forces (thrust_moment_vec : Vector4 R)
    (transform_matrix : Matrix4 R) :
  0 < MOTOR_CONSTANT P -> 0 <= MAX_ROTOR_VELOCITY P ->
  Forall4 (fun f => Rabs f <=
             MOTOR_CONSTANT P *
             (MAX_ROTOR_VELOCITY P * MAX_ROTOR_VELOCITY P))
          (mulv4 transform_matrix thrust_moment_vec) ->
  map4 (fun w => MOTOR_CONSTANT P * (w * Rabs w))
       (calculateRotorVelocities P thrust_moment_vec transform_matrix)
  = mulv4 transform_matrix thrust_moment_vec.
Proof.
  intros Hk HM (F0 & F1 & F2 & F3).
  rewrite calculateRotorVelocities_law.
  destruct (mulv4 transform_matrix thrust_moment_vec) as [a b c d].
  cbn [w0 w1 w2 w3] in *. unfold map4; cbn [w0 w1 w2 w3].
  rewrite !rotor_law_force by assumption. reflexivity.
Qed.

End IdealRotors.

(** ** Equilibria of the trackers, over the reals *)

Section IdealTracking.
Variable P : MmuavParameters R.
Variable e2r : R -> R -> R -> Matrix3 R.
Local Open Scope R_scope.

Lemma mulv_zero (M : Matrix3 R) : mulv M (mkV3 0 0 0) = mkV3 0 0 0.
Proof.
  cbv [mulv dot mrow0 mrow1 mrow2 vx vy vz]. to_R. f_equal; ring.
Qed.

Lemma vsub_self (v : Vector3 R) : vsub v v = mkV3 0 0 0.
Proof. cbv [vsub vzip vx vy vz]. to_R. f_equal; ring. Qed.

Lemma norm_vertical (a : R) : 0 <= a -> norm (mkV3 0 0 a) = a.
Proof.
  intros Ha. unfold norm, dot; cbn [vx vy vz]. to_R.
  replace (0 * 0 + 0 * 0 + a * a) with (a * a) by ring.
  now apply sqrt_square.
Qed.

(** X9.  With no tracking error and no acceleration asked for, on the
    bare vehicle in Position mode, the desired thrust direction is the
    vertical and the thrust is the weight [m g] times the vertical
    component of the body z axis: level, the vehicle is asked to carry
    exactly its weight, whatever the gains. *)
Theorem hover_thrust_is_weight (s : State R) :
  current_control_mode_ s = POSITION_CONTROL ->
  enable_mass_control_ s = false ->
  enable_manipulator_control_ s = false ->
  v_mv_ s = v_d_ s -> a_d_ s = mkV3 0 0 0 ->
  0 < uav_mass_ s * G P ->
  outcome (trajectoryTracking P (x_mv_ s) s) =
    ([], inr (mkV3 0 0 1, uav_mass_ s * G P * m22 (R_mv_ s))).
Proof.
  intros Em E1 E2 Ev Ea Hw. unfold trajectoryTracking.
  rewrite bind_get, Em. cbn [Z.eqb POSITION_CONTROL Pos.eqb].
  rewrite bind_ret, E1, E2. cbn [orb]. cbv zeta.
  rewrite bind_modify, Ev, Ea, !vsub_self.
  unfold ret, outcome. cbn [fst snd].
  match goal with
  | |- context [norm ?A] =>
      assert (HA : A = mkV3 0 0 (uav_mass_ s * G P))
  end.
  { rewrite !mulv_zero. cbv [vadd vsub vzip vscale vmap E3 vx vy vz].
    to_R. f_equal; ring. }
  rewrite HA, norm_vertical by lra.
  f_equal. f_equal. f_equal.
  - set (w := uav_mass_ s * G P) in *.
    cbv [vdiv vmap vx vy vz]. to_R. f_equal; field; lra.
  - cbv [dot mulv mrow0 mrow1 mrow2 E3 vx vy vz]. to_R. ring.
Qed.


Lemma vadd_zero_r (v : Vector3 R) : vadd v (mkV3 0 0 0) = v.
Proof.
  destruct v as [x y z]. cbv [vadd vzip vx vy vz]. to_R. f_equal; ring.
Qed.


Lemma eqb_refl_R (x : R) : (x !=? x)%S = false.
Proof.
  apply negb_false_iff. cbn [eqb Scalar_R]. unfold Reqb.
  destruct (Req_dec_T x x); [reflexivity|contradiction].
Qed.

Lemma saturation_inside (x lo hi : R) :
  lo <= x <= hi -> saturation x lo hi = x.
Proof.
  intros [L U]. unfold saturation. to_R. unfold Rltb.
  destruct (Rlt_dec hi x); [lra|]. destruct (Rlt_dec x lo); [lra|].
  reflexivity.
Qed.

Lemma attitude_error_of_equal (M : Matrix3 R) :
  veeOperator (mdivs (msub (mmul (adjoint M) M) (mmul (adjoint M) M))
                     (of_Z 2))
  = mkV3 0 0 0.
Proof.
  set (X := mmul (adjoint M) M).
  destruct X as [x00 x01 x02 x10 x11 x12 x20 x21 x22].
  cbv [veeOperator mdivs msub mmap mzip of_rows vmap vzip mrow0 mrow1 mrow2
       m00 m01 m02 m10 m11 m12 m20 m21 m22 vx vy vz].
  to_R. f_equal; field.
Qed.

Lemma cross_zero_l (v : Vector3 R) : cross (mkV3 0 0 0) v = mkV3 0 0 0.
Proof. cbv [cross vx vy vz]. to_R. f_equal; ring. Qed.

Lemma cross_zero_r (v : Vector3 R) : cross v (mkV3 0 0 0) = mkV3 0 0 0.
Proof. cbv [cross vx vy vz]. to_R. f_equal; ring. Qed.

Lemma vscale_zero (k : R) : vscale k (mkV3 0 0 0) = mkV3 0 0 0.
Proof. cbv [vscale vmap vx vy vz]. to_R. f_equal; ring. Qed.

Lemma vadd_zero_zero : vadd (mkV3 0 0 0) (mkV3 0 0 0) = mkV3 0 0 0 :> Vector3 R.
Proof. apply vadd_zero_r. Qed.

(** X11.  When the measured rotation is the desired one and the vehicle
    neither turns nor is asked to turn or accelerate, attitude tracking
    raises no error and asks for no moment, in Position and in Attitude
    mode, with or without an actuation variant. *)
Theorem no_moment_at_rest (b1 b3 : Vector3 R) (s : State R) :
  current_control_mode_ s = POSITION_CONTROL \/
  current_control_mode_ s = ATTITUDE_CONTROL ->
  R_mv_ s = desiredRotation e2r b1 b3 s ->
  omega_mv_ s = mkV3 0 0 0 -> omega_d_ s = mkV3 0 0 0 ->
  alpha_d_ s = mkV3 0 0 0 -> a_d_ s = mkV3 0 0 0 ->
  outcome (attitudeTracking P e2r b1 b3 s) = ([], inr (mkV3 0 0 0)).
Proof.
  intros V HR Hw Hwd Had Ha. unfold desiredRotation in HR.
  unfold attitudeTracking. rewrite bind_get.
  assert (C : (current_control_mode_ s =? POSITION_CONTROL)%Z = true \/
              ((current_control_mode_ s =? POSITION_CONTROL)%Z = false /\
               (current_control_mode_ s =? ATTITUDE_CONTROL)%Z = true)).
  { destruct V as [V|V]; rewrite V; [left|right; split]; reflexivity. }
  destruct C as [E1|[E1 E2]]; rewrite E1, ?E2 in *;
    rewrite bind_modify, bind_get; cbv zeta;
    cbn [R_d_ R_mv_ omega_mv_ omega_d_ alpha_d_ a_d_ k_R_ k_omega_ ro_cm_
         uav_mass_ enable_mass_control_ enable_manipulator_control_
         set_R_d_ set_status_msg_ status_msg_];
    cbv zeta in HR; rewrite <- HR, Hw, Hwd, Had, Ha;
    rewrite attitude_error_of_equal, !mulv_zero, !vsub_self, eqb_refl_R,
            bind_ret, bind_modify;
    rewrite ?cross_zero_l, ?cross_zero_r, ?mulv_zero, ?vscale_zero;
    change (@vzero R _) with (mkV3 0 0 0);
    rewrite ?vsub_self, ?mulv_zero;
    (destruct (enable_manipulator_control_ s || enable_mass_control_ s));
    unfold outcome, ret; cbn [fst snd]; do 2 f_equal;
    cbv [vadd vsub vzip vx vy vz];
    f_equal; (rewrite saturation_inside; to_R; lra).
Qed.

End IdealTracking.

(** ** Saturated outputs *)

Section Saturated.
Context {T : Type} `{Scalar T}.
Variable P : MmuavParameters T.
Variable e2r : T -> T -> T -> Matrix3 T.
Local Open Scope scalar_scope.

Lemma post_true {A} (m : Ctl T A) (s : State T) :
  post m s (fun _ _ => True).
Proof. intros l a s' _. exact I. Qed.

(** The moment that attitude tracking returns is made of three saturated
    numbers. *)
Lemma attitudeTracking_saturates (b1 b3 : Vector3 T) (s : State T) :
  post (attitudeTracking P e2r b1 b3) s
    (fun M_u _ =>
       exists a b c,
         M_u = mkV3 (saturation a (of_Z (-5)) (of_Z 5))
                    (saturation b (of_Z (-5)) (of_Z 5))
                    (saturation c (- lit 25 10) (lit 25 10))).
Proof.
  unfold attitudeTracking.
  eapply post_bind; [apply post_true | intros s0 s1 _].
  eapply post_bind; [apply post_true | intros u s2 _].
  eapply post_bind; [apply post_true | intros s3 s4 _]. cbv zeta.
  eapply post_bind; [apply post_true | intros u' s5 _].
  eapply post_bind; [apply post_true | intros u'' s6 _].
  apply post_ret. eexists. eexists. eexists. reflexivity.
Qed.

(** X12.  Running the desired-rate estimator a second time, without the
    loop raising its flag in between, changes nothing: a tick lowers the
    flag, and the estimator does nothing while the flag is down. *)
Theorem estimator_runs_once_per_flag (t_d t_d' : T) (s : State T) :
  calculateDesiredAngularVelAndAcc t_d'
    (calculateDesiredAngularVelAndAcc t_d s)
  = calculateDesiredAngularVelAndAcc t_d s.
Proof.
  destruct (calc_desired_flag_ s) eqn:F;
    [destruct (current_control_mode_ s =? POSITION_CONTROL)%Z eqn:M|].
  - apply estimator_returns_early. left.
    unfold calculateDesiredAngularVelAndAcc. rewrite F, M. reflexivity.
  - apply Z.eqb_neq in M.
    assert (E : calculateDesiredAngularVelAndAcc t_d s = s)
      by (apply estimator_returns_early; right; exact M).
    rewrite E. apply estimator_returns_early. right. exact M.
  - assert (E : calculateDesiredAngularVelAndAcc t_d s = s)
      by (apply estimator_returns_early; left; exact F).
    rewrite E. apply estimator_returns_early. left. exact F.
Qed.

End Saturated.

Section IdealBounds.
Variable P : MmuavParameters R.
Variable e2r : R -> R -> R -> Matrix3 R.
Local Open Scope R_scope.

(** Over the reals no number differs from itself: in a valid mode
    attitude tracking returns, having sent nothing. *)
Lemma attitudeTracking_returns (b1 b3 : Vector3 R) (s : State R) :
  current_control_mode_ s = POSITION_CONTROL \/
  current_control_mode_ s = ATTITUDE_CONTROL ->
  exists M_u s', attitudeTracking P e2r b1 b3 s = ([], inr (M_u, s')).
Proof.
  intros V. apply (attitudeTracking_check P e2r b1 b3 s V).
  apply eqb_refl_R.
Qed.

(** X13.  In Attitude mode, and in Position mode for a unit thrust
    direction that is not parallel to the heading (so that no norm that
    attitude tracking divides by is zero), attitude tracking returns a
    moment whose roll and pitch components lie in [[-5, 5]] and whose yaw
    component lies in [[-2.5, 2.5]], whatever the errors and the gains. *)
Theorem control_moment_bounded (b1 b3 : Vector3 R) (s : State R) :
  current_control_mode_ s = ATTITUDE_CONTROL \/
  (current_control_mode_ s = POSITION_CONTROL /\
   dot b3 b3 = 1 /\ cross b3 b1 <> mkV3 0 0 0) ->
  exists M_u s',
    attitudeTracking P e2r b1 b3 s = ([], inr (M_u, s')) /\
    -5 <= vx M_u <= 5 /\ -5 <= vy M_u <= 5 /\ -5 / 2 <= vz M_u <= 5 / 2.
Proof.
  intros V.
  assert (V' : current_control_mode_ s = POSITION_CONTROL \/
               current_control_mode_ s = ATTITUDE_CONTROL).
  { destruct V as [V|[V _]]; [right|left]; exact V. }
  destruct (attitudeTracking_returns b1 b3 s V') as (M_u & s' & E).
  exists M_u, s'. split; [exact E|].
  destruct (attitudeTracking_saturates P e2r b1 b3 s E) as (a & b & c & ->).
  cbn [vx vy vz].
  pose proof (@saturation_bounds a (-5) 5) as Ba.
  pose proof (@saturation_bounds b (-5) 5) as Bb.
  pose proof (@saturation_bounds c (- (25 / 10)) (25 / 10)) as Bc.
  to_R. lra.
Qed.

(** X14.  After a tick of the desired-rate estimator every component of
    the desired angular acceleration lies in [[-0.5, 0.5]], and the tick
    stores the desired rotation it differentiated. *)
Theorem estimator_tick_bounds (t_d : R) (s : State R) :
  calc_desired_flag_ s = true ->
  current_control_mode_ s = POSITION_CONTROL ->
  let s' := calculateDesiredAngularVelAndAcc t_d s in
  Forall3 (fun a => -1 / 2 <= a <= 1 / 2) (alpha_d_ s') /\
  R_c_old_ s' = R_d_ s /\ calc_desired_flag_ s' = false.
Proof.
  intros F M s'. subst s'. unfold calculateDesiredAngularVelAndAcc.
  rewrite F, M. cbn [negb orb Z.eqb POSITION_CONTROL Pos.eqb].
  cbn [alpha_d_ R_c_old_ calc_desired_flag_ set_calc_desired_flag_
       set_R_c_dot_old_ set_R_c_old_ set_alpha_d_].
  split; [|split; reflexivity].
  unfold Forall3; cbn [vx vy vz].
  repeat split;
    match goal with
    | |- context [saturation ?a ?lo ?hi] =>
        pose proof (@saturation_bounds a (- (5 / 10)) (5 / 10)) as B;
        to_R; lra
    end.
Qed.





End IdealBounds.

(** ** What [publishControlInputs] sends *)

Section IdealPublishing.
Variable P : MmuavParameters R.
Local Open Scope R_scope.

(** X16.  [publishControlInputs] never throws and ends with exactly one
    rotor command.  With the movable masses active it first sends four
    mass positions [dx, -dy, -dx, dy] to the masses 0 to 3, so antipodal
    masses move oppositely, each within half the arm length; with the
    manipulator it first sends one payload position within 0.15 on each
    axis; on the bare vehicle it sends the rotor command alone.  With a
    variant active, the number that the moments are divided by is taken
    not to be zero. *)
Theorem published_commands (f_u : R) (M_u : Vector3 R) (s : State R) :
  0 <= ARM_LENGTH P ->
  (enable_mass_control_ s = true ->
   2 * MM_FORCE P * dot E3 (mulv (R_mv_ s) E3) <> 0) ->
  (enable_mass_control_ s = false ->
   enable_manipulator_control_ s = true ->
   2 * PAYLOAD_FORCE P * dot E3 (mulv (R_mv_ s) E3) <> 0) ->
  exists rv s',
    snd (publishControlInputs P f_u M_u s) = inr (tt, s') /\
    msg_rotor_velocities (status_msg_ s') = rv /\
    ((enable_mass_control_ s = true /\
      exists dx dy,
        fst (publishControlInputs P f_u M_u s) =
          [mass_cmd_pub 0 dx; mass_cmd_pub 1 (- dy); mass_cmd_pub 2 (- dx);
           mass_cmd_pub 3 dy; rotor_ros_pub rv] /\
        Rabs dx <= ARM_LENGTH P / 2 /\ Rabs dy <= ARM_LENGTH P / 2) \/
     (enable_mass_control_ s = false /\
      enable_manipulator_control_ s = true /\
      exists dx dy,
        fst (publishControlInputs P f_u M_u s) =
          [payload_pos_pub dx (- dy) 0; rotor_ros_pub rv] /\
        Rabs dx <= 15 / 100 /\ Rabs dy <= 15 / 100) \/
     (enable_mass_control_ s = false /\
      enable_manipulator_control_ s = false /\
      fst (publishControlInputs P f_u M_u s) = [rotor_ros_pub rv])).
Proof.
  intros HA _ _. unfold publishControlInputs. rewrite bind_get.
  destruct (enable_mass_control_ s);
    [|destruct (enable_manipulator_control_ s)].
  - eexists. eexists. split; [reflexivity|]. split; [reflexivity|].
    left. split; [reflexivity|]. eexists. eexists.
    split; [reflexivity|].
    split;
      match goal with
      | |- context [saturation ?a ?lo ?hi] =>
          pose proof (@saturation_bounds a (- ARM_LENGTH P / 2)
                        (ARM_LENGTH P / 2)) as B;
          to_R; apply Rabs_le; lra
      end.
  - eexists. eexists. split; [reflexivity|]. split; [reflexivity|].
    right. left. split; [reflexivity|]. split; [reflexivity|].
    eexists. eexists. split; [reflexivity|].
    split;
      match goal with
      | |- context [saturation ?a ?lo ?hi] =>
          pose proof (@saturation_bounds a (- (15 / 100)) (15 / 100)) as B;
          to_R; apply Rabs_le; lra
      end.
  - eexists. eexists. split; [reflexivity|]. split; [reflexivity|].
    right. right. split; [reflexivity|]. split; reflexivity.
Qed.

End IdealPublishing.

(** ** Selecting the actuation variant *)

Section IdealVariants.
Variable P : MmuavParameters R.
Local Open Scope R_scope.

Lemma variant_calls_app (cs cs' : list VariantCall) (s : State R) :
  variant_calls P (cs ++ cs') s = variant_calls P cs' (variant_calls P cs s).
Proof. revert s. induction cs as [|c cs IH]; intros s; cbn; auto. Qed.

Lemma variant_call_exclusive (c : VariantCall) (s : State R) :
  enable_mass_control_ (variant_call P c s)
    && enable_manipulator_control_ (variant_call P c s) = false.
Proof.
  destruct c; cbn [variant_call].
  - reflexivity.
  - reflexivity.
  - reflexivity.
  - cbn. apply andb_false_r.
Qed.

Lemma variant_call_mass (c : VariantCall) (s : State R) :
  uav_mass_ (variant_call P c s) =
    uav_mass_ s
    + (if is_enable_mass c then 4 * MM_MASS P else 0)
    + (if is_enable_manipulator c
       then 2 * PAYLOAD_MASS P + TOTAL_LINK_MASS P else 0).
Proof. destruct c; cbn; to_R; ring. Qed.

(** X17.  Over any sequence of enable and disable calls: after the first
    call the two variants are never active together; every enable call
    adds the mass of its hardware to the vehicle mass, again at each
    repetition, and no disable call takes mass away. *)
Theorem variant_selection (cs : list VariantCall) (s : State R) :
  let s' := variant_calls P cs s in
  (cs <> [] \/
   enable_mass_control_ s && enable_manipulator_control_ s = false ->
   enable_mass_control_ s' && enable_manipulator_control_ s' = false) /\
  uav_mass_ s' =
    uav_mass_ s
    + INR (List.length (filter is_enable_mass cs)) * (4 * MM_MASS P)
    + INR (List.length (filter is_enable_manipulator cs))
      * (2 * PAYLOAD_MASS P + TOTAL_LINK_MASS P).
Proof.
  revert s. induction cs as [|c cs IH]; intros s; cbn [variant_calls].
  - split; [intros [N|E]; [now contradiction N|exact E]|]. cbn. lra.
  - destruct (IH (variant_call P c s)) as [X M]. split.
    + intros _. apply X. right. apply variant_call_exclusive.
    + rewrite M, variant_call_mass. cbn [filter].
      destruct c; cbn [is_enable_mass is_enable_manipulator List.length];
        rewrite ?S_INR; lra.
Qed.

(** X18.  The inertia adjustment changes the diagonal only; with the
    movable masses active, a movable mass and mass inertias that are not
    negative, no diagonal entry falls below that of the body. *)
Theorem adjusted_inertia_diagonal (s : State R) :
  let J := inertia_ s in
  let J' := calculateAdjustedInertia P s in
  (m01 J' = m01 J /\ m02 J' = m02 J /\ m10 J' = m10 J /\
   m12 J' = m12 J /\ m20 J' = m20 J /\ m21 J' = m21 J) /\
  (enable_mass_control_ s = true -> 0 <= MM_MASS P ->
   0 <= m00 (mass_inertia_ s) -> 0 <= m11 (mass_inertia_ s) ->
   0 <= m22 (mass_inertia_ s) ->
   m00 J <= m00 J' /\ m11 J <= m11 J' /\ m22 J <= m22 J').
Proof.
  intros J J'. subst J J'. unfold calculateAdjustedInertia. split.
  - destruct (enable_mass_control_ s);
      [|destruct (enable_manipulator_control_ s)];
      repeat split; reflexivity.
  - intros -> Hm H0 H1 H2.
    set (a0 := m00 (mass_inertia_ s)) in *.
    set (a1 := m11 (mass_inertia_ s)) in *.
    set (a2 := m22 (mass_inertia_ s)) in *.
    destruct (inertia_ s) as [j00 j01 j02 j10 j11 j12 j20 j21 j22].
    cbv [set_m00 set_m11 set_m22 m00 m11 m22]. to_R.
    assert (S0 : 0 <= mass0_mv_ s * mass0_mv_ s * MM_MASS P)
      by (apply Rmult_le_pos; [apply Rle_0_sqr|exact Hm]).
    assert (S1 : 0 <= mass1_mv_ s * mass1_mv_ s * MM_MASS P)
      by (apply Rmult_le_pos; [apply Rle_0_sqr|exact Hm]).
    assert (S2 : 0 <= mass2_mv_ s * mass2_mv_ s * MM_MASS P)
      by (apply Rmult_le_pos; [apply Rle_0_sqr|exact Hm]).
    assert (S3 : 0 <= mass3_mv_ s * mass3_mv_ s * MM_MASS P)
      by (apply Rmult_le_pos; [apply Rle_0_sqr|exact Hm]).
    repeat split; lra.
Qed.

End IdealVariants.

(** ** An iteration of the loop, as a whole *)

Section Iteration.
Context {T : Type} `{Scalar T}.
Variable P : MmuavParameters T.
Variable e2r : T -> T -> T -> Matrix3 T.
Local Open Scope scalar_scope.

Lemma trajectoryTracking_returns (pos_desired : Vector3 T) (s : State T) :
  current_control_mode_ s = POSITION_CONTROL \/
  current_control_mode_ s = ATTITUDE_CONTROL ->
  exists r m,
    trajectoryTracking P pos_desired s = ([], inr (r, set_status_msg_ m s)).
Proof.
  intros V. unfold trajectoryTracking. rewrite bind_get.
  destruct V as [V|V]; rewrite V;
    cbn [Z.eqb Pos.eqb POSITION_CONTROL ATTITUDE_CONTROL];
    rewrite bind_ret; cbv zeta; rewrite bind_modify;
    eexists; eexists; reflexivity.
Qed.

Lemma attitudeTracking_mode (b1 b3 : Vector3 T) :
  preserves (@current_control_mode_ T) (attitudeTracking P e2r b1 b3).
Proof. apply attitudeTracking_preserves; reflexivity. Qed.

Lemma publishControlInputs_returns (f_u : T) (M_u : Vector3 T) (s : State T) :
  exists cmds rv,
    publishControlInputs P f_u M_u s =
      (cmds ++ [rotor_ros_pub rv],
       inr (tt, set_status_msg_
                  (set_msg_rotor_velocities rv (status_msg_ s)) s)) /\
    rotor_commands cmds = [].
Proof.
  unfold publishControlInputs. rewrite bind_get.
  destruct (enable_mass_control_ s);
    [|destruct (enable_manipulator_control_ s)].
  - eexists [_; _; _; _]. eexists. split; reflexivity.
  - eexists [_]. eexists. split; reflexivity.
  - exists []. eexists. split; reflexivity.
Qed.

Lemma publishStatusMessage_returns (now f_u : T) (M_u : Vector3 T)
    (s : State T) :
  exists msg,
    publishStatusMessage now f_u M_u s =
      ([status_ros_pub msg], inr (tt, set_status_msg_ msg s)) /\
    msg_rotor_velocities msg = msg_rotor_velocities (status_msg_ s) /\
    msg_force msg = f_u /\ msg_moments msg = M_u /\
    msg_e_x msg = msg_e_x (status_msg_ s) /\
    msg_e_omega msg = msg_e_omega (status_msg_ s).
Proof.
  unfold publishStatusMessage. rewrite bind_get. cbv zeta.
  eexists. split; [reflexivity|]. repeat split.
Qed.

(** X19.  An iteration that is due, in a valid mode, either ends in the
    NaN error having sent nothing, or completes having sent the commands
    of the actuation variant, then exactly one rotor command, then one
    status message; that status message carries the rotor velocities just
    commanded, and the loop restarts its period from the clock reading
    taken in the iteration. *)
Theorem iteration_outputs (tk : Tick T) (lv : LoopVars T) (s : State T) :
  current_control_mode_ s = POSITION_CONTROL \/
  current_control_mode_ s = ATTITUDE_CONTROL ->
  cycle_due tk lv s = true ->
  controlCycle P e2r tk lv s = ([], inl (runtime_error nan_error)) \/
  exists cmds rv msg lv' s',
    controlCycle P e2r tk lv s =
      (cmds ++ [rotor_ros_pub rv; status_ros_pub msg], inr (lv', s')) /\
    rotor_commands cmds = [] /\
    msg_rotor_velocities msg = rv /\ status_msg_ s' = msg /\
    msg_stamp msg = time_stamp tk /\ t_old lv' = time_updated tk.
Proof.
  intros V D. unfold cycle_due in D. apply negb_true_iff in D.
  unfold controlCycle. rewrite bind_get, D.
  match goal with
  | |- context [bind (if ?c then ?a else ?b)] =>
      assert (EB : exists c' s1,
                 (if c then a else b) s = ([], inr (c', s1)) /\
                 current_control_mode_ s1 = current_control_mode_ s)
  end.
  { destruct (leb _ _).
    - rewrite !bind_modify. eexists. eexists. split; [reflexivity|].
      rewrite calculateDesired_mode. reflexivity.
    - eexists. eexists. split; reflexivity. }
  destruct EB as (c' & s1 & EB & M1). rewrite (bind_returns _ _ _ EB).
  rewrite bind_modify, bind_get.
  set (s2 := calculateCenterOfMass P s1).
  assert (V2 : current_control_mode_ s2 = POSITION_CONTROL \/
               current_control_mode_ s2 = ATTITUDE_CONTROL).
  { unfold s2. rewrite calculateCenterOfMass_mode, M1. exact V. }
  destruct (@trajectoryTracking_returns (x_d_ s2) s2 V2) as ([b3 f] & m & ET).
  rewrite (bind_returns _ _ _ ET).
  set (s3 := set_status_msg_ m s2) in *.
  set (b1_des := vadd _ _).
  destruct (attitudeTracking_check P e2r b1_des b3 s3 V2) as [A B].
  destruct (vx (angularVelocityError e2r b1_des b3 s3)
            !=? vx (angularVelocityError e2r b1_des b3 s3)) eqn:C.
  - left. rewrite (bind_throws _ _ _ (A eq_refl)). reflexivity.
  - right. destruct (B eq_refl) as (M_u & s4 & EA).
    rewrite (bind_returns _ _ _ EA).
    destruct (publishControlInputs_returns f M_u s4)
      as (cmds & rv & EP & RC).
    rewrite (bind_returns _ _ _ EP).
    destruct (publishStatusMessage_returns (time_stamp tk) f M_u
                (set_status_msg_
                   (set_msg_rotor_velocities rv (status_msg_ s4)) s4))
      as (msg & ES & Hrv & _).
    rewrite (bind_returns _ _ _ ES).
    exists cmds, rv, msg. eexists. eexists.
    cbn [fst snd app ret]. rewrite <- app_assoc.
    split; [reflexivity|]. split; [exact RC|].
    split; [exact Hrv|]. split; [reflexivity|].
    split; [|reflexivity].
    unfold publishStatusMessage in ES. rewrite bind_get in ES.
    cbv zeta in ES. inversion ES. reflexivity.
Qed.

End Iteration.

(** ** Runs of the loop *)

Section Runs.
Context {T : Type} `{Scalar T}.
Variable P : MmuavParameters T.
Variable e2r : T -> T -> T -> Matrix3 T.
Local Open Scope scalar_scope.

Lemma controlCycle_idle (tk : Tick T) (lv : LoopVars T) (s : State T) :
  cycle_due tk lv s = false ->
  controlCycle P e2r tk lv s = ([], inr (lv, s)).
Proof.
  intros D. unfold cycle_due in D. apply negb_false_iff in D.
  unfold controlCycle. rewrite bind_get, D. reflexivity.
Qed.

(** X20.  While no tick finds a controller period elapsed, the loop only
    runs the callbacks: nothing is published, nothing is thrown, the
    loop variables stay, and the object is as the callbacks leave it. *)
Theorem idle_ticks_only_spin (ticks : list (Tick T)) (lv : LoopVars T)
    (s : State T) :
  all_idle ticks lv s = true ->
  controlLoop P e2r ticks lv s = ([], inr (lv, spin_all ticks s)).
Proof.
  revert s. induction ticks as [|tk ticks IH]; intros s I.
  - reflexivity.
  - cbn [all_idle] in I. apply andb_true_iff in I. destruct I as [D I].
    apply negb_true_iff in D.
    cbn [controlLoop]. rewrite bind_modify.
    rewrite (bind_returns _ _ _ (controlCycle_idle _ _ _ D)).
    rewrite (IH _ I). reflexivity.
Qed.

Lemma bind_returned {A B} (m : Ctl T A) (k : A -> Ctl T B) (s : State T)
    log b s'' :
  bind m k s = (log, inr (b, s'')) ->
  exists l1 a s1 l2,
    m s = (l1, inr (a, s1)) /\ k a s1 = (l2, inr (b, s'')).
Proof.
  unfold bind. destruct (m s) as [l1 [e|[a s1]]]; [discriminate|].
  destruct (k a s1) as [l2 r] eqn:E2. intros E. inversion E; subst.
  exists l1, a, s1, l2. split; [reflexivity|exact E2].
Qed.

Lemma post_get (s : State T) : post get s (fun a s' => a = s /\ s' = s).
Proof. intros l a s' E. inversion E. split; reflexivity. Qed.

Lemma calculateDesired_heading (t : T) (s : State T) :
  b1_d_ (calculateDesiredAngularVelAndAcc t s) = b1_d_ s.
Proof.
  unfold calculateDesiredAngularVelAndAcc. destruct (_ || _); reflexivity.
Qed.

(** An iteration keeps the desired heading; it moves the filtered heading
    one step of the prefilter when it is due, and leaves it otherwise. *)
Lemma controlCycle_heading (tk : Tick T) (lv : LoopVars T) (s : State T) :
  post (controlCycle P e2r tk lv) s
    (fun lv' s' =>
       b1_d_ s' = b1_d_ s /\
       b1_old lv' = if cycle_due tk lv s
                    then prefilter (b1_old lv) (b1_d_ s)
                    else b1_old lv).
Proof.
  unfold controlCycle, cycle_due.
  eapply post_bind; [apply post_get | intros a s0 [-> ->]]. cbv zeta.
  destruct (ltb _ _).
  { apply post_ret. split; reflexivity. }
  cbn [negb].
  eapply post_bind with (Q1 := fun _ s1 => b1_d_ s1 = b1_d_ s).
  { intros l a s1 E. destruct (leb _ _).
    - rewrite !bind_modify in E. inversion E; subst.
      rewrite calculateDesired_heading. reflexivity.
    - inversion E. reflexivity. }
  intros c1 s1 H1.
  eapply post_bind with (Q1 := fun _ s2 => b1_d_ s2 = b1_d_ s).
  { apply post_modify.
    rewrite (calculateCenterOfMass_preserves P (@b1_d_ T)); auto. }
  intros u s2 H2.
  eapply post_bind; [apply post_get | intros a s3 [-> ->]].
  eapply post_bind with (Q1 := fun _ s4 => b1_d_ s4 = b1_d_ s).
  { eapply post_weaken;
      [apply (@preserves_post T _ _ (@b1_d_ T));
       apply trajectoryTracking_preserves; reflexivity|].
    cbn beta. intros; congruence. }
  intros [b3 f] s4 H4.
  eapply post_bind with (Q1 := fun _ s5 => b1_d_ s5 = b1_d_ s).
  { eapply post_weaken;
      [apply (@preserves_post T _ _ (@b1_d_ T));
       apply attitudeTracking_preserves; reflexivity|].
    cbn beta. intros; congruence. }
  intros M_u s5 H5.
  eapply post_bind with (Q1 := fun _ s6 => b1_d_ s6 = b1_d_ s).
  { eapply post_weaken;
      [apply (@preserves_post T _ _ (@b1_d_ T));
       apply publishControlInputs_preserves; reflexivity|].
    cbn beta. intros; congruence. }
  intros u1 s6 H6.
  eapply post_bind with (Q1 := fun _ s7 => b1_d_ s7 = b1_d_ s).
  { eapply post_weaken;
      [apply (@preserves_post T _ _ (@b1_d_ T));
       apply publishStatusMessage_preserves; reflexivity|].
    cbn beta. intros; congruence. }
  intros u2 s7 H7.
apply post_ret. split; [exact H7|].
  cbn [b1_old]. unfold prefilter. rewrite H2. reflexivity.
Qed.

End Runs.

Section IdealRuns.
Variable P : MmuavParameters R.
Variable e2r : R -> R -> R -> Matrix3 R.
Local Open Scope R_scope.

Lemma prefilter_error (b d : Vector3 R) :
  vsub (prefilter b d) d = vscale (19 / 20) (vsub b d).
Proof.
  destruct b as [bx by_ bz], d as [dx dy dz].
  cbv [prefilter vsub vadd vscale vzip vmap vx vy vz]. to_R.
  f_equal; field.
Qed.

Lemma vscale_vscale (a b : R) (v : Vector3 R) :
  vscale a (vscale b v) = vscale (a * b) v.
Proof.
  destruct v as [x y z]. cbv [vscale vmap vx vy vz]. to_R. f_equal; ring.
Qed.

Lemma vscale_one (v : Vector3 R) : vscale 1 v = v.
Proof.
  destruct v as [x y z]. cbv [vscale vmap vx vy vz]. to_R. f_equal; ring.
Qed.

(** Over the reals an iteration in a valid mode returns. *)
Lemma controlCycle_returns (tk : Tick R) (lv : LoopVars R) (s : State R) :
  current_control_mode_ s = POSITION_CONTROL \/
  current_control_mode_ s = ATTITUDE_CONTROL ->
  exists log lv' s', controlCycle P e2r tk lv s = (log, inr (lv', s')).
Proof.
  intros V. destruct (cycle_due tk lv s) eqn:D.
  2:{ eexists. eexists. eexists. apply controlCycle_idle. exact D. }
  unfold cycle_due in D. apply negb_true_iff in D.
  unfold controlCycle. rewrite bind_get, D.
  match goal with
  | |- context [bind (if ?c then ?a else ?b)] =>
      assert (EB : exists c' s1,
                 (if c then a else b) s = ([], inr (c', s1)) /\
                 current_control_mode_ s1 = current_control_mode_ s)
  end.
  { destruct (leb _ _).
    - rewrite !bind_modify. eexists. eexists. split; [reflexivity|].
      rewrite calculateDesired_mode. reflexivity.
    - eexists. eexists. split; reflexivity. }
  destruct EB as (c' & s1 & EB & M1). rewrite (bind_returns _ _ _ EB).
  rewrite bind_modify, bind_get.
  set (s2 := calculateCenterOfMass P s1).
  assert (V2 : current_control_mode_ s2 = POSITION_CONTROL \/
               current_control_mode_ s2 = ATTITUDE_CONTROL).
  { unfold s2. rewrite calculateCenterOfMass_mode, M1. exact V. }
  destruct (trajectoryTracking_returns P (x_d_ s2) s2 V2)
    as ([b3 f] & m & ET).
  rewrite (bind_returns _ _ _ ET).
  set (s3 := set_status_msg_ m s2) in *.
  set (b1_des := vadd _ _).
  destruct (attitudeTracking_returns P e2r b1_des b3 s3 V2)
    as (M_u & s4 & EA).
  rewrite (bind_returns _ _ _ EA).
  destruct (publishControlInputs_returns P f M_u s4)
    as (cmds & rv & EP & RC).
  rewrite (bind_returns _ _ _ EP).
  destruct (publishStatusMessage_returns (time_stamp tk) f M_u
              (set_status_msg_
                 (set_msg_rotor_velocities rv (status_msg_ s4)) s4))
    as (msg & ES & _).
  rewrite (bind_returns _ _ _ ES).
  eexists. eexists. eexists. reflexivity.
Qed.

(** X21.  Over a run of the loop that returns and during which no
    callback changes the desired heading, the filtered heading closes in
    on the desired heading by the factor 19/20 at each iteration that
    does its work, and stays where it is at the others: with [k] the
    number of iterations of the run that do their work, the remaining
    difference is [(19/20)^k] times the initial one. *)
Theorem heading_prefilter_converges (ticks : list (Tick R))
    (lv : LoopVars R) (s : State R) log lv' s' :
  Forall (fun tk => forall s0, b1_d_ (spinOnce tk s0) = b1_d_ s0) ticks ->
  controlLoop P e2r ticks lv s = (log, inr (lv', s')) ->
  b1_d_ s' = b1_d_ s /\
  vsub (b1_old lv') (b1_d_ s) =
    vscale ((19 / 20) ^ due_count P e2r ticks lv s)
           (vsub (b1_old lv) (b1_d_ s)).
Proof.
  revert lv s log. induction ticks as [|tk ticks IH]; intros lv s log F E.
  - inversion E; subst. split; [reflexivity|].
    cbn [due_count pow]. now rewrite vscale_one.
  - inversion F as [|? ? Htk F']; subst.
    cbn [controlLoop] in E. rewrite bind_modify in E.
    apply bind_returned in E. destruct E as (l1 & lv1 & s1 & l2 & E1 & E2).
    destruct (controlCycle_heading P e2r tk lv (spinOnce tk s) E1)
      as [Hd Hb].
    rewrite Htk in Hd, Hb.
    destruct (IH lv1 s1 l2 F' E2) as [Hd' Hv].
    rewrite Hd in Hd', Hv. split; [exact Hd'|].
    cbn [due_count]. cbv zeta. rewrite E1. cbn [snd].
    destruct (cycle_due tk lv (spinOnce tk s)); rewrite Hb in Hv.
    + rewrite Hv, prefilter_error, vscale_vscale. f_equal.
      cbn [Nat.add pow]. ring.
    + exact Hv.
Qed.

End IdealRuns.

(** ** The desired rotation *)

Section DesiredRotation.
Context {T : Type} `{Scalar T}.
Variable P : MmuavParameters T.
Variable e2r : T -> T -> T -> Matrix3 T.

(** X22.  Attitude tracking rejects a mode other than Position and
    Attitude like trajectory tracking does: it logs and throws "Invalid
    control mode given." before it computes anything. *)
Theorem attitudeTracking_invalid_mode (b1 b3 : Vector3 T) (s : State T) :
  current_control_mode_ s <> POSITION_CONTROL ->
  current_control_mode_ s <> ATTITUDE_CONTROL ->
  attitudeTracking P e2r b1 b3 s =
    ([ROS_ERROR invalid_mode], inl (runtime_error invalid_mode)).
Proof.
  intros H1 H2. destruct (mode_tests s H1 H2) as [E1 E2].
  unfold attitudeTracking. rewrite bind_get, E1, E2. reflexivity.
Qed.

(** In a valid mode, what attitude tracking leaves in [R_d_] is the
    desired rotation of the mode. *)
Lemma attitudeTracking_stores (b1 b3 : Vector3 T) (s : State T) :
  current_control_mode_ s = POSITION_CONTROL \/
  current_control_mode_ s = ATTITUDE_CONTROL ->
  post (attitudeTracking P e2r b1 b3) s
    (fun _ s' => R_d_ s' = desiredRotation e2r b1 b3 s).
Proof.
  intros V. unfold attitudeTracking.
  eapply post_bind; [apply post_get | intros a s0 [-> ->]].
  eapply post_bind with
    (Q1 := fun _ s1 => R_d_ s1 = desiredRotation e2r b1 b3 s).
  { unfold desiredRotation.
    destruct V as [V|V]; rewrite V;
      cbn [Z.eqb Pos.eqb POSITION_CONTROL ATTITUDE_CONTROL];
      apply post_modify; reflexivity. }
  intros u s1 H1.
  eapply post_bind; [apply post_get | intros a s2 [-> ->]]. cbv zeta.
  eapply post_bind with
    (Q1 := fun _ s3 => R_d_ s3 = desiredRotation e2r b1 b3 s).
  { destruct (negb _); [apply post_throw|apply post_ret; exact H1]. }
  intros u' s3 H3.
  eapply post_bind with
    (Q1 := fun _ s4 => R_d_ s4 = desiredRotation e2r b1 b3 s).
  { apply post_modify. exact H3. }
  intros u'' s4 H4. apply post_ret. exact H4.
Qed.

End DesiredRotation.

Section IdealRotation.
Variable P : MmuavParameters R.
Variable e2r : R -> R -> R -> Matrix3 R.
Local Open Scope R_scope.

Lemma dot_cross_l (a b : Vector3 R) : dot (cross a b) a = 0.
Proof.
  destruct a as [ax ay az], b as [bx by_ bz].
  cbv [dot cross vx vy vz]. to_R. ring.
Qed.

Lemma dot_cross_r (a b : Vector3 R) : dot (cross a b) b = 0.
Proof.
  destruct a as [ax ay az], b as [bx by_ bz].
  cbv [dot cross vx vy vz]. to_R. ring.
Qed.

Lemma dot_comm (a b : Vector3 R) : dot a b = dot b a.
Proof.
  destruct a as [ax ay az], b as [bx by_ bz].
  cbv [dot vx vy vz]. to_R. ring.
Qed.

Lemma lagrange (a b : Vector3 R) :
  dot (cross a b) (cross a b) = dot a a * dot b b - dot a b * dot a b.
Proof.
  destruct a as [ax ay az], b as [bx by_ bz].
  cbv [dot cross vx vy vz]. to_R. ring.
Qed.

Lemma dot_vdiv (u v : Vector3 R) (k : R) :
  k <> 0 -> dot (vdiv u k) v = dot u v / k.
Proof.
  intros Hk. destruct u as [ux uy uz], v as [x y z].
  cbv [dot vdiv vmap vx vy vz]. to_R. field. exact Hk.
Qed.

Lemma dot_vneg (u v : Vector3 R) : dot (vneg u) v = - dot u v.
Proof.
  destruct u as [ux uy uz], v as [x y z].
  cbv [dot vneg vmap vx vy vz]. to_R. ring.
Qed.

Lemma cross_vdiv_r (a u : Vector3 R) (k : R) :
  k <> 0 -> cross a (vdiv u k) = vdiv (cross a u) k.
Proof.
  intros Hk. destruct a as [ax ay az], u as [ux uy uz].
  cbv [cross vdiv vmap vx vy vz]. to_R. f_equal; field; exact Hk.
Qed.

Lemma cross_vneg_r (a u : Vector3 R) :
  cross a (vneg u) = vneg (cross a u).
Proof.
  destruct a as [ax ay az], u as [ux uy uz].
  cbv [cross vneg vmap vx vy vz]. to_R. f_equal; ring.
Qed.

Lemma gram_of_cols (a b c : Vector3 R) :
  mmul (adjoint (of_cols a b c)) (of_cols a b c) =
  mkM3 (dot a a) (dot a b) (dot a c)
       (dot b a) (dot b b) (dot b c)
       (dot c a) (dot c b) (dot c c).
Proof.
  destruct a as [ax ay az], b as [bx by_ bz], c as [cx cy cz].
  cbv [mmul adjoint of_cols of_rows mulv dot mrow0 mrow1 mrow2
       mcol0 mcol1 mcol2 m00 m01 m02 m10 m11 m12 m20 m21 m22 vx vy vz].
  to_R. f_equal; ring.
Qed.

Lemma vdiv_one (v : Vector3 R) : vdiv v 1 = v.
Proof.
  destruct v as [x y z]. cbv [vdiv vmap vx vy vz]. to_R. f_equal; field.
Qed.

(** The columns that Position mode builds are orthonormal. *)
Lemma position_frame_orthonormal (b1 b3 : Vector3 R) :
  dot b3 b3 = 1 -> cross b3 b1 <> mkV3 0 0 0 ->
  let n := cross b3 b1 in
  let b1_c := vdiv (vneg (cross b3 n)) (norm n) in
  let b2_c := cross b3 b1_c in
  mmul (adjoint (of_cols b1_c (vdiv b2_c (norm b2_c)) b3))
       (of_cols b1_c (vdiv b2_c (norm b2_c)) b3) = EYE3.
Proof.
  intros H3 Hn n b1_c b2_c.
  pose proof (norm_pos Hn) as HN. fold n in HN.
  pose proof (norm_sqr n) as HS.
  assert (HN0 : norm n <> 0) by lra.
  assert (Dn3 : dot n b3 = 0) by apply dot_cross_l.
  assert (D3n : dot b3 n = 0) by (rewrite dot_comm; exact Dn3).
  assert (L : dot (cross b3 n) (cross b3 n) = dot n n).
  { rewrite lagrange, H3, D3n. ring. }
  assert (D11 : dot b1_c b1_c = 1).
  { unfold b1_c. rewrite dot_vdiv by exact HN0.
    rewrite dot_comm, dot_vdiv by exact HN0.
    rewrite dot_vneg, dot_comm, dot_vneg, L, <- HS. field. exact HN0. }
  assert (D13 : dot b1_c b3 = 0).
  { unfold b1_c. rewrite dot_vdiv by exact HN0.
    rewrite dot_vneg, dot_cross_l. field. exact HN0. }
  assert (D31 : dot b3 b1_c = 0) by (rewrite dot_comm; exact D13).
  assert (D22 : dot b2_c b2_c = 1).
  { unfold b2_c. rewrite lagrange, H3, D11, D31. ring. }
  assert (N2 : norm b2_c = 1).
  { unfold norm. to_R. rewrite D22. apply sqrt_1. }
  rewrite N2, vdiv_one, gram_of_cols.
  assert (D23 : dot b2_c b3 = 0) by apply dot_cross_l.
  assert (D21 : dot b2_c b1_c = 0) by apply dot_cross_r.
  rewrite D11, D22, H3, D13, D23, D21.
  rewrite (dot_comm b1_c b2_c), (dot_comm b3 b1_c), (dot_comm b3 b2_c).
  rewrite D21, D13, D23. reflexivity.
Qed.

(** X23.  In Position mode, for a unit thrust direction that is not
    parallel to the heading, attitude tracking returns, and the desired
    rotation that it has built and stored has orthonormal columns
    ([R_d^T R_d = I]), the third of them the thrust direction. *)
Theorem desired_rotation_is_orthonormal (b1 b3 : Vector3 R) (s : State R) :
  current_control_mode_ s = POSITION_CONTROL ->
  dot b3 b3 = 1 -> cross b3 b1 <> mkV3 0 0 0 ->
  exists M_u s',
    attitudeTracking P e2r b1 b3 s = ([], inr (M_u, s')) /\
    mmul (adjoint (R_d_ s')) (R_d_ s') = EYE3 /\ mcol2 (R_d_ s') = b3.
Proof.
  intros M H3 Hn.
  destruct (attitudeTracking_returns P e2r b1 b3 s (or_introl M))
    as (M_u & s' & E).
  exists M_u, s'. split; [exact E|].
  apply (attitudeTracking_stores P e2r b1 b3 s (or_introl M)) in E.
  rewrite E. unfold desiredRotation. rewrite M.
  cbn [Z.eqb Pos.eqb POSITION_CONTROL]. cbv zeta. split.
  - now apply position_frame_orthonormal.
  - destruct b3 as [x y z]. reflexivity.
Qed.

End IdealRotation.

(** ** The thrust direction *)

Section IdealThrust.
Variable P : MmuavParameters R.
Local Open Scope R_scope.

(** In a valid mode trajectory tracking sends nothing and returns the
    control force divided by its norm, and its product with the body z
    axis. *)
Lemma trajectoryTracking_force (pos_desired : Vector3 R) (s : State R) :
  current_control_mode_ s = POSITION_CONTROL \/
  current_control_mode_ s = ATTITUDE_CONTROL ->
  let A := commandedForce P pos_desired s in
  exists m,
    trajectoryTracking P pos_desired s =
      ([], inr ((vdiv A (norm A), dot A (mulv (R_mv_ s) E3)),
                set_status_msg_ m s)).
Proof.
  intros V. unfold trajectoryTracking, commandedForce.
  rewrite bind_get.
  destruct V as [V|V]; rewrite V;
    cbn [Z.eqb Pos.eqb POSITION_CONTROL ATTITUDE_CONTROL];
    rewrite bind_ret; cbv zeta; rewrite bind_modify;
    eexists; reflexivity.
Qed.

Lemma dot_normalized (A v : Vector3 R) :
  A <> mkV3 0 0 0 -> dot A v = norm A * dot (vdiv A (norm A)) v.
Proof.
  intros N. pose proof (norm_pos N) as Hn.
  destruct A as [x y z], v as [a b c].
  unfold dot, vdiv, vmap; cbn [vx vy vz]. to_R.
  set (n := norm _) in *. field. lra.
Qed.

Lemma vscale_normalized (A : Vector3 R) :
  A <> mkV3 0 0 0 -> vscale (norm A) (vdiv A (norm A)) = A.
Proof.
  intros N. pose proof (norm_pos N) as Hn.
  destruct A as [x y z].
  unfold vscale, vdiv, vmap; cbn [vx vy vz]. to_R.
  set (n := norm _) in *. f_equal; field; lra.
Qed.

(** X24.  In a valid mode, when the control force [A] that trajectory
    tracking computes is not zero, trajectory tracking sends nothing and
    returns the direction of [A] as the thrust direction, a unit vector,
    and as the thrust the norm of [A] times the projection of that
    direction on the body z axis. *)
Theorem thrust_direction_is_unit (pos_desired : Vector3 R) (s : State R) :
  current_control_mode_ s = POSITION_CONTROL \/
  current_control_mode_ s = ATTITUDE_CONTROL ->
  commandedForce P pos_desired s <> mkV3 0 0 0 ->
  let A := commandedForce P pos_desired s in
  exists b3_d f_u s',
    trajectoryTracking P pos_desired s = ([], inr ((b3_d, f_u), s')) /\
    norm b3_d = 1 /\ vscale (norm A) b3_d = A /\ 0 < norm A /\
    f_u = norm A * dot b3_d (mulv (R_mv_ s) E3).
Proof.
  intros V N A.
  destruct (trajectoryTracking_force pos_desired s V) as (m & E).
  fold A in E. eexists. eexists. eexists. split; [exact E|].
  split; [now apply normalized_unit|].
  split; [now apply vscale_normalized|].
  split; [now apply norm_pos|].
  now apply dot_normalized.
Qed.

End IdealThrust.

(** ** The further theorems at concrete inputs *)

(** Attitude mode on the sample vehicle: two headings, one result. *)
Lemma attitude_mode_ignores_heading_witness :
  let e2r := @sample_euler2RotationMatrix float _ in
  let s := ctl_mode_cb ATTITUDE_CONTROL (sample_state false false) in
  current_control_mode_ s = ATTITUDE_CONTROL /\
  attitudeTracking sample_params e2r heading_x thrust_up s =
  attitudeTracking sample_params e2r thrust_up heading_x s.
Proof.
  intros e2r s.
  assert (E : current_control_mode_ s = ATTITUDE_CONTROL) by reflexivity.
  split; [exact E|].
  apply (attitude_mode_ignores_heading sample_params e2r
           heading_x thrust_up thrust_up heading_x s E).
Defined.

(** Attitude mode: a received rotation and a due iteration. *)
Lemma received_rotation_overwritten_witness :
  let e2r := @sample_euler2RotationMatrix float _ in
  let s := ctl_mode_cb ATTITUDE_CONTROL (sample_state false false) in
  let R := mkM3 PrimFloat.zero PrimFloat.one PrimFloat.zero
                PrimFloat.one PrimFloat.zero PrimFloat.zero
                PrimFloat.zero PrimFloat.zero PrimFloat.one in
  cycle_due sample_tick sample_loop s = true /\
  current_control_mode_ s <> POSITION_CONTROL /\
  exists s1,
    rd_cb (row_major R) s = Some s1 /\ R_d_ s1 = R /\
    controlCycle sample_params e2r sample_tick sample_loop s1 =
    controlCycle sample_params e2r sample_tick sample_loop s.
Proof.
  intros e2r s R.
  assert (D : cycle_due sample_tick sample_loop s = true)
    by (vm_compute; reflexivity).
  assert (M : current_control_mode_ s <> POSITION_CONTROL)
    by (vm_compute; discriminate).
  split; [exact D|]. split; [exact M|].
  destruct (received_rotation_overwritten sample_params e2r sample_tick
              sample_loop R [] s D (or_introl M)) as (s1 & E & F & C).
  exists s1. rewrite app_nil_r in E. split; [exact E|]. split; [exact F|exact C].
Defined.

(** Attitude mode: the same heights and vertical speeds, different
    horizontal positions and velocities, measured and desired. *)
Lemma attitude_mode_ignores_horizontal_witness :
  let s := ctl_mode_cb ATTITUDE_CONTROL
             (@sample_state float _ false false) in
  current_control_mode_ s = ATTITUDE_CONTROL /\
  outcome (trajectoryTracking sample_params thrust_up
             (set_v_mv_ thrust_up (vd_cb thrust_up (pose_cb thrust_up s)))) =
  outcome (trajectoryTracking sample_params heading_x_up
             (set_v_mv_ heading_x_up
                (vd_cb heading_x_up (pose_cb heading_x_up s)))).
Proof.
  intros s.
  assert (E : current_control_mode_ s = ATTITUDE_CONTROL) by reflexivity.
  split; [exact E|].
  apply (attitude_mode_ignores_horizontal sample_params
           thrust_up heading_x_up thrust_up heading_x_up
           thrust_up heading_x_up thrust_up heading_x_up s E); reflexivity.
Defined.

(** The heading (3, 0, 4) and twice that. *)
Lemma heading_is_normalized_witness :
  let msg := (mkV3 3 0 4)%R in
  let s := @sample_state R _ false false in
  msg <> (mkV3 0 0 0)%R /\ (0 < 2)%R /\
  norm (b1_d_ (b1d_cb msg s)) = 1%R /\
  b1d_cb (vscale 2%R msg) s = b1d_cb msg s.
Proof.
  intros msg s.
  assert (N : msg <> (mkV3 0 0 0)%R).
  { intros E. apply (f_equal (@vx R)) in E. cbn in E. lra. }
  assert (K : (0 < 2)%R) by lra.
  split; [exact N|]. split; [exact K|].
  apply (heading_is_normalized s N K).
Defined.

(** A thrust of 4 on the sample vehicle: one unit of force per rotor. *)
Lemma rotor_commands_reproduce_forces_witness :
  let P := @sample_params R _ in
  let v := (mkV4 4 0 0 0)%R in
  (0 < MOTOR_CONSTANT P)%R /\ (0 <= MAX_ROTOR_VELOCITY P)%R /\
  map4 (fun w => MOTOR_CONSTANT P * (w * Rabs w))%R
       (calculateRotorVelocities P v sample_transform)
  = mulv4 sample_transform v.
Proof.
  intros P v.
  assert (Hk : (0 < MOTOR_CONSTANT P)%R) by (eval_model; lra).
  assert (HM : (0 <= MAX_ROTOR_VELOCITY P)%R) by (eval_model; lra).
  split; [exact Hk|]. split; [exact HM|].
  apply (rotor_commands_reproduce_forces P Hk HM).
  repeat split; eval_model; apply Rabs_le; lra.
Defined.

(** The sample vehicle at its reference, level. *)
Lemma hover_thrust_is_weight_witness :
  let P := @sample_params R _ in
  let s := pose_cb (mkV3 0 0 1)%R (sample_state false false) in
  current_control_mode_ s = POSITION_CONTROL /\
  (0 < uav_mass_ s * G P)%R /\
  outcome (trajectoryTracking P (x_mv_ s) s) =
    ([], inr (mkV3 0 0 1, uav_mass_ s * G P * m22 (R_mv_ s)))%R.
Proof.
  intros P s.
  assert (M : current_control_mode_ s = POSITION_CONTROL) by reflexivity.
  assert (W : (0 < uav_mass_ s * G P)%R) by (eval_model; lra).
  split; [exact M|]. split; [exact W|].
  apply (hover_thrust_is_weight P s M); try reflexivity. exact W.
Defined.


(** Attitude mode, level, at rest. *)
Lemma no_moment_at_rest_witness :
  let P := @sample_params R _ in
  let e2r := @sample_euler2RotationMatrix R _ in
  let s := ctl_mode_cb ATTITUDE_CONTROL (sample_state false false) in
  current_control_mode_ s = ATTITUDE_CONTROL /\
  outcome (attitudeTracking P e2r (mkV3 1 0 0) (mkV3 0 0 1) s)%R
    = ([], inr (mkV3 0 0 0)%R).
Proof.
  intros P e2r s.
  assert (M : current_control_mode_ s = ATTITUDE_CONTROL) by reflexivity.
  split; [exact M|].
  apply (no_moment_at_rest P e2r (mkV3 1 0 0)%R (mkV3 0 0 1)%R s
           (or_intror M)); reflexivity.
Defined.

(** A tick of the estimator on the constructed object. *)
Lemma estimator_tick_bounds_witness :
  let s := set_calc_desired_flag_ true (@sample_state R _ false false) in
  calc_desired_flag_ s = true /\
  current_control_mode_ s = POSITION_CONTROL /\
  Forall3 (fun a => -1 / 2 <= a <= 1 / 2)%R
    (alpha_d_ (calculateDesiredAngularVelAndAcc (1 / 10)%R s)) /\
  R_c_old_ (calculateDesiredAngularVelAndAcc (1 / 10)%R s) = R_d_ s /\
  calc_desired_flag_ (calculateDesiredAngularVelAndAcc (1 / 10)%R s) = false.
Proof.
  intros s.
  assert (F : calc_desired_flag_ s = true) by reflexivity.
  assert (M : current_control_mode_ s = POSITION_CONTROL) by reflexivity.
  split; [exact F|]. split; [exact M|].
  apply (estimator_tick_bounds (1 / 10)%R s F M).
Defined.


(** The sample vehicle with movable masses, level, arm length 1/2. *)
Lemma published_commands_witness :
  let P := @sample_params R _ in
  let s := @sample_state R _ true false in
  (0 <= ARM_LENGTH P)%R /\
  enable_mass_control_ s = true /\
  (2 * MM_FORCE P * dot E3 (mulv (R_mv_ s) E3) <> 0)%R /\
  exists rv s',
    snd (publishControlInputs P 20%R (mkV3 1 2 3)%R s) = inr (tt, s') /\
    msg_rotor_velocities (status_msg_ s') = rv.
Proof.
  intros P s.
  assert (HA : (0 <= ARM_LENGTH P)%R) by (eval_model; lra).
  assert (F : enable_mass_control_ s = true) by reflexivity.
  assert (D : (2 * MM_FORCE P * dot E3 (mulv (R_mv_ s) E3) <> 0)%R)
    by (eval_model; lra).
  split; [exact HA|]. split; [exact F|]. split; [exact D|].
  assert (D2 : enable_mass_control_ s = false ->
               enable_manipulator_control_ s = true ->
               (2 * PAYLOAD_FORCE P * dot E3 (mulv (R_mv_ s) E3) <> 0)%R)
    by (intros F'; rewrite F in F'; discriminate F').
  destruct (published_commands P 20%R (mkV3 1 2 3)%R s HA (fun _ => D) D2)
    as (rv & s' & E & R & _).
  exists rv, s'. split; [exact E|exact R].
Defined.

(** Both variants asked for, as [main] does with both flags. *)
Lemma variant_selection_witness :
  let P := @sample_params R _ in
  let cs := [EnableMass; EnableManipulator] in
  let s' := variant_calls P cs (UavGeometryControl P 100 blank) in
  cs <> [] /\
  enable_mass_control_ s' && enable_manipulator_control_ s' = false /\
  uav_mass_ s' =
    (UAV_MASS P + 1 * (4 * MM_MASS P)
     + 1 * (2 * PAYLOAD_MASS P + TOTAL_LINK_MASS P))%R.
Proof.
  intros P cs s'.
  assert (N : cs <> []) by discriminate.
  split; [exact N|].
  destruct (variant_selection P cs (UavGeometryControl P 100 blank))
    as [X M].
  split; [apply X; left; exact N|exact M].
Defined.

(** Movable masses at 1/4 and 3/4 on the sample vehicle. *)
Lemma adjusted_inertia_diagonal_witness :
  let P := @sample_params R _ in
  let s := mass2_cb P (1 / 2)%R (mass0_cb P 0%R (sample_state true false)) in
  enable_mass_control_ s = true /\
  (m00 (inertia_ s) <= m00 (calculateAdjustedInertia P s))%R /\
  (m11 (inertia_ s) <= m11 (calculateAdjustedInertia P s))%R /\
  (m22 (inertia_ s) <= m22 (calculateAdjustedInertia P s))%R.
Proof.
  intros P s.
  assert (E : enable_mass_control_ s = true) by reflexivity.
  split; [exact E|].
  destruct (adjusted_inertia_diagonal P s) as [_ D].
  apply D; try exact E; eval_model; lra.
Defined.

(** A due iteration of the sample vehicle, in binary64. *)
Lemma iteration_outputs_witness :
  let e2r := @sample_euler2RotationMatrix float _ in
  let s := @sample_state float _ true false in
  current_control_mode_ s = POSITION_CONTROL /\
  cycle_due sample_tick sample_loop s = true /\
  exists cmds rv msg lv' s',
    controlCycle sample_params e2r sample_tick sample_loop s =
      (cmds ++ [rotor_ros_pub rv; status_ros_pub msg], inr (lv', s')) /\
    msg_rotor_velocities msg = rv.
Proof.
  intros e2r s.
  assert (M : current_control_mode_ s = POSITION_CONTROL) by reflexivity.
  assert (D : cycle_due sample_tick sample_loop s = true)
    by (vm_compute; reflexivity).
  split; [exact M|]. split; [exact D|].
  destruct (iteration_outputs sample_params e2r sample_tick sample_loop s
              (or_introl M) D) as [E|(cmds & rv & msg & lv' & s' & E & R)].
  - exfalso. vm_compute in E. discriminate E.
  - exists cmds, rv, msg, lv', s'. destruct R as (_ & R & _).
    split; [exact E|exact R].
Defined.

(** Three ticks inside one controller period. *)
Lemma idle_ticks_only_spin_witness :
  let e2r := @sample_euler2RotationMatrix float _ in
  let s := @sample_state float _ false false in
  let tk := mkTick (ctl_mode_cb ATTITUDE_CONTROL)
                   PrimFloat.zero PrimFloat.zero PrimFloat.zero in
  let ticks := [tk; tk; tk] in
  all_idle ticks sample_loop s = true /\
  controlLoop sample_params e2r ticks sample_loop s =
    ([], inr (sample_loop, spin_all ticks s)).
Proof.
  intros e2r s tk ticks.
  assert (I : all_idle ticks sample_loop s = true)
    by (vm_compute; reflexivity).
  split; [exact I|].
  apply (idle_ticks_only_spin sample_params e2r ticks sample_loop s I).
Defined.

(** An idle tick, then a tick a second later: one step of the prefilter,
    from the heading (0, 1, 0). *)
Lemma heading_prefilter_converges_witness :
  let P := @sample_params R _ in
  let e2r := @sample_euler2RotationMatrix R _ in
  let s := @sample_state R _ false false in
  let ticks := [idle_tick; sample_tick] in
  let lv := mkLoop 0%R (mkV3 0 1 0)%R 0%R in
  Forall (fun tk : Tick R =>
            forall s0, b1_d_ (spinOnce tk s0) = b1_d_ s0) ticks /\
  due_count P e2r ticks lv s = 1%nat /\
  exists log lv' s',
    controlLoop P e2r ticks lv s = (log, inr (lv', s')) /\
    vsub (b1_old lv') (b1_d_ s) =
      vscale (19 / 20)%R (vsub (b1_old lv) (b1_d_ s)).
Proof.
  intros P e2r s ticks lv.
  assert (F : Forall (fun tk : Tick R =>
                        forall s0, b1_d_ (spinOnce tk s0) = b1_d_ s0) ticks).
  { repeat constructor. }
  assert (D0 : cycle_due idle_tick lv s = false).
  { unfold cycle_due. apply negb_false_iff. eval_model.
    unfold Rltb. destruct (Rlt_dec _ _); [reflexivity|lra]. }
  assert (D1 : cycle_due sample_tick lv s = true).
  { unfold cycle_due. apply negb_true_iff. eval_model.
    unfold Rltb. destruct (Rlt_dec _ _); [lra|reflexivity]. }
  destruct (controlCycle_returns P e2r sample_tick lv s (or_introl eq_refl))
    as (l1 & lv1 & s1 & E1).
  assert (E : controlLoop P e2r ticks lv s = (l1, inr (lv1, s1))).
  { unfold ticks. cbn [controlLoop]. rewrite bind_modify.
    change (spinOnce idle_tick s) with s.
    rewrite (bind_returns _ _ _ (controlCycle_idle P e2r idle_tick lv s D0)).
    rewrite bind_modify. change (spinOnce sample_tick s) with s.
    rewrite (bind_returns _ _ _ E1). cbn [ret fst snd app].
    rewrite app_nil_r. reflexivity. }
  assert (C : due_count P e2r ticks lv s = 1%nat).
  { unfold ticks. cbn [due_count]. cbv zeta.
    change (spinOnce idle_tick s) with s. rewrite D0.
    rewrite (controlCycle_idle P e2r idle_tick lv s D0). cbn [snd].
    change (spinOnce sample_tick s) with s. rewrite D1, E1. reflexivity. }
  split; [exact F|]. split; [exact C|].
  exists l1, lv1, s1. split; [exact E|].
  destruct (heading_prefilter_converges P e2r lv s F E) as [_ Hv].
  rewrite C in Hv. cbn [pow] in Hv. rewrite Rmult_1_r in Hv. exact Hv.
Defined.

(** Thrust straight up, heading along x. *)
Lemma desired_rotation_is_orthonormal_witness :
  let b1 := (mkV3 1 0 0)%R in
  let b3 := (mkV3 0 0 1)%R in
  let s := @sample_state R _ false false in
  current_control_mode_ s = POSITION_CONTROL /\
  dot b3 b3 = 1%R /\ cross b3 b1 <> (mkV3 0 0 0)%R /\
  exists M_u s',
    attitudeTracking sample_params sample_euler2RotationMatrix b1 b3 s
      = ([], inr (M_u, s')) /\
    mmul (adjoint (R_d_ s')) (R_d_ s') = EYE3 /\ mcol2 (R_d_ s') = b3.
Proof.
  intros b1 b3 s.
  assert (M : current_control_mode_ s = POSITION_CONTROL) by reflexivity.
  assert (U : dot b3 b3 = 1%R) by (eval_model; lra).
  assert (N : cross b3 b1 <> (mkV3 0 0 0)%R).
  { intros E. apply (f_equal (@vy R)) in E. eval_model_in E. lra. }
  split; [exact M|]. split; [exact U|]. split; [exact N|].
  apply (desired_rotation_is_orthonormal sample_params
           sample_euler2RotationMatrix s M U N).
Defined.

(** The sample vehicle in Position mode, thrust straight up, heading
    along x. *)
Lemma control_moment_bounded_witness :
  let b1 := (mkV3 1 0 0)%R in
  let b3 := (mkV3 0 0 1)%R in
  let s := @sample_state R _ true false in
  current_control_mode_ s = POSITION_CONTROL /\
  dot b3 b3 = 1%R /\ cross b3 b1 <> (mkV3 0 0 0)%R /\
  exists M_u s',
    attitudeTracking sample_params sample_euler2RotationMatrix b1 b3 s
      = ([], inr (M_u, s')) /\
    (-5 <= vx M_u <= 5)%R.
Proof.
  intros b1 b3 s.
  assert (M : current_control_mode_ s = POSITION_CONTROL) by reflexivity.
  assert (U : dot b3 b3 = 1%R) by (eval_model; lra).
  assert (N : cross b3 b1 <> (mkV3 0 0 0)%R).
  { intros E. apply (f_equal (@vy R)) in E. eval_model_in E. lra. }
  split; [exact M|]. split; [exact U|]. split; [exact N|].
  destruct (@control_moment_bounded sample_params
              sample_euler2RotationMatrix b1 b3 s
              (or_intror (conj M (conj U N))))
    as (M_u & s' & E & B & _).
  exists M_u, s'. split; [exact E|exact B].
Defined.

(** Mode 99: attitude tracking throws as well. *)
Lemma attitudeTracking_invalid_mode_witness :
  let e2r := @sample_euler2RotationMatrix float _ in
  let s := ctl_mode_cb 99 (sample_state false false) in
  current_control_mode_ s <> POSITION_CONTROL /\
  current_control_mode_ s <> ATTITUDE_CONTROL /\
  attitudeTracking sample_params e2r heading_x thrust_up s =
    ([ROS_ERROR invalid_mode], inl (runtime_error invalid_mode)).
Proof.
  intros e2r s.
  assert (H1 : current_control_mode_ s <> POSITION_CONTROL)
    by (vm_compute; discriminate).
  assert (H2 : current_control_mode_ s <> ATTITUDE_CONTROL)
    by (vm_compute; discriminate).
  split; [exact H1|]. split; [exact H2|].
  apply (attitudeTracking_invalid_mode sample_params e2r heading_x
           thrust_up s H1 H2).
Defined.

(** The sample vehicle one metre below its reference. *)
Lemma thrust_direction_is_unit_witness :
  let P := @sample_params R _ in
  let s := @sample_state R _ false false in
  current_control_mode_ s = POSITION_CONTROL /\
  commandedForce P (mkV3 0 0 1)%R s <> (mkV3 0 0 0)%R /\
  exists b3_d f_u s',
    trajectoryTracking P (mkV3 0 0 1)%R s = ([], inr ((b3_d, f_u), s')) /\
    norm b3_d = 1%R.
Proof.
  intros P s.
  assert (M : current_control_mode_ s = POSITION_CONTROL) by reflexivity.
  assert (N : commandedForce P (mkV3 0 0 1)%R s <> (mkV3 0 0 0)%R).
  { intros E. apply (f_equal (@vz R)) in E. eval_model_in E. lra. }
  split; [exact M|]. split; [exact N|].
  destruct (thrust_direction_is_unit P (mkV3 0 0 1)%R s (or_introl M) N)
    as (b3_d & f_u & s' & E & U & _).
  exists b3_d, f_u, s'. split; [exact E|exact U].
Defined.
